(** * ProjectE: order tracking for a metalworking shop

    A shallow embedding of the analytical queries Q5, Q8, Q13, Q15 and Q16
    (queries.sql) and of the HTTP routes of backend/server.js that guard
    statistics, users and orders, with the properties that the
    specification states about them.

    Conventions of the embedding:
    - a table is a list of records, a nullable column is an [option];
    - identifiers and minute counts are integers ([Z]); a timestamp is the
      number of microseconds since the epoch ([Z]);
    - an SQL [numeric] value is an exact rational ([Q]).  PostgreSQL keeps at
      least 16 significant digits in a quotient, and every quotient below is
      rounded afterwards to at most two decimals of a value whose distance to
      a rounding boundary is either zero or far above that precision, so the
      exact quotient and the stored one round alike;
    - text is compared bytewise (the "C" collation);
    - ORDER BY is a stable insertion sort: among the orders SQL allows for
      rows with equal keys it picks the one that keeps the input order. *)

From Stdlib Require Import ZArith QArith Qround Lia List Sorted Permutation.
From Stdlib Require Import String Ascii Bool.
From stdpp Require Import base list strings gmap pretty.
Import ListNotations.

Local Open Scope string_scope.
Local Open Scope Z_scope.

(** ** SQL building blocks *)

Module Sql.

(** [A JOIN B ON on]. *)
Definition inner_join {A B : Type} (on : A -> B -> bool)
    (l : list A) (r : list B) : list (A * B) :=
  flat_map (fun a => map (pair a) (List.filter (on a) r)) l.

(** [A LEFT JOIN B ON on]: a row of [A] without a partner is kept once,
    with NULLs for the columns of [B]. *)
Definition left_join {A B : Type} (on : A -> B -> bool)
    (l : list A) (r : list B) : list (A * option B) :=
  flat_map (fun a =>
              match List.filter (on a) r with
              | [] => [(a, None)]
              | ms => map (fun b => (a, Some b)) ms
              end) l.

(** The distinct values of a list, in order of first appearance. *)
Fixpoint distinct {K : Type} (eqb : K -> K -> bool) (l : list K) : list K :=
  match l with
  | [] => []
  | k :: l' => k :: List.filter (fun k' => negb (eqb k' k)) (distinct eqb l')
  end.

(** [GROUP BY key]: one group per distinct key, holding the rows with it. *)
Definition group_by {K A : Type} (eqb : K -> K -> bool) (key : A -> K)
    (rows : list A) : list (K * list A) :=
  map (fun k => (k, List.filter (fun r => eqb (key r) k) rows))
      (distinct eqb (map key rows)).

(** [ORDER BY]: [leb x y] says that [x] may come before [y]. *)
Fixpoint insert_row {A : Type} (leb : A -> A -> bool) (x : A) (l : list A)
    : list A :=
  match l with
  | [] => [x]
  | y :: l' => if leb x y then x :: l else y :: insert_row leb x l'
  end.

Definition order_by {A : Type} (leb : A -> A -> bool) (l : list A) : list A :=
  fold_right (insert_row leb) [] l.

Definition sumZ {A : Type} (f : A -> Z) (l : list A) : Z :=
  fold_right (fun x acc => f x + acc) 0 l.

(** [SUM(e) FILTER (WHERE p)] over the rows of a group, for an expression
    that is never NULL: NULL when no row passes the filter. *)
Definition sum_filter {A : Type} (e : A -> Z) (p : A -> bool) (g : list A)
    : option Z :=
  match List.filter p g with
  | [] => None
  | rows => Some (sumZ e rows)
  end.

(** [COUNT( * ) FILTER (WHERE p)] and [COUNT( * )]. *)
Definition count_filter {A : Type} (p : A -> bool) (g : list A) : Z :=
  Z.of_nat (length (List.filter p g)).

Definition count_star {A : Type} (g : list A) : Z := Z.of_nat (length g).

(** [COALESCE(a, b, 0)]. *)
Definition coalesce3 (a b : option Z) (c : Z) : Z :=
  match a with
  | Some x => x
  | None => match b with Some y => y | None => c end
  end.

(** Rounding of a numeric to the nearest integer, ties away from zero. *)
Definition round_half_away (x : Q) : Z :=
  if Qle_bool 0 x then Qfloor (x + (1 # 2))
  else - Qfloor (- x + (1 # 2)).

(** [ROUND(x, d)]. *)
Definition round (x : Q) (d : nat) : Q :=
  (inject_Z (round_half_away (x * inject_Z (10 ^ Z.of_nat d)))
   / inject_Z (10 ^ Z.of_nat d))%Q.

(** Comparison of a nullable numeric sort key under [DESC]: PostgreSQL
    puts NULLs first in a descending sort. *)
Definition desc_nulls_first (a b : option Q) : bool :=
  match a, b with
  | None, _ => true
  | Some _, None => false
  | Some x, Some y => Qle_bool y x
  end.

(** Sort keys are compared one after the other. *)
Definition lex (c1 c2 : comparison) : comparison :=
  match c1 with
  | Eq => c2
  | _ => c1
  end.

Definition not_after (c : comparison) : bool :=
  match c with
  | Gt => false
  | _ => true
  end.

Definition eqb_option_string (a b : option string) : bool :=
  match a, b with
  | None, None => true
  | Some x, Some y => String.eqb x y
  | _, _ => false
  end.

End Sql.

(** ** The tables

    The script that declares the tables is not among the sources.  Each
    table has the columns that the queries read; nullability follows
    section 3 of the specification and the NULL handling of the queries
    themselves (COALESCE, IS NOT NULL, LEFT JOIN). *)

Module Schema.

(** Modelled from the spec: table [orders] ("Order: identity, ...,
    status"). *)
Record Order := {
  o_id : Z;
  o_status : string
}.

(** Modelled from the spec: table [order_items] ("belongs to exactly one
    Order; references a Product"). *)
Record OrderItem := {
  oi_id : Z;
  oi_order_id : Z;
  oi_product_id : Z
}.

(** Modelled from the spec: table [products]. *)
Record Product := {
  p_id : Z;
  p_name : string
}.

(** Modelled from the spec: table [operations] ("name, default_minutes
    (fallback planning estimate)"). *)
Record Operation := {
  op_id : Z;
  op_name : string;
  op_default_minutes : option Z
}.

(** Modelled from the spec: table [workshops]. *)
Record Workshop := {
  w_id : Z;
  w_name : string
}.

(** Modelled from the spec: table [route_steps] ("belongs to exactly one
    OrderItem; has a step_no; references an Operation and optionally a
    Workshop; status; planned_minutes (optional); planned_finish"). *)
Record RouteStep := {
  rs_id : Z;
  rs_order_item_id : Z;
  rs_step_no : Z;
  rs_operation_id : Z;
  rs_workshop_id : option Z;
  rs_status : string;
  rs_planned_minutes : option Z;
  rs_planned_finish : option Z
}.

(** Modelled from the spec: table [equipment] ("optionally belongs to a
    Workshop"). *)
Record Equipment := {
  e_id : Z;
  e_name : string;
  e_workshop_id : option Z
}.

(** Modelled from the spec: table [operation_logs] ("belongs to exactly
    one RouteStep; optional equipment; status"). *)
Record OperationLog := {
  ol_id : Z;
  ol_route_step_id : Z;
  ol_equipment_id : option Z;
  ol_status : string
}.

(** The database that the queries read. *)
Record Db := {
  orders : list Order;
  order_items : list OrderItem;
  products : list Product;
  operations : list Operation;
  workshops : list Workshop;
  route_steps : list RouteStep;
  equipment : list Equipment;
  operation_logs : list OperationLog
}.

(** [x = c] for a nullable integer column [c]: NULL never matches. *)
Definition eq_nullable (x : Z) (c : option Z) : bool :=
  match c with
  | Some y => x =? y
  | None => false
  end.

End Schema.

(** ** The analytical queries *)

Module Analytics.
Import Sql Schema.

(** *** Q13: route steps behind their planned schedule *)

Record Q13Row := {
  q13_order_id : Z;
  q13_product : string;
  q13_step_no : Z;
  q13_operation : string;
  q13_workshop : option string;
  q13_step_status : string;
  q13_planned_finish : option Z;
  q13_checked_at : Z;
  q13_hours_overdue : option Q
}.

Definition Q13Joined : Type :=
  RouteStep * OrderItem * Order * Product * Operation * option Workshop.

Definition Q13_from (db : Db) : list Q13Joined :=
  left_join (fun '(rs, _, _, _, _) w => eq_nullable (w_id w) (rs_workshop_id rs))
    (inner_join (fun '(rs, _, _, _) op => op_id op =? rs_operation_id rs)
      (inner_join (fun '(_, oi, _) p => p_id p =? oi_product_id oi)
        (inner_join (fun '(_, oi) o => o_id o =? oi_order_id oi)
          (inner_join (fun rs oi => oi_id oi =? rs_order_item_id rs)
             (route_steps db) (order_items db))
          (orders db))
        (products db))
      (operations db))
    (workshops db).

(** [planned_finish IS NOT NULL AND planned_finish < NOW() AND status <> 'DONE'] *)
Definition Q13_where (now : Z) (j : Q13Joined) : bool :=
  let '(rs, _, _, _, _, _) := j in
  match rs_planned_finish rs with
  | Some t => (t <? now) && negb (String.eqb (rs_status rs) "DONE")
  | None => false
  end.

(** [EXTRACT(EPOCH FROM (NOW() - planned_finish))]: seconds, as a numeric. *)
Definition epoch_between (now t : Z) : Q := inject_Z (now - t) / inject_Z 1000000.

(** [ROUND(EXTRACT(EPOCH FROM (NOW() - planned_finish)) / 3600.0, 1)] *)
Definition hours_overdue (now : Z) (planned_finish : option Z) : option Q :=
  match planned_finish with
  | Some t => Some (round (epoch_between now t / 3600) 1)
  | None => None
  end.

Definition Q13_select (now : Z) (j : Q13Joined) : Q13Row :=
  let '(rs, _, o, p, op, w) := j in
  {| q13_order_id := o_id o;
     q13_product := p_name p;
     q13_step_no := rs_step_no rs;
     q13_operation := op_name op;
     q13_workshop := option_map w_name w;
     q13_step_status := rs_status rs;
     q13_planned_finish := rs_planned_finish rs;
     q13_checked_at := now;
     q13_hours_overdue := hours_overdue now (rs_planned_finish rs) |}.

Definition Q13 (db : Db) (now : Z) : list Q13Row :=
  order_by (fun a b => desc_nulls_first (q13_hours_overdue a) (q13_hours_overdue b))
    (map (Q13_select now) (List.filter (Q13_where now) (Q13_from db))).

(** *** Q5: where an order is now *)

Record Q5Row := {
  q5_order_id : Z;
  q5_product : string;
  q5_route_step_id : Z;
  q5_step_no : Z;
  q5_operation : string;
  q5_workshop : option string;
  q5_status : string
}.

Definition Q5Joined : Type :=
  Order * OrderItem * Product * RouteStep * Operation * option Workshop.

Definition Q5_from (db : Db) : list Q5Joined :=
  left_join (fun '(_, _, _, rs, _) w => eq_nullable (w_id w) (rs_workshop_id rs))
    (inner_join (fun '(_, _, _, rs) op => op_id op =? rs_operation_id rs)
      (inner_join (fun '(_, oi, _) rs => rs_order_item_id rs =? oi_id oi)
        (inner_join (fun '(_, oi) p => p_id p =? oi_product_id oi)
          (inner_join (fun o oi => oi_order_id oi =? o_id o)
             (orders db) (order_items db))
          (products db))
        (route_steps db))
      (operations db))
    (workshops db).

(** The common table expression [steps]. *)
Definition Q5_steps (db : Db) : list Q5Row :=
  map (fun '(o, _, p, rs, op, w) =>
         {| q5_order_id := o_id o;
            q5_product := p_name p;
            q5_route_step_id := rs_id rs;
            q5_step_no := rs_step_no rs;
            q5_operation := op_name op;
            q5_workshop := option_map w_name w;
            q5_status := rs_status rs |})
      (Q5_from db).

(** [status IN ('IN_PROGRESS', 'PLANNED')] *)
Definition Q5_where (r : Q5Row) : bool :=
  String.eqb (q5_status r) "IN_PROGRESS" || String.eqb (q5_status r) "PLANNED".

(** [CASE status WHEN 'IN_PROGRESS' THEN 0 ELSE 1 END] *)
Definition Q5_rank (r : Q5Row) : Z :=
  if String.eqb (q5_status r) "IN_PROGRESS" then 0 else 1.

(** [ORDER BY order_id, product, CASE ... END, step_no] *)
Definition Q5_compare (a b : Q5Row) : comparison :=
  lex (q5_order_id a ?= q5_order_id b)
    (lex (String.compare (q5_product a) (q5_product b))
      (lex (Q5_rank a ?= Q5_rank b)
         (q5_step_no a ?= q5_step_no b))).

Definition Q5 (db : Db) : list Q5Row :=
  order_by (fun a b => not_after (Q5_compare a b))
    (List.filter Q5_where (Q5_steps db)).

(** *** Q8: equipment load *)

Record Q8Row := {
  q8_id : Z;
  q8_equipment : string;
  q8_workshop : option string;
  q8_active_ops : Z;
  q8_total_logs : Z
}.

Definition Q8Joined : Type := Equipment * option Workshop * option OperationLog.

Definition Q8_from (db : Db) : list Q8Joined :=
  left_join (fun '(e, _) ol => eq_nullable (e_id e) (ol_equipment_id ol))
    (left_join (fun e w => eq_nullable (w_id w) (e_workshop_id e))
       (equipment db) (workshops db))
    (operation_logs db).

(** [GROUP BY e.id, e.name, w.name] *)
Definition Q8_key (j : Q8Joined) : Z * string * option string :=
  let '(e, w, _) := j in (e_id e, e_name e, option_map w_name w).

Definition Q8_key_eqb (a b : Z * string * option string) : bool :=
  let '(i, n, w) := a in
  let '(i', n', w') := b in
  (i =? i') && String.eqb n n' && eqb_option_string w w'.

(** [ol.status = 'IN_PROGRESS']: unknown, hence not counted, on the NULL
    row that stands for an equipment unit without logs. *)
Definition Q8_active (j : Q8Joined) : bool :=
  match j with
  | (_, _, Some ol) => String.eqb (ol_status ol) "IN_PROGRESS"
  | (_, _, None) => false
  end.

Definition Q8_select (g : (Z * string * option string) * list Q8Joined) : Q8Row :=
  let '((i, n, w), rows) := g in
  {| q8_id := i;
     q8_equipment := n;
     q8_workshop := w;
     q8_active_ops := count_filter Q8_active rows;
     q8_total_logs := count_star rows |}.

(** [ORDER BY active_ops DESC, e.name] *)
Definition Q8_compare (a b : Q8Row) : comparison :=
  lex (q8_active_ops b ?= q8_active_ops a)
      (String.compare (q8_equipment a) (q8_equipment b)).

Definition Q8 (db : Db) : list Q8Row :=
  order_by (fun a b => not_after (Q8_compare a b))
    (map Q8_select (group_by Q8_key_eqb Q8_key (Q8_from db))).

(** *** Q15: value of the work in progress, per order *)

(** [1500 AS rate_rub_per_hour] *)
Definition rate_rub_per_hour : Z := 1500.

(** [rs.status <> 'DONE'] *)
Definition not_done (rs : RouteStep) : bool :=
  negb (String.eqb (rs_status rs) "DONE").

(** [COALESCE(rs.planned_minutes, op.default_minutes, 0)] *)
Definition minutes_of (rs : RouteStep) (op : Operation) : Z :=
  coalesce3 (rs_planned_minutes rs) (op_default_minutes op) 0.

(** [ROUND(m / 60.0, 2)] and [ROUND((m / 60.0) * 1500, 0)], NULL on NULL. *)
Definition hours_of (m : option Z) : option Q :=
  option_map (fun m => round (inject_Z m / 60) 2) m.

Definition cost_of (m : option Z) : option Q :=
  option_map (fun m => round ((inject_Z m / 60) * inject_Z 1500) 0) m.

Definition Q15Joined : Type := Order * OrderItem * RouteStep * Operation.

Definition Q15_from (db : Db) : list Q15Joined :=
  inner_join (fun '(_, _, rs) op => op_id op =? rs_operation_id rs)
    (inner_join (fun '(_, oi) rs => rs_order_item_id rs =? oi_id oi)
      (inner_join (fun o oi => oi_order_id oi =? o_id o)
         (orders db) (order_items db))
      (route_steps db))
    (operations db).

(** [o.status IN ('PLANNED', 'IN_PROGRESS')] *)
Definition in_flight (o : Order) : bool :=
  String.eqb (o_status o) "PLANNED" || String.eqb (o_status o) "IN_PROGRESS".

Definition Q15_where (j : Q15Joined) : bool :=
  let '(o, _, _, _) := j in in_flight o.

Definition Q15_key (j : Q15Joined) : Z :=
  let '(o, _, _, _) := j in o_id o.

(** The rows of the group of a key of Q8. *)
Definition Q8_group (db : Db) (k : Z * string * option string) : list Q8Joined :=
  List.filter (fun j => Q8_key_eqb (Q8_key j) k) (Q8_from db).

(** The rows of the group of an order, after the WHERE clause. *)
Definition Q15_group (db : Db) (oid : Z) : list Q15Joined :=
  List.filter (fun j => Q15_key j =? oid) (List.filter Q15_where (Q15_from db)).

(** The common table expression [remaining]: (order_id, remaining_minutes). *)
Definition Q15_remaining (db : Db) : list (Z * option Z) :=
  map (fun '(k, rows) =>
         (k, sum_filter (fun '(_, _, rs, op) => minutes_of rs op)
                        (fun '(_, _, rs, _) => not_done rs) rows))
      (group_by Z.eqb Q15_key (List.filter Q15_where (Q15_from db))).

Record Q15Row := {
  q15_order_id : Z;
  q15_remaining_minutes : option Z;
  q15_remaining_hours : option Q;
  q15_rate_rub_per_hour : Z;
  q15_nzp_cost_rub : option Q
}.

Definition Q15_select (r : Z * option Z) : Q15Row :=
  {| q15_order_id := fst r;
     q15_remaining_minutes := snd r;
     q15_remaining_hours := hours_of (snd r);
     q15_rate_rub_per_hour := rate_rub_per_hour;
     q15_nzp_cost_rub := cost_of (snd r) |}.

Definition Q15 (db : Db) : list Q15Row :=
  order_by (fun a b => desc_nulls_first (q15_nzp_cost_rub a) (q15_nzp_cost_rub b))
    (map Q15_select (Q15_remaining db)).

(** *** Q16: value of the work in progress, per workshop *)

Definition Q16Joined : Type := RouteStep * Operation * option Workshop.

Definition Q16_from (db : Db) : list Q16Joined :=
  left_join (fun '(rs, _) w => eq_nullable (w_id w) (rs_workshop_id rs))
    (inner_join (fun rs op => op_id op =? rs_operation_id rs)
       (route_steps db) (operations db))
    (workshops db).

Definition Q16_key (j : Q16Joined) : option string :=
  let '(_, _, w) := j in option_map w_name w.

(** The rows of the group of a workshop name. *)
Definition Q16_group (db : Db) (k : option string) : list Q16Joined :=
  List.filter (fun j => eqb_option_string (Q16_key j) k) (Q16_from db).

(** The common table expression [wip]: (workshop, wip_minutes). *)
Definition Q16_wip (db : Db) : list (option string * option Z) :=
  map (fun '(k, rows) =>
         (k, sum_filter (fun '(rs, op, _) => minutes_of rs op)
                        (fun '(rs, _, _) => not_done rs) rows))
      (group_by eqb_option_string Q16_key (Q16_from db)).

(** [wip_minutes > 0]: not satisfied by NULL. *)
Definition Q16_where (r : option string * option Z) : bool :=
  match snd r with
  | Some m => 0 <? m
  | None => false
  end.

Record Q16Row := {
  q16_workshop : option string;
  q16_wip_minutes : option Z;
  q16_wip_hours : option Q;
  q16_rate_rub_per_hour : Z;
  q16_wip_cost_rub : option Q
}.

Definition Q16_select (r : option string * option Z) : Q16Row :=
  {| q16_workshop := fst r;
     q16_wip_minutes := snd r;
     q16_wip_hours := hours_of (snd r);
     q16_rate_rub_per_hour := rate_rub_per_hour;
     q16_wip_cost_rub := cost_of (snd r) |}.

Definition Q16 (db : Db) : list Q16Row :=
  order_by (fun a b => desc_nulls_first (q16_wip_cost_rub a) (q16_wip_cost_rub b))
    (map Q16_select (List.filter Q16_where (Q16_wip db))).

End Analytics.

(** ** The routing model in the words of the specification

    These definitions follow section 4.1 of the specification; the queries
    above are compared with them. *)

Module Routing.
Import Sql Schema.

(** Primary keys are unique and every route step names an operation of
    the catalogue. *)
Fixpoint unique_ids (l : list Z) : bool :=
  match l with
  | [] => true
  | x :: l' => negb (existsb (Z.eqb x) l') && unique_ids l'
  end.

Definition well_formed (db : Db) : bool :=
  unique_ids (map o_id (orders db))
  && unique_ids (map oi_id (order_items db))
  && unique_ids (map op_id (operations db))
  && unique_ids (map w_id (workshops db))
  && forallb (fun rs => existsb (fun op => op_id op =? rs_operation_id rs)
                                (operations db))
             (route_steps db).

Definition operation_of (db : Db) (rs : RouteStep) : option Operation :=
  List.find (fun op => op_id op =? rs_operation_id rs) (operations db).

(** "its planned duration is planned_minutes if present, else the
    Operation's default_minutes, else zero" *)
Definition planned_duration (db : Db) (rs : RouteStep) : Z :=
  match rs_planned_minutes rs with
  | Some m => m
  | None =>
      match operation_of db rs with
      | Some op => match op_default_minutes op with Some d => d | None => 0 end
      | None => 0
      end
  end.

(** The step belongs to an item of the order. *)
Definition step_of_order (db : Db) (oid : Z) (rs : RouteStep) : bool :=
  existsb (fun oi => (oi_id oi =? rs_order_item_id rs) && (oi_order_id oi =? oid))
          (order_items db).

Definition is_done (rs : RouteStep) : bool := String.eqb (rs_status rs) "DONE".

(** The steps of an order, and those among them that are not DONE. *)
Definition steps_of_order (db : Db) (oid : Z) : list RouteStep :=
  List.filter (step_of_order db oid) (route_steps db).

Definition pending_steps (db : Db) (oid : Z) : list RouteStep :=
  List.filter (fun rs => negb (is_done rs)) (steps_of_order db oid).

(** "Remaining minutes for an order = sum of remaining per-step minutes
    across all its non-DONE steps" *)
Definition remaining_minutes (db : Db) (oid : Z) : Z :=
  sumZ (planned_duration db) (pending_steps db oid).

(** "Monetary valuation = (remaining_minutes / 60) x rate_per_hour" *)
Definition valuation (minutes rate : Z) : Q :=
  (inject_Z minutes / 60 * inject_Z rate)%Q.

(** The name of the workshop of a step; none for a step without one. *)
Definition workshop_of (db : Db) (rs : RouteStep) : option string :=
  match rs_workshop_id rs with
  | Some wid => option_map w_name (List.find (fun w => w_id w =? wid) (workshops db))
  | None => None
  end.

(** The non-DONE steps of a workshop bucket. *)
Definition pending_in_workshop (db : Db) (k : option string) : list RouteStep :=
  List.filter (fun rs => negb (is_done rs) && eqb_option_string (workshop_of db rs) k)
              (route_steps db).

Definition workshop_minutes (db : Db) (k : option string) : Z :=
  sumZ (planned_duration db) (pending_in_workshop db k).

(** "per equipment unit, count of currently IN_PROGRESS logs and total
    historical logs" *)
Definition logs_of (db : Db) (eid : Z) : list OperationLog :=
  List.filter (fun ol => eq_nullable eid (ol_equipment_id ol)) (operation_logs db).

Definition active_logs_of (db : Db) (eid : Z) : list OperationLog :=
  List.filter (fun ol => String.eqb (ol_status ol) "IN_PROGRESS") (logs_of db eid).

(** The workshop that an equipment unit belongs to, if any. *)
Definition workshop_of_equipment (db : Db) (e : Equipment) : option Workshop :=
  match e_workshop_id e with
  | Some wid => List.find (fun w => w_id w =? wid) (workshops db)
  | None => None
  end.

(** The identity of an equipment unit in a report: id, name and the name
    of its workshop. *)
Definition equipment_key (db : Db) (e : Equipment) : Z * string * option string :=
  (e_id e, e_name e, option_map w_name (workshop_of_equipment db e)).

(** The order of the step is PLANNED or IN_PROGRESS. *)
Definition order_in_flight (db : Db) (rs : RouteStep) : bool :=
  existsb (fun o => (String.eqb (o_status o) "PLANNED"
                     || String.eqb (o_status o) "IN_PROGRESS")
                    && step_of_order db (o_id o) rs)
          (orders db).

(** "The same aggregation, grouped by workshop instead of by order":
    the aggregation of Q15, restricted to orders in flight, per bucket. *)
Definition workshop_minutes_in_flight (db : Db) (k : option string) : Z :=
  sumZ (planned_duration db)
       (List.filter (order_in_flight db) (pending_in_workshop db k)).

End Routing.

(** ** JavaScript values and built-ins used by the handlers

    Strings are sequences of bytes.  [parseInt] and the whitespace it skips
    are modelled on ASCII input and on integers that a double holds exactly;
    a number of a JSON body is an integer. *)

Module Js.

(** A value of a parsed JSON body; a missing property ([undefined]) is
    [None] at the lookup.  [JObj] is any array or object, with the text
    under which the database driver sends it. *)
Inductive JVal :=
| JNull
| JBool (b : bool)
| JNum (n : Z)
| JStr (s : string)
| JObj (text : string).

(** What [if (v)] and [!v] test. *)
Definition truthy (v : option JVal) : bool :=
  match v with
  | None | Some JNull => false
  | Some (JBool b) => b
  | Some (JNum n) => negb (n =? 0)
  | Some (JStr s) => negb (String.eqb s "")
  | Some (JObj _) => true
  end.

(** [v === "lit"] *)
Definition strict_eq_string (v : option JVal) (lit : string) : bool :=
  match v with
  | Some (JStr s) => String.eqb s lit
  | _ => false
  end.

(** A value of a parsed query string: a string, a repeated parameter
    (an array of strings) or a bracketed one (an object). *)
Inductive QVal :=
| QStr (s : string)
| QArr (l : list string)
| QObj.

Definition q_truthy (v : option QVal) : bool :=
  match v with
  | None => false
  | Some (QStr s) => negb (String.eqb s "")
  | Some (QArr _) | Some QObj => true
  end.

(** The property key that [obj[v]] uses. *)
Definition property_key (v : option QVal) : string :=
  match v with
  | None => "undefined"
  | Some (QStr s) => s
  | Some (QArr l) => String.concat "," l
  | Some QObj => "[object Object]"
  end.

(** [list.includes(v)] for a list of string literals. *)
Definition includes (l : list string) (v : option QVal) : bool :=
  match v with
  | Some (QStr s) => existsb (String.eqb s) l
  | _ => false
  end.

(** The members that every object literal inherits from Object.prototype. *)
Definition object_prototype_keys : list string :=
  [ "constructor"; "__proto__"; "hasOwnProperty"; "isPrototypeOf";
    "propertyIsEnumerable"; "toLocaleString"; "toString"; "valueOf";
    "__defineGetter__"; "__defineSetter__"; "__lookupGetter__";
    "__lookupSetter__" ].

(** [s.split(" ")] *)
Fixpoint split_space (s : string) : list string :=
  match s with
  | EmptyString => [EmptyString]
  | String c s' =>
      if Ascii.eqb c " " then EmptyString :: split_space s'
      else match split_space s' with
           | w :: ws => String c w :: ws
           | [] => [String c EmptyString]
           end
  end.

(** [s.toLowerCase()] on the letters A-Z; no other character maps to an
    ASCII letter. *)
Definition lower_ascii (c : ascii) : ascii :=
  let n := N_of_ascii c in
  if ((65 <=? n) && (n <=? 90))%N then ascii_of_N (n + 32) else c.

Fixpoint toLowerCase (s : string) : string :=
  match s with
  | EmptyString => EmptyString
  | String c s' => String (lower_ascii c) (toLowerCase s')
  end.

Definition is_space (c : ascii) : bool :=
  let n := N_of_ascii c in
  ((n =? 32) || ((9 <=? n) && (n <=? 13)))%N.

Fixpoint skip_spaces (s : string) : string :=
  match s with
  | String c s' => if is_space c then skip_spaces s' else s
  | EmptyString => s
  end.

Definition digit_of (c : ascii) : option Z :=
  let n := Z.of_N (N_of_ascii c) in
  if (48 <=? n) && (n <=? 57) then Some (n - 48) else None.

(** The value of the longest prefix of decimal digits; [acc] is the value
    read so far, [None] before the first digit. *)
Fixpoint read_digits (s : string) (acc : option Z) : option Z :=
  match s with
  | EmptyString => acc
  | String c s' =>
      match digit_of c with
      | Some d =>
          read_digits s' (Some (10 * match acc with Some a => a | None => 0 end + d))
      | None => acc
      end
  end.

(** [parseInt(s, 10)]; [None] is NaN. *)
Definition parseInt (s : string) : option Z :=
  match skip_spaces s with
  | String "-" s' => option_map Z.opp (read_digits s' None)
  | String "+" s' => read_digits s' None
  | s' => read_digits s' None
  end.

(** [String(n)] for the result of [parseInt]. *)
Definition number_to_string (n : option Z) : string :=
  match n with
  | Some z => pretty z
  | None => "NaN"
  end.

End Js.

(** ** The HTTP backend (backend/server.js) *)

Module Web.
Import Sql Js.

(** The payload of a verified token: what [generateToken] signs, with the
    id as the number that the driver returns for an integer column. *)
Record Principal := {
  pr_id : Z;
  pr_username : string;
  pr_role : string
}.

(** The collaborators outside the repository. *)
Class Platform := {
  (** [jwt.verify(token, secret)]; [None] when it throws. *)
  jwt_verify : string -> option Principal;
  (** [bcrypt.hash(password, 10)], for the salt it draws. *)
  bcrypt_hash : string -> string;
  (** [text ILIKE pattern] of the database. *)
  ilike : string -> string -> bool;
  (** The database's conversion of a text parameter to an integer id;
      [None] when it rejects the text. *)
  int_in : string -> option Z;
  (** [String.prototype.trim]. *)
  js_trim : string -> string;
  (** The values that the declaration of [orders.status] admits (its
      type or CHECK constraint, which is not among the sources). *)
  status_admitted : string -> bool
}.

(** *** The store

    The declarations of the tables [users], [orders] and [order_stats_mv]
    that the statements of server.js address are not among the sources.
    [users.username] is unique (the handler of POST /users expects error
    23505), ids are integers drawn from a sequence, [created_at] defaults
    to the current instant; what [orders.status] admits is a parameter of
    the platform. *)

(** Modelled from the spec: table [users] ("credentials (hashed), role"),
    with the columns of the INSERT and SELECT statements of server.js. *)
Record UserRow := {
  u_id : Z;
  u_username : string;
  u_password_hash : string;
  u_full_name : option string;
  u_role : string;
  u_created_at : Z
}.

(** Modelled from the spec: table [orders] as server.js reads and writes
    it (the columns of its INSERT, SELECT and UPDATE statements). *)
Record OrderRow := {
  ord_id : Z;
  ord_customer_name : string;
  ord_customer_phone : string;
  ord_customer_email : option string;
  ord_services : string;
  ord_message : option string;
  ord_status : string;
  ord_created_at : Z;
  ord_updated_at : option Z
}.

(** Modelled from the spec: the materialized view [order_stats_mv]
    ("status x day distribution"). *)
Record MvRow := {
  mv_day : Z;
  mv_status : string;
  mv_orders : Z
}.

Inductive SortColumn := ByCreatedAt | ByCustomerName | ByStatus.

(** What is spliced after ORDER BY: a column, or the text of a member
    inherited from Object.prototype, which is not SQL. *)
Inductive SortExpr :=
| Column (c : SortColumn)
| Inherited (key : string).

Inductive Direction := ASC | DESC.

(** The statements that the handlers send, with their parameters. *)
Inductive Statement :=
| SelectOrderStatsMv
| InsertUser (username : option string) (password_hash : string)
             (full_name : option string) (role : string)
| DeleteUser (id : string)
| SelectOrders (status like : option string) (sort : SortExpr) (dir : Direction)
| UpdateOrderStatus (status : option string) (id : string)
| SelectOrdersStats
| SelectUsersCount
| SelectAvgTime.

(** Every access to the store: taking a connection from the pool,
    sending a statement, giving the connection back. *)
Inductive Event :=
| Connect
| Query (st : Statement)
| Release.

Record State := {
  users : list UserRow;
  orders : list OrderRow;
  order_stats_mv : list MvRow;
  users_id_seq : Z;
  now : Z;
  trace : list Event
}.

(** *** Computations that read and write the store and may throw *)

Inductive Exn :=
| PgError (code : string)
| TypeError.

Inductive Outcome (A : Type) :=
| Ok (a : A)
| Throw (e : Exn).
Arguments Ok {A} a.
Arguments Throw {A} e.

(** [err.code === c] *)
Definition has_code (err : Exn) (c : string) : bool :=
  match err with
  | PgError code => String.eqb code c
  | TypeError => false
  end.

Definition M (A : Type) : Type := State -> Outcome A * State.

Definition ret {A : Type} (a : A) : M A := fun s => (Ok a, s).

Definition throw {A : Type} (e : Exn) : M A := fun s => (Throw e, s).

Definition bind {A B : Type} (c : M A) (k : A -> M B) : M B :=
  fun s =>
    match c s with
    | (Ok a, s') => k a s'
    | (Throw e, s') => (Throw e, s')
    end.

(** [try { c } catch (err) { h err }] *)
Definition try_catch {A : Type} (c : M A) (h : Exn -> M A) : M A :=
  fun s =>
    match c s with
    | (Ok a, s') => (Ok a, s')
    | (Throw e, s') => h e s'
    end.

(** [try { c } finally { f }], for an [f] that does not throw. *)
Definition finally {A : Type} (c : M A) (f : State -> State) : M A :=
  fun s => let '(r, s') := c s in (r, f s').

Definition emit (e : Event) (s : State) : State :=
  {| users := users s; orders := orders s; order_stats_mv := order_stats_mv s;
     users_id_seq := users_id_seq s; now := now s;
     trace := trace s ++ [e] |}.

Definition log (e : Event) : M unit := fun s => (Ok tt, emit e s).

Declare Scope web_scope.
Delimit Scope web_scope with web.
Notation "x <- c1 ;; c2" := (bind c1 (fun x => c2))
  (at level 100, c1 at next level, c2 at level 200, right associativity)
  : web_scope.
Notation "c1 ;; c2" := (bind c1 (fun _ => c2))
  (at level 100, c2 at level 200, right associativity) : web_scope.
Local Open Scope web_scope.

(** [const client = await pool.connect(); try { c } finally { client.release(); }] *)
Definition with_client {A : Type} (c : M A) : M A :=
  log Connect ;; finally c (emit Release).

(** *** Requests and responses *)

Record Request := {
  authorization : option string;
  params_id : string;
  query : gmap string QVal;
  body : gmap string JVal;
  user : option Principal
}.

Definition with_user (req : Request) (p : Principal) : Request :=
  {| authorization := authorization req; params_id := params_id req;
     query := query req; body := body req; user := Some p |}.

(** The error texts of server.js, in order of appearance. *)
Inductive Message :=
| AuthorizationRequired
| MalformedToken
| InvalidOrExpiredToken
| AdminOnly
| ServerError
| InternalServerError
| LoginAndPasswordRequired
| LoginAlreadyExists
| CannotDeleteYourself
| UserNotFound
| StatusRequired
| OrderNotFound.

Record UserView := {
  uv_id : Z;
  uv_username : string;
  uv_full_name : option string;
  uv_role : string;
  uv_created_at : Z
}.

Record OrderView := {
  ov_id : Z;
  ov_customer_name : string;
  ov_customer_phone : string;
  ov_customer_email : option string;
  ov_services : string;
  ov_message : option string;
  ov_status : string;
  ov_created_at : Z
}.

(** The report of GET /stats.  [avgCompletionHours] is the exact quotient;
    the response carries the double nearest to it. *)
Record StatsReport := {
  totalOrders : Z;
  statusCounts_NEW : Z;
  statusCounts_IN_PROGRESS : Z;
  statusCounts_DONE : Z;
  statusCounts_CANCELED : Z;
  totalUsers : Z;
  avgCompletionHours : option Q
}.

Inductive Body :=
| JError (m : Message)
| JSuccess
| JMv (rows : list MvRow)
| JUser (u : UserView)
| JOrders (rows : list OrderView)
| JOrder (o : OrderRow)
| JStats (r : StatsReport).

Record Response := {
  code : Z;
  payload : Body
}.

(** [res.status(c).json(b)]; [res.json(b)] answers 200. *)
Definition respond (c : Z) (b : Body) : Response := {| code := c; payload := b |}.

Section Handlers.
Context `{Platform}.

(** *** Statements on the store *)

(** The text under which the driver sends a parameter; [None] is NULL. *)
Definition prepareValue (v : JVal) : option string :=
  match v with
  | JNull => None
  | JBool true => Some "true"
  | JBool false => Some "false"
  | JNum n => Some (pretty n)
  | JStr s => Some s
  | JObj text => Some text
  end.

(** [SELECT * FROM order_stats_mv] *)
Definition select_order_stats_mv : M (list MvRow) :=
  log (Query SelectOrderStatsMv) ;;
  fun s => (Ok (order_stats_mv s), s).

Definition view_of_user (u : UserRow) : UserView :=
  {| uv_id := u_id u; uv_username := u_username u;
     uv_full_name := u_full_name u; uv_role := u_role u;
     uv_created_at := u_created_at u |}.

(** [INSERT INTO users (username, password_hash, full_name, role)
     VALUES ($1, $2, $3, $4)
     RETURNING id, username, full_name, role, created_at].
    The sequence moves on even when the row is refused. *)
Definition insert_user (username : option string) (password_hash : string)
    (full_name : option string) (role : string) : M UserView :=
  log (Query (InsertUser username password_hash full_name role)) ;;
  fun s =>
    let s' := {| users := users s; orders := orders s;
                 order_stats_mv := order_stats_mv s;
                 users_id_seq := users_id_seq s + 1; now := now s;
                 trace := trace s |} in
    match username with
    | None => (Throw (PgError "23502"), s')
    | Some name =>
        if existsb (fun u => String.eqb (u_username u) name) (users s)
        then (Throw (PgError "23505"), s')
        else
          let row := {| u_id := users_id_seq s; u_username := name;
                        u_password_hash := password_hash;
                        u_full_name := full_name; u_role := role;
                        u_created_at := now s |} in
          (Ok (view_of_user row),
           {| users := users s ++ [row]; orders := orders s;
              order_stats_mv := order_stats_mv s;
              users_id_seq := users_id_seq s + 1; now := now s;
              trace := trace s |})
    end.

(** [DELETE FROM users WHERE id = $1 RETURNING id] *)
Definition delete_user (id : string) : M (list Z) :=
  log (Query (DeleteUser id)) ;;
  fun s =>
    match int_in id with
    | None => (Throw (PgError "22P02"), s)
    | Some n =>
        (Ok (map u_id (List.filter (fun u => u_id u =? n) (users s))),
         {| users := List.filter (fun u => negb (u_id u =? n)) (users s);
            orders := orders s; order_stats_mv := order_stats_mv s;
            users_id_seq := users_id_seq s; now := now s;
            trace := trace s |})
    end.

Definition set_status (st : string) (t : Z) (o : OrderRow) : OrderRow :=
  {| ord_id := ord_id o; ord_customer_name := ord_customer_name o;
     ord_customer_phone := ord_customer_phone o;
     ord_customer_email := ord_customer_email o;
     ord_services := ord_services o; ord_message := ord_message o;
     ord_status := st; ord_created_at := ord_created_at o;
     ord_updated_at := Some t |}.

(** [UPDATE orders SET status = $1, updated_at = NOW() WHERE id = $2
     RETURNING *] *)
Definition update_order_status (status : option string) (id : string)
    : M (list OrderRow) :=
  log (Query (UpdateOrderStatus status id)) ;;
  fun s =>
    match int_in id, status with
    | None, _ => (Throw (PgError "22P02"), s)
    | Some _, None => (Throw (PgError "23502"), s)
    | Some n, Some st =>
        let hit := List.filter (fun o => ord_id o =? n) (orders s) in
        let upd := fun o => if ord_id o =? n then set_status st (now s) o else o in
        match hit with
        | _ :: _ =>
            if status_admitted st
            then (Ok (map (set_status st (now s)) hit),
                  {| users := users s; orders := map upd (orders s);
                     order_stats_mv := order_stats_mv s;
                     users_id_seq := users_id_seq s; now := now s;
                     trace := trace s |})
            else (Throw (PgError "23514"), s)
        | [] => (Ok [], s)
        end
    end.

Definition view_of_order (o : OrderRow) : OrderView :=
  {| ov_id := ord_id o; ov_customer_name := ord_customer_name o;
     ov_customer_phone := ord_customer_phone o;
     ov_customer_email := ord_customer_email o;
     ov_services := ord_services o; ov_message := ord_message o;
     ov_status := ord_status o; ov_created_at := ord_created_at o |}.

(** [c ILIKE pattern] on a nullable column: unknown counts as false
    in a disjunction that decides a WHERE clause. *)
Definition ilike_nullable (c : option string) (pattern : string) : bool :=
  match c with
  | Some text => ilike text pattern
  | None => false
  end.

(** The WHERE clause that GET /orders assembles. *)
Definition orders_where (status like : option string) (o : OrderRow) : bool :=
  match status with
  | Some st => String.eqb (ord_status o) st
  | None => true
  end
  && match like with
     | Some pattern =>
         ilike (ord_customer_name o) pattern
         || ilike (ord_customer_phone o) pattern
         || ilike_nullable (ord_customer_email o) pattern
         || ilike (ord_services o) pattern
         || ilike_nullable (ord_message o) pattern
     | None => true
     end.

Definition compare_by (c : SortColumn) (a b : OrderRow) : comparison :=
  match c with
  | ByCreatedAt => ord_created_at a ?= ord_created_at b
  | ByCustomerName => String.compare (ord_customer_name a) (ord_customer_name b)
  | ByStatus => String.compare (ord_status a) (ord_status b)
  end.

Definition orders_order (c : SortColumn) (d : Direction) (a b : OrderRow) : bool :=
  match d with
  | ASC => not_after (compare_by c a b)
  | DESC => not_after (compare_by c b a)
  end.

(** [SELECT id, customer_name, customer_phone, customer_email, services,
            message, status, created_at
     FROM orders ${whereSql} ORDER BY ${sortField} ${sortDirection}] *)
Definition select_orders (status like : option string) (sort : SortExpr)
    (dir : Direction) : M (list OrderView) :=
  log (Query (SelectOrders status like sort dir)) ;;
  fun s =>
    match sort with
    | Inherited _ => (Throw (PgError "42601"), s)
    | Column c =>
        (Ok (map view_of_order
               (order_by (orders_order c dir)
                  (List.filter (orders_where status like) (orders s)))), s)
    end.

Definition count_status (st : string) (l : list OrderRow) : Z :=
  Z.of_nat (length (List.filter (fun o => String.eqb (ord_status o) st) l)).

(** [SUM(CASE WHEN status = st THEN 1 ELSE 0 END)]: NULL on an empty table. *)
Definition sum_case (st : string) (l : list OrderRow) : option Z :=
  match l with
  | [] => None
  | _ => Some (count_status st l)
  end.

(** [SELECT COUNT( * ) AS total_orders, SUM(CASE ...) AS new_orders, ...
     FROM orders] *)
Definition select_orders_stats
    : M (Z * option Z * option Z * option Z * option Z) :=
  log (Query SelectOrdersStats) ;;
  fun s =>
    (Ok (Z.of_nat (length (orders s)),
         sum_case "NEW" (orders s), sum_case "IN_PROGRESS" (orders s),
         sum_case "DONE" (orders s), sum_case "CANCELED" (orders s)), s).

(** [SELECT COUNT( * ) AS total_users FROM users] *)
Definition select_users_count : M Z :=
  log (Query SelectUsersCount) ;;
  fun s => (Ok (Z.of_nat (length (users s))), s).

(** The seconds between creation and last update of the DONE orders
    that have been updated. *)
Definition completion_seconds (l : list OrderRow) : list Q :=
  flat_map (fun o =>
              match ord_updated_at o with
              | Some t =>
                  if String.eqb (ord_status o) "DONE"
                  then [(inject_Z (t - ord_created_at o) / inject_Z 1000000)%Q]
                  else []
              | None => []
              end) l.

(** [SELECT AVG(EXTRACT(EPOCH FROM (updated_at - created_at))) AS avg_seconds
     FROM orders WHERE status = 'DONE' AND updated_at IS NOT NULL] *)
Definition select_avg_time : M (option Q) :=
  log (Query SelectAvgTime) ;;
  fun s =>
    (Ok match completion_seconds (orders s) with
        | [] => None
        | l => Some (fold_right Qplus 0%Q l / inject_Z (Z.of_nat (length l)))%Q
        end, s).

(** *** Middleware *)

Definition authMiddleware (req : Request) : Response + Request :=
  match authorization req with
  | None => inl (respond 401 (JError AuthorizationRequired))
  | Some authHeader =>
      if String.eqb authHeader ""
      then inl (respond 401 (JError AuthorizationRequired))
      else
        match split_space authHeader with
        | type :: token :: _ =>
            if negb (String.eqb type "Bearer") || String.eqb token ""
            then inl (respond 401 (JError MalformedToken))
            else match jwt_verify token with
                 | Some payload => inr (with_user req payload)
                 | None => inl (respond 401 (JError InvalidOrExpiredToken))
                 end
        | _ => inl (respond 401 (JError MalformedToken))
        end
  end.

Definition adminOnlyMiddleware (req : Request) : Response + Request :=
  match user req with
  | Some u =>
      if negb (String.eqb (pr_role u) "ADMIN")
      then inl (respond 403 (JError AdminOnly))
      else inr req
  | None => inl (respond 403 (JError AdminOnly))
  end.

(** [app.METHOD(path, mw..., handler)]: a middleware either answers
    or hands the request on. *)
Fixpoint chain (mws : list (Request -> Response + Request))
    (handler : Request -> M Response) (req : Request) : M Response :=
  match mws with
  | [] => handler req
  | mw :: rest =>
      match mw req with
      | inl res => ret res
      | inr req' => chain rest handler req'
      end
  end.

(** *** Handlers *)

(** GET /stats/mv *)
Definition stats_mv_handler (req : Request) : M Response :=
  try_catch
    (with_client
       (rows <- select_order_stats_mv ;;
        ret (respond 200 (JMv rows))))
    (fun _ => ret (respond 500 (JError ServerError))).

(** A property of the body when it is truthy. *)
Definition if_truthy (v : option JVal) : option JVal :=
  if truthy v then v else None.

(** [full_name || null] as a statement parameter. *)
Definition or_null (v : option JVal) : option string :=
  match if_truthy v with
  | Some x => prepareValue x
  | None => None
  end.

(** [await bcrypt.hash(password, 10)]: rejects what is not a string. *)
Definition hash_password (password : JVal) : M string :=
  match password with
  | JStr s => ret (bcrypt_hash s)
  | _ => throw TypeError
  end.

(** POST /users *)
Definition post_users_handler (req : Request) : M Response :=
  try_catch
    (let username := body req !! "username" in
     let password := body req !! "password" in
     let full_name := body req !! "full_name" in
     let role := body req !! "role" in
     match if_truthy username, if_truthy password with
     | Some username, Some password =>
         let userRole := if strict_eq_string role "ADMIN" then "ADMIN" else "MANAGER" in
         passwordHash <- hash_password password ;;
         with_client
           (row <- insert_user (prepareValue username) passwordHash
                               (or_null full_name) userRole ;;
            ret (respond 201 (JUser row)))
     | _, _ => ret (respond 400 (JError LoginAndPasswordRequired))
     end)
    (fun err =>
       if has_code err "23505"
       then ret (respond 400 (JError LoginAlreadyExists))
       else ret (respond 500 (JError InternalServerError))).

(** [userId === req.user.id] *)
Definition same_id (userId : option Z) (id : Z) : bool :=
  match userId with
  | Some n => n =? id
  | None => false
  end.

(** DELETE /users/:id *)
Definition delete_users_handler (req : Request) : M Response :=
  try_catch
    (let userId := parseInt (params_id req) in
     match user req with
     | None => throw TypeError
     | Some u =>
         if same_id userId (pr_id u)
         then ret (respond 400 (JError CannotDeleteYourself))
         else
           with_client
             (rows <- delete_user (number_to_string userId) ;;
              match rows with
              | [] => ret (respond 404 (JError UserNotFound))
              | _ => ret (respond 200 JSuccess)
              end)
     end)
    (fun _ => ret (respond 500 (JError InternalServerError))).

(** [q.trim()] and [direction.toLowerCase()]: only a string has them. *)
Definition call_trim (v : option QVal) : M string :=
  match v with
  | Some (QStr s) => ret (js_trim s)
  | _ => throw TypeError
  end.

Definition call_toLowerCase (v : option QVal) : M string :=
  match v with
  | Some (QStr s) => ret (toLowerCase s)
  | _ => throw TypeError
  end.

Definition allowed_statuses : list string :=
  ["NEW"; "IN_PROGRESS"; "DONE"; "CANCELED"].

(** The status that becomes a WHERE clause and a parameter. *)
Definition status_filter (status : option QVal) : option string :=
  match status with
  | Some (QStr st) =>
      if q_truthy status && includes allowed_statuses status then Some st else None
  | _ => None
  end.

(** The pattern of the search clause, when there is one. *)
Definition search_pattern (q : option QVal) : M (option string) :=
  if q_truthy q
  then (t <- call_trim q ;;
        if negb (String.eqb t "")
        then ret (Some ("%" ++ t ++ "%")%string)
        else ret None)
  else ret None.

(** [allowedSortFields[sort] || "created_at"] *)
Definition sortField (sort : option QVal) : SortExpr :=
  let k := property_key sort in
  if String.eqb k "created_at" then Column ByCreatedAt
  else if String.eqb k "customer_name" then Column ByCustomerName
  else if String.eqb k "status" then Column ByStatus
  else if existsb (String.eqb k) object_prototype_keys then Inherited k
  else Column ByCreatedAt.

(** [direction && direction.toLowerCase() === "asc" ? "ASC" : "DESC"] *)
Definition sortDirection (direction : option QVal) : M Direction :=
  if q_truthy direction
  then (d <- call_toLowerCase direction ;;
        ret (if String.eqb d "asc" then ASC else DESC))
  else ret DESC.

(** The same request without its [status] query parameter. *)
Definition without_status (req : Request) : Request :=
  {| authorization := authorization req; params_id := params_id req;
     query := delete "status" (query req); body := body req;
     user := user req |}.

(** GET /orders *)
Definition get_orders_handler (req : Request) : M Response :=
  try_catch
    (with_client
       (let q := query req !! "q" in
        let status := query req !! "status" in
        let sort := query req !! "sort" in
        let direction := query req !! "direction" in
        like <- search_pattern q ;;
        dir <- sortDirection direction ;;
        rows <- select_orders (status_filter status) like (sortField sort) dir ;;
        ret (respond 200 (JOrders rows))))
    (fun _ => ret (respond 500 (JError InternalServerError))).

(** PATCH /orders/:id/status *)
Definition patch_order_status_handler (req : Request) : M Response :=
  try_catch
    (let orderId := params_id req in
     let status := body req !! "status" in
     match if_truthy status with
     | None => ret (respond 400 (JError StatusRequired))
     | Some status =>
         with_client
           (rows <- update_order_status (prepareValue status) orderId ;;
            match rows with
            | [] => ret (respond 404 (JError OrderNotFound))
            | row :: _ => ret (respond 200 (JOrder row))
            end)
     end)
    (fun _ => ret (respond 500 (JError InternalServerError))).

(** [Number(x)] for a count that may be NULL. *)
Definition Number (x : option Z) : Z :=
  match x with
  | Some n => n
  | None => 0
  end.

(** GET /stats *)
Definition stats_handler (req : Request) : M Response :=
  try_catch
    (with_client
       (ordersStats <- select_orders_stats ;;
        usersStats <- select_users_count ;;
        avgSeconds <- select_avg_time ;;
        let '(total, new, in_progress, done, canceled) := ordersStats in
        let avgHours := option_map (fun sec => (sec / 3600)%Q) avgSeconds in
        ret (respond 200
               (JStats {| totalOrders := total;
                          statusCounts_NEW := Number new;
                          statusCounts_IN_PROGRESS := Number in_progress;
                          statusCounts_DONE := Number done;
                          statusCounts_CANCELED := Number canceled;
                          totalUsers := usersStats;
                          avgCompletionHours := avgHours |}))))
    (fun _ => ret (respond 500 (JError InternalServerError))).

(** *** The routes *)

Inductive Route :=
| GET_stats_mv
| POST_users
| DELETE_users_id
| GET_orders
| PATCH_orders_id_status
| GET_stats.

Definition app (r : Route) : Request -> M Response :=
  match r with
  | GET_stats_mv =>
      chain [authMiddleware; adminOnlyMiddleware] stats_mv_handler
  | POST_users =>
      chain [authMiddleware; adminOnlyMiddleware] post_users_handler
  | DELETE_users_id =>
      chain [authMiddleware; adminOnlyMiddleware] delete_users_handler
  | GET_orders => chain [authMiddleware] get_orders_handler
  | PATCH_orders_id_status => chain [authMiddleware] patch_order_status_handler
  | GET_stats => chain [authMiddleware] stats_handler
  end.

(** The response of a handled request and the store after it. *)
Definition serve (r : Route) (req : Request) (s : State) : Response * State :=
  match app r req s with
  | (Ok res, s') => (res, s')
  | (Throw _, s') => (respond 500 (JError InternalServerError), s')
  end.

End Handlers.

End Web.

(** ** Sample data

    Small databases, a store and a platform on which the statements below
    are evaluated. *)

Module Demo.
Import Schema Js Web.

Definition step (id item no : Z) (workshop : option Z) (status : string)
    (minutes finish : option Z) : RouteStep :=
  {| rs_id := id; rs_order_item_id := item; rs_step_no := no;
     rs_operation_id := 7; rs_workshop_id := workshop; rs_status := status;
     rs_planned_minutes := minutes; rs_planned_finish := finish |}.

Definition catalogue (o : Order) (steps : list RouteStep) : Db :=
  {| Schema.orders := [o];
     order_items := [ {| oi_id := 10; oi_order_id := o_id o; oi_product_id := 100 |} ];
     products := [ {| p_id := 100; p_name := "bracket" |} ];
     operations := [ {| op_id := 7; op_name := "milling"; op_default_minutes := Some 45 |} ];
     workshops := [ {| w_id := 5; w_name := "A" |} ];
     route_steps := steps;
     equipment := [ {| e_id := 1; e_name := "lathe"; e_workshop_id := Some 5 |} ];
     operation_logs := [] |}.

(** Order 1 is IN_PROGRESS; its item has the steps 1: DONE,
    2: IN_PROGRESS, 3: PLANNED (the scenario of section 8). *)
Definition underway_db : Db :=
  catalogue {| o_id := 1; o_status := "IN_PROGRESS" |}
    [ step 1 10 1 (Some 5) "DONE" (Some 30) (Some 3600000000);
      step 2 10 2 (Some 5) "IN_PROGRESS" None (Some 7200000000);
      step 3 10 3 None "PLANNED" (Some 20) None ].

(** Order 1 is IN_PROGRESS and its only step is DONE. *)
Definition finished_db : Db :=
  catalogue {| o_id := 1; o_status := "IN_PROGRESS" |}
    [ step 1 10 1 (Some 5) "DONE" (Some 30) None ].

(** Order 1 is CANCELED and its only step is still PLANNED. *)
Definition canceled_db : Db :=
  catalogue {| o_id := 1; o_status := "CANCELED" |}
    [ step 1 10 1 (Some 5) "PLANNED" (Some 60) None ].

(** Two machines: the mill has two logs, one of them IN_PROGRESS; the
    lathe has none. *)
Definition workload_db : Db :=
  {| Schema.orders := []; order_items := []; products := []; operations := [];
     workshops := [ {| w_id := 5; w_name := "A" |} ];
     route_steps := [];
     equipment := [ {| e_id := 1; e_name := "lathe"; e_workshop_id := Some 5 |};
                    {| e_id := 2; e_name := "mill"; e_workshop_id := None |} ];
     operation_logs :=
       [ {| ol_id := 1; ol_route_step_id := 2; ol_equipment_id := Some 2;
            ol_status := "IN_PROGRESS" |};
         {| ol_id := 2; ol_route_step_id := 1; ol_equipment_id := Some 2;
            ol_status := "DONE" |} ] |}.

Definition admin : Principal :=
  {| pr_id := 1; pr_username := "root"; pr_role := "ADMIN" |}.

Definition manager : Principal :=
  {| pr_id := 2; pr_username := "olga"; pr_role := "MANAGER" |}.

Definition all_digits (s : string) : bool :=
  forallb (fun c => match digit_of c with Some _ => true | None => false end)
          (list_ascii_of_string s).

(** A platform with two tokens, a store that parses decimal ids and puts
    no constraint on [orders.status], and a pattern match that accepts
    every text. *)
#[export] Instance platform : Platform :=
  {| jwt_verify := fun token =>
       if String.eqb token "admin-token" then Some admin
       else if String.eqb token "manager-token" then Some manager
       else None;
     bcrypt_hash := fun password => String.append "$2b$10$" password;
     ilike := fun _ _ => true;
     int_in := fun text => if all_digits text then read_digits text None else None;
     js_trim := fun s => String.rev (skip_spaces (String.rev (skip_spaces s)));
     status_admitted := fun _ => true |}.

Definition order (id : Z) (name status : string) (created : Z) : OrderRow :=
  {| ord_id := id; ord_customer_name := name; ord_customer_phone := "555-0100";
     ord_customer_email := None; ord_services := "milling"; ord_message := None;
     ord_status := status; ord_created_at := created; ord_updated_at := None |}.

Definition store : State :=
  {| users :=
       [ {| u_id := 1; u_username := "root"; u_password_hash := "$2b$10$r";
            u_full_name := None; u_role := "ADMIN"; u_created_at := 100 |};
         {| u_id := 2; u_username := "olga"; u_password_hash := "$2b$10$o";
            u_full_name := Some "Olga"; u_role := "MANAGER"; u_created_at := 200 |} ];
     Web.orders := [ order 1 "Ivan" "NEW" 300; order 2 "Petr" "PLANNED" 400 ];
     order_stats_mv := [ {| mv_day := 19000; mv_status := "NEW"; mv_orders := 1 |} ];
     users_id_seq := 3;
     now := 1000;
     trace := [] |}.

(** A request with a bearer token. *)
Definition request (token id : string) (query : gmap string QVal)
    (body : gmap string JVal) : Request :=
  {| authorization := Some (String.append "Bearer " token); params_id := id;
     Web.query := query; Web.body := body; user := None |}.

(** The manager asks for the statistics. *)
Definition manager_stats_request : Request :=
  request "manager-token" "" ∅ ∅.

(** The manager sets order 2 to a status that no order can have. *)
Definition bogus_status_request : Request :=
  request "manager-token" "2" ∅ {[ "status" := JStr "BOGUS" ]}.

(** The administrator, user 1, asks to delete user 1. *)
Definition self_delete_request : Request :=
  request "admin-token" "1" ∅ ∅.

(** The administrator creates a user and asks for the role "admin". *)
Definition create_user_request : Request :=
  request "admin-token" ""
    ∅ {[ "username" := JStr "anna"; "password" := JStr "secret";
         "role" := JStr "admin" ]}.

(** The manager lists the orders whose status is PLANNED. *)
Definition planned_orders_request : Request :=
  request "manager-token" "" {[ "status" := QStr "PLANNED" ]} ∅.

End Demo.

(** ** What a request may change

    The shape of the store accesses of one request and the changes that
    each route can make to the tables; the statements about the routes
    are phrased with them. *)

Module Effects.
Import Sql Js Web.

(** The string holds a space. *)
Fixpoint has_space (s : string) : bool :=
  match s with
  | EmptyString => false
  | String c s' => Ascii.eqb c " " || has_space s'
  end.

(** The accesses of one request: none, or a connection that is taken,
    used for statements only and given back. *)
Definition paired (added : list Event) : Prop :=
  added = [] \/ exists sts, added = (Connect :: map Query sts ++ [Release])%list.

(** A row is added to [users], under a username that was free and with
    the next id of the sequence. *)
Definition user_added (s s' : State) : Prop :=
  exists row,
    users s' = (users s ++ [row])%list
    /\ existsb (fun u => String.eqb (u_username u) (u_username row)) (users s) = false
    /\ u_id row = users_id_seq s
    /\ u_created_at row = now s.

(** The users with one id are removed. *)
Definition users_removed (s s' : State) : Prop :=
  exists n, users s' = List.filter (fun u => negb (u_id u =? n)) (users s).

(** The orders with one id get a status and the current instant as the
    time of their last update. *)
Definition status_set (s s' : State) : Prop :=
  exists n st,
    orders s' = map (fun o => if ord_id o =? n then set_status st (now s) o else o)
                    (orders s).

(** What the request of a route may do to the tables. *)
Definition may_change (r : Route) (s s' : State) : Prop :=
  match r with
  | GET_stats_mv | GET_orders | GET_stats =>
      users s' = users s /\ orders s' = orders s
      /\ users_id_seq s' = users_id_seq s
  | POST_users =>
      orders s' = orders s
      /\ ((users s' = users s
           /\ (users_id_seq s' = users_id_seq s
               \/ users_id_seq s' = users_id_seq s + 1))
          \/ (user_added s s' /\ users_id_seq s' = users_id_seq s + 1))
  | DELETE_users_id =>
      orders s' = orders s /\ users_id_seq s' = users_id_seq s
      /\ (users s' = users s \/ users_removed s s')
  | PATCH_orders_id_status =>
      users s' = users s /\ users_id_seq s' = users_id_seq s
      /\ (orders s' = orders s \/ status_set s s')
  end.

(** Usernames are unique, ids are unique and below the sequence. *)
Definition usernames_unique (s : State) : Prop :=
  List.NoDup (map u_username (users s)).

Definition ids_issued (s : State) : Prop :=
  List.NoDup (map u_id (users s))
  /\ forall u, In u (users s) -> u_id u < users_id_seq s.

(** The state after the accesses [added]. *)
Definition after (s : State) (added : list Event) (us : list UserRow)
    (os : list OrderRow) (seq : Z) : State :=
  {| users := us; orders := os; order_stats_mv := order_stats_mv s;
     users_id_seq := seq; now := now s; trace := (trace s ++ added)%list |}.

Section Requests.
Context `{Platform}.

(** What a handler that answers leaves behind. *)
Definition handled (r : Route) (s : State) (out : Outcome Response * State) : Prop :=
  exists res added,
    fst out = Ok res
    /\ trace (snd out) = (trace s ++ added)%list
    /\ paired added
    /\ order_stats_mv (snd out) = order_stats_mv s
    /\ now (snd out) = now s
    /\ may_change r s (snd out).

(** The state after a sequence of requests. *)
Fixpoint serve_all (l : list (Route * Request)) (s : State) : State :=
  match l with
  | [] => s
  | (r, req) :: l' => serve_all l' (snd (serve r req s))
  end.

End Requests.

End Effects.

(** ** Sort orders

    What makes a comparison of sort keys an order, and the position of
    two rows in a result. *)

Module Ordering.
Import Sql.

(** Swapping the rows reverses the comparison, rows that compare equal
    compare alike with every row, and coming before is transitive. *)
Definition lawful {A : Type} (cmp : A -> A -> comparison) : Prop :=
  (forall a b, cmp b a = CompOpp (cmp a b))
  /\ (forall a b c, cmp a b = Eq -> cmp a c = cmp b c)
  /\ (forall a b c, cmp a b = Lt -> cmp b c = Lt -> cmp a c = Lt).

(** [x] stands before [y] in the list. *)
Definition precedes {A : Type} (x y : A) (l : list A) : Prop :=
  exists l1 l2 l3, l = (l1 ++ x :: l2 ++ y :: l3)%list.

End Ordering.

(** ** The other reports of queries.sql

    Q10, and the reports on overdue orders Q7 and Q14, which read columns
    of [orders] that the reports above leave aside. *)

Module Reports.
Import Sql Schema.

(** *** Q10: steps per workshop and status *)

Record Q10Row := {
  q10_workshop : option string;
  q10_planned_steps : Z;
  q10_in_progress_steps : Z;
  q10_done_steps : Z
}.

Definition Q10Joined : Type := RouteStep * option Workshop.

Definition Q10_from (db : Db) : list Q10Joined :=
  left_join (fun rs w => eq_nullable (w_id w) (rs_workshop_id rs))
    (route_steps db) (workshops db).

(** [GROUP BY w.name] *)
Definition Q10_key (j : Q10Joined) : option string := option_map w_name (snd j).

(** [rs.status = st] *)
Definition Q10_status (st : string) (j : Q10Joined) : bool :=
  String.eqb (rs_status (fst j)) st.

Definition Q10_select (g : option string * list Q10Joined) : Q10Row :=
  {| q10_workshop := fst g;
     q10_planned_steps := count_filter (Q10_status "PLANNED") (snd g);
     q10_in_progress_steps := count_filter (Q10_status "IN_PROGRESS") (snd g);
     q10_done_steps := count_filter (Q10_status "DONE") (snd g) |}.

(** Comparison of a nullable text sort key under [ASC]: PostgreSQL puts
    NULLs last in an ascending sort. *)
Definition asc_nulls_last (a b : option string) : comparison :=
  match a, b with
  | Some x, Some y => String.compare x y
  | Some _, None => Lt
  | None, Some _ => Gt
  | None, None => Eq
  end.

(** [ORDER BY w.name] *)
Definition Q10_compare (a b : Q10Row) : comparison :=
  asc_nulls_last (q10_workshop a) (q10_workshop b).

Definition Q10 (db : Db) : list Q10Row :=
  order_by (fun a b => not_after (Q10_compare a b))
    (map Q10_select (group_by eqb_option_string Q10_key (Q10_from db))).

(** The rows of the group of a workshop name. *)
Definition Q10_group (db : Db) (k : option string) : list Q10Joined :=
  List.filter (fun j => eqb_option_string (Q10_key j) k) (Q10_from db).

(** *** Q7 and Q14: orders past their due date *)

(** Modelled from the spec: table [customers]. *)
Record Customer := {
  c_id : Z;
  c_name : string
}.

(** Modelled from the spec: table [orders] with the columns that Q7 and
    Q14 read ("customer reference, status, priority, due date"); a date
    is a number of days. *)
Record DueOrder := {
  do_id : Z;
  do_customer_id : option Z;
  do_status : string;
  do_priority : option Z;
  do_due_date : option Z
}.

Record Ledger := {
  due_orders : list DueOrder;
  customers : list Customer
}.

Definition DueJoined : Type := DueOrder * Customer.

(** [FROM orders o JOIN customers c ON c.id = o.customer_id] *)
Definition due_from (db : Ledger) : list DueJoined :=
  inner_join (fun o c => eq_nullable (c_id c) (do_customer_id o))
    (due_orders db) (customers db).

(** [o.due_date IS NOT NULL AND o.due_date < CURRENT_DATE
     AND o.status NOT IN ('DONE', 'CANCELED')] *)
Definition due_where (today : Z) (j : DueJoined) : bool :=
  match do_due_date (fst j) with
  | Some d =>
      (d <? today)
      && negb (String.eqb (do_status (fst j)) "DONE"
               || String.eqb (do_status (fst j)) "CANCELED")
  | None => false
  end.

(** [CURRENT_DATE - o.due_date]: a number of days, NULL on NULL. *)
Definition days_overdue (today : Z) (due : option Z) : option Z :=
  option_map (fun d => today - d) due.

Record Q7Row := {
  q7_id : Z;
  q7_customer : string;
  q7_status : string;
  q7_due_date : option Z;
  q7_days_overdue : option Z
}.

Definition Q7_select (today : Z) (j : DueJoined) : Q7Row :=
  {| q7_id := do_id (fst j);
     q7_customer := c_name (snd j);
     q7_status := do_status (fst j);
     q7_due_date := do_due_date (fst j);
     q7_days_overdue := days_overdue today (do_due_date (fst j)) |}.

(** Comparison of a nullable integer sort key under [DESC] (NULLs first)
    and under [ASC] (NULLs last). *)
Definition desc_nulls_first_Z (a b : option Z) : comparison :=
  match a, b with
  | Some x, Some y => y ?= x
  | Some _, None => Gt
  | None, Some _ => Lt
  | None, None => Eq
  end.

Definition asc_nulls_last_Z (a b : option Z) : comparison :=
  match a, b with
  | Some x, Some y => x ?= y
  | Some _, None => Lt
  | None, Some _ => Gt
  | None, None => Eq
  end.

(** [ORDER BY days_overdue DESC] *)
Definition Q7_compare (a b : Q7Row) : comparison :=
  desc_nulls_first_Z (q7_days_overdue a) (q7_days_overdue b).

Definition Q7 (db : Ledger) (today : Z) : list Q7Row :=
  order_by (fun a b => not_after (Q7_compare a b))
    (map (Q7_select today) (List.filter (due_where today) (due_from db))).

Record Q14Row := {
  q14_id : Z;
  q14_customer : string;
  q14_status : string;
  q14_due_date : option Z;
  q14_days_overdue : option Z;
  q14_priority : option Z
}.

Definition Q14_select (today : Z) (j : DueJoined) : Q14Row :=
  {| q14_id := do_id (fst j);
     q14_customer := c_name (snd j);
     q14_status := do_status (fst j);
     q14_due_date := do_due_date (fst j);
     q14_days_overdue := days_overdue today (do_due_date (fst j));
     q14_priority := do_priority (fst j) |}.

(** [ORDER BY days_overdue DESC, o.priority ASC] *)
Definition Q14_compare (a b : Q14Row) : comparison :=
  lex (desc_nulls_first_Z (q14_days_overdue a) (q14_days_overdue b))
      (asc_nulls_last_Z (q14_priority a) (q14_priority b)).

Definition Q14 (db : Ledger) (today : Z) : list Q14Row :=
  order_by (fun a b => not_after (Q14_compare a b))
    (map (Q14_select today) (List.filter (due_where today) (due_from db))).

(** The columns that Q14 shares with Q7. *)
Definition Q14_as_Q7 (r : Q14Row) : Q7Row :=
  {| q7_id := q14_id r;
     q7_customer := q14_customer r;
     q7_status := q14_status r;
     q7_due_date := q14_due_date r;
     q7_days_overdue := q14_days_overdue r |}.

(** *** Q11: products by ordered quantity *)

(** Modelled from the spec: table [order_items] with the column that Q11
    sums ("quantity (positive integer)"). *)
Record ItemLine := {
  il_id : Z;
  il_order_id : Z;
  il_product_id : Z;
  il_quantity : Z
}.

Record Q11Row := {
  q11_product : string;
  q11_total_qty : Z;
  q11_orders_cnt : Z
}.

Definition Q11Joined : Type := ItemLine * Product.

Definition Q11_from (items : list ItemLine) (products : list Product)
    : list Q11Joined :=
  inner_join (fun oi p => p_id p =? il_product_id oi) items products.

(** [GROUP BY p.name] *)
Definition Q11_key (j : Q11Joined) : string := p_name (snd j).

(** [COUNT(DISTINCT e)] over the rows of a group. *)
Definition count_distinct {A : Type} (e : A -> Z) (g : list A) : Z :=
  Z.of_nat (length (distinct Z.eqb (map e g))).

Definition Q11_select (g : string * list Q11Joined) : Q11Row :=
  {| q11_product := fst g;
     q11_total_qty := sumZ (fun j => il_quantity (fst j)) (snd g);
     q11_orders_cnt := count_distinct (fun j => il_order_id (fst j)) (snd g) |}.

Definition Q11 (items : list ItemLine) (products : list Product) : list Q11Row :=
  order_by (fun a b => q11_total_qty b <=? q11_total_qty a)
    (map Q11_select (group_by String.eqb Q11_key (Q11_from items products))).

(** The lines that order a product of the given name. *)
Definition lines_of (items : list ItemLine) (products : list Product)
    (name : string) : list ItemLine :=
  List.filter (fun oi =>
                 match List.find (fun p => p_id p =? il_product_id oi) products with
                 | Some p => String.eqb (p_name p) name
                 | None => false
                 end) items.

End Reports.

(** ** Sessions, the list of users, deletion of orders

    POST /login, GET /users and DELETE /orders/:id.  [Statement] lists
    the statements of the routes above; the trace of these three routes
    shows the connection that they take and give back. *)

Module Accounts.
Import Sql Js Web.

(** The collaborators of POST /login, with a secret in the environment. *)
Class Credentials := {
  (** [jwt.sign(payload, secret, options)] *)
  jwt_sign : Principal -> string;
  (** [bcrypt.compare(password, hash)] *)
  bcrypt_compare : string -> string -> bool
}.

(** The answers of the three routes: one that [Body] expresses, the
    answer 401 of POST /login to a wrong login or password, its answer
    200, and the rows of GET /users. *)
Inductive Answer :=
| Plain (res : Response)
| WrongLoginOrPassword
| Session (token username role : string)
| UserList (rows : list UserView).

Inductive Endpoint :=
| POST_login
| GET_users
| DELETE_orders_id.

Section Handlers.
Context `{Platform} `{Credentials}.
Local Open Scope web_scope.

(** [generateToken(user)] *)
Definition generateToken (user : UserRow) : string :=
  jwt_sign {| pr_id := u_id user; pr_username := u_username user;
              pr_role := u_role user |}.

(** [SELECT * FROM users WHERE username = $1] *)
Definition select_user_by_name (username : option string) : M (list UserRow) :=
  fun s =>
    (Ok match username with
        | Some name => List.filter (fun u => String.eqb (u_username u) name) (users s)
        | None => []
        end, s).

(** [await bcrypt.compare(password, hash)]: rejects what is not a string. *)
Definition compare_password (password : JVal) (hash : string) : M bool :=
  match password with
  | JStr s => ret (bcrypt_compare s hash)
  | _ => throw TypeError
  end.

(** POST /login *)
Definition login_handler (req : Request) : M Answer :=
  try_catch
    (let username := body req !! "username" in
     let password := body req !! "password" in
     match if_truthy username, if_truthy password with
     | Some username, Some password =>
         with_client
           (rows <- select_user_by_name (prepareValue username) ;;
            match rows with
            | [] => ret WrongLoginOrPassword
            | user :: _ =>
                passwordOk <- compare_password password (u_password_hash user) ;;
                if passwordOk
                then ret (Session (generateToken user) (u_username user) (u_role user))
                else ret WrongLoginOrPassword
            end)
     | _, _ => ret (Plain (respond 400 (JError LoginAndPasswordRequired)))
     end)
    (fun _ => ret (Plain (respond 500 (JError InternalServerError)))).

(** [SELECT id, username, full_name, role, created_at FROM users
     ORDER BY created_at DESC] *)
Definition select_users : M (list UserView) :=
  fun s =>
    (Ok (map view_of_user
           (order_by (fun a b => u_created_at b <=? u_created_at a) (users s))), s).

(** GET /users *)
Definition get_users_handler (req : Request) : M Answer :=
  try_catch
    (with_client
       (rows <- select_users ;;
        ret (UserList rows)))
    (fun _ => ret (Plain (respond 500 (JError InternalServerError)))).

(** [DELETE FROM orders WHERE id = $1 RETURNING id] *)
Definition delete_order (id : string) : M (list Z) :=
  fun s =>
    match int_in id with
    | None => (Throw (PgError "22P02"), s)
    | Some n =>
        (Ok (map ord_id (List.filter (fun o => ord_id o =? n) (orders s))),
         {| users := users s;
            orders := List.filter (fun o => negb (ord_id o =? n)) (orders s);
            order_stats_mv := order_stats_mv s;
            users_id_seq := users_id_seq s; now := now s;
            trace := trace s |})
    end.

(** DELETE /orders/:id *)
Definition delete_orders_handler (req : Request) : M Answer :=
  try_catch
    (with_client
       (rows <- delete_order (params_id req) ;;
        match rows with
        | [] => ret (Plain (respond 404 (JError OrderNotFound)))
        | _ => ret (Plain (respond 200 JSuccess))
        end))
    (fun _ => ret (Plain (respond 500 (JError InternalServerError)))).

(** A handler behind middlewares, as [chain], for these answers. *)
Fixpoint guarded (mws : list (Request -> Response + Request))
    (handler : Request -> M Answer) (req : Request) : M Answer :=
  match mws with
  | [] => handler req
  | mw :: rest =>
      match mw req with
      | inl res => ret (Plain res)
      | inr req' => guarded rest handler req'
      end
  end.

Definition endpoint (e : Endpoint) : Request -> M Answer :=
  match e with
  | POST_login => login_handler
  | GET_users => guarded [authMiddleware; adminOnlyMiddleware] get_users_handler
  | DELETE_orders_id => guarded [authMiddleware] delete_orders_handler
  end.

(** The answer to a request and the store after it. *)
Definition answer (e : Endpoint) (req : Request) (s : State) : Answer * State :=
  match endpoint e req s with
  | (Ok a, s') => (a, s')
  | (Throw _, s') => (Plain (respond 500 (JError InternalServerError)), s')
  end.

(** A request that carries the token of a session. *)
Definition with_token (req : Request) (token : string) : Request :=
  {| authorization := Some (String.append "Bearer " token);
     params_id := params_id req; query := query req; body := body req;
     user := user req |}.

End Handlers.

End Accounts.

(** ** More sample data *)

Module Samples.
Import Schema Js Web Accounts Reports Demo.

(** The tokens of the two users of [Demo.store], and a comparison that
    accepts the hashes of [Demo.platform]. *)
#[export] Instance credentials : Credentials :=
  {| jwt_sign := fun p => if pr_id p =? 1 then "admin-token" else "manager-token";
     bcrypt_compare := fun password hash =>
       String.eqb hash (String.append "$2b$10$" password) |}.

(** A request without an Authorization header. *)
Definition anonymous_request : Request :=
  {| authorization := None; params_id := ""; Web.query := ∅; Web.body := ∅;
     user := None |}.

Definition login_request (username password : string) : Request :=
  {| authorization := None; params_id := ""; Web.query := ∅;
     Web.body := {[ "username" := JStr username; "password" := JStr password ]};
     user := None |}.

(** The administrator creates a user without a username. *)
Definition nameless_user_request : Request :=
  request "admin-token" "" ∅ {[ "password" := JStr "secret" ]}.

(** The administrator, user 1, deletes user 2. *)
Definition delete_manager_request : Request :=
  request "admin-token" "2" ∅ ∅.

(** The manager sets order 1 to DONE. *)
Definition finish_order_request : Request :=
  request "manager-token" "1" ∅ {[ "status" := JStr "DONE" ]}.

(** The manager lists the orders whose status is NEW. *)
Definition new_orders_request : Request :=
  request "manager-token" "" {[ "status" := QStr "NEW" ]} ∅.


(** The manager deletes order 2. *)
Definition delete_order_request : Request :=
  request "manager-token" "2" ∅ ∅.


(** Two products of the same name, ordered in three lines of two orders. *)
Definition goods : list Product :=
  [ {| p_id := 100; p_name := "bracket" |};
    {| p_id := 101; p_name := "bracket" |};
    {| p_id := 102; p_name := "flange" |} ].

Definition lines : list ItemLine :=
  [ {| il_id := 10; il_order_id := 1; il_product_id := 100; il_quantity := 4 |};
    {| il_id := 11; il_order_id := 1; il_product_id := 101; il_quantity := 2 |};
    {| il_id := 12; il_order_id := 2; il_product_id := 102; il_quantity := 5 |} ].

End Samples.

(** ** Facts about the SQL building blocks *)

Module SqlFacts.
Import Sql.

Lemma insert_row_perm {A : Type} (leb : A -> A -> bool) (x : A) (l : list A) :
  Permutation (x :: l) (insert_row leb x l).
Proof.
  induction l as [|y l IH]; simpl; [reflexivity|].
  destruct (leb x y); [reflexivity|].
  rewrite perm_swap. now apply perm_skip.
Qed.

Lemma order_by_perm {A : Type} (leb : A -> A -> bool) (l : list A) :
  Permutation l (order_by leb l).
Proof.
  induction l as [|x l IH]; simpl; [reflexivity|].
  etransitivity; [apply perm_skip, IH|apply insert_row_perm].
Qed.

Lemma order_by_In {A : Type} (leb : A -> A -> bool) (l : list A) (x : A) :
  In x (order_by leb l) <-> In x l.
Proof.
  split; apply Permutation_in; [symmetry|]; apply order_by_perm.
Qed.

Lemma round_half_away_nonneg (x : Q) : (0 <= x)%Q -> 0 <= round_half_away x.
Proof.
  intros Hx. unfold round_half_away.
  apply Qle_bool_iff in Hx. rewrite Hx. apply Qle_bool_iff in Hx.
  change 0 with (Qfloor 0). apply Qfloor_resp_le.
  apply Qle_trans with x; [exact Hx|].
  rewrite <- (Qplus_0_r x) at 1. apply Qplus_le_r. discriminate.
Qed.

Lemma round_half_away_mono (x y : Q) :
  (0 <= x)%Q -> (x <= y)%Q -> round_half_away x <= round_half_away y.
Proof.
  intros Hx Hxy. unfold round_half_away.
  assert (Hy : (0 <= y)%Q) by (eapply Qle_trans; eauto).
  apply Qle_bool_iff in Hx, Hy. rewrite Hx, Hy.
  apply Qfloor_resp_le. now apply Qplus_le_l.
Qed.

Lemma round_nonneg (x : Q) (d : nat) : (0 <= x)%Q -> (0 <= round x d)%Q.
Proof.
  intros Hx. unfold round.
  assert (Hp : 0 < 10 ^ Z.of_nat d) by (apply Z.pow_pos_nonneg; lia).
  apply Qle_shift_div_l.
  - change 0%Q with (inject_Z 0). rewrite <- Zlt_Qlt. exact Hp.
  - rewrite Qmult_0_l. change 0%Q with (inject_Z 0). rewrite <- Zle_Qle.
    apply round_half_away_nonneg. apply Qmult_le_0_compat; [exact Hx|].
    change 0%Q with (inject_Z 0). rewrite <- Zle_Qle. lia.
Qed.

Lemma round_mono (x y : Q) (d : nat) :
  (0 <= x)%Q -> (x <= y)%Q -> (round x d <= round y d)%Q.
Proof.
  intros Hx Hxy. unfold round.
  assert (Hp : 0 < 10 ^ Z.of_nat d) by (apply Z.pow_pos_nonneg; lia).
  assert (HpQ : (0 < inject_Z (10 ^ Z.of_nat d))%Q)
    by (change 0%Q with (inject_Z 0); rewrite <- Zlt_Qlt; exact Hp).
  unfold Qdiv. apply Qmult_le_compat_r.
  - rewrite <- Zle_Qle. apply round_half_away_mono.
    + apply Qmult_le_0_compat; [exact Hx|]. now apply Qlt_le_weak.
    + apply Qmult_le_compat_r; [exact Hxy|]. now apply Qlt_le_weak.
  - apply Qlt_le_weak, Qinv_lt_0_compat, HpQ.
Qed.

(** *** Sums over joined tables *)

Lemma sumZ_ext {A : Type} (f g : A -> Z) (l : list A) :
  (forall x, In x l -> f x = g x) -> sumZ f l = sumZ g l.
Proof.
  induction l as [|x l IH]; simpl; intros Hfg; [reflexivity|].
  rewrite (Hfg x) by now left. rewrite IH; [reflexivity|].
  intros y Hy. apply Hfg. now right.
Qed.

Lemma sumZ_app {A : Type} (f : A -> Z) (l1 l2 : list A) :
  sumZ f (l1 ++ l2) = sumZ f l1 + sumZ f l2.
Proof. induction l1 as [|x l1 IH]; simpl; [reflexivity|]. rewrite IH. lia. Qed.

Lemma sumZ_map {A B : Type} (f : B -> Z) (g : A -> B) (l : list A) :
  sumZ f (map g l) = sumZ (fun x => f (g x)) l.
Proof. induction l as [|x l IH]; simpl; [reflexivity|]. now rewrite IH. Qed.

Lemma sumZ_flat_map {A B : Type} (f : B -> Z) (g : A -> list B) (l : list A) :
  sumZ f (flat_map g l) = sumZ (fun a => sumZ f (g a)) l.
Proof.
  induction l as [|x l IH]; simpl; [reflexivity|].
  now rewrite sumZ_app, IH.
Qed.

Lemma sumZ_filter {A : Type} (f : A -> Z) (p : A -> bool) (l : list A) :
  sumZ f (List.filter p l) = sumZ (fun x => if p x then f x else 0) l.
Proof.
  induction l as [|x l IH]; simpl; [reflexivity|].
  destruct (p x); simpl; rewrite IH; reflexivity.
Qed.

Lemma sumZ_zero {A : Type} (l : list A) : sumZ (fun _ => 0) l = 0.
Proof. induction l as [|x l IH]; simpl; [reflexivity|]. now rewrite IH. Qed.

Lemma sumZ_plus {A : Type} (f g : A -> Z) (l : list A) :
  sumZ (fun x => f x + g x) l = sumZ f l + sumZ g l.
Proof. induction l as [|x l IH]; simpl; [reflexivity|]. rewrite IH. lia. Qed.

Lemma sumZ_guard {A : Type} (c : bool) (f : A -> Z) (l : list A) :
  sumZ (fun x => if c then f x else 0) l = if c then sumZ f l else 0.
Proof. destruct c; [reflexivity|apply sumZ_zero]. Qed.

Lemma sumZ_swap {A B : Type} (f : A -> B -> Z) (l : list A) (r : list B) :
  sumZ (fun a => sumZ (f a) r) l = sumZ (fun b => sumZ (fun a => f a b) l) r.
Proof.
  induction l as [|x l IH]; simpl.
  - now rewrite sumZ_zero.
  - now rewrite IH, sumZ_plus.
Qed.

Lemma sumZ_inner_join {A B : Type} (f : A * B -> Z) (on : A -> B -> bool)
    (l : list A) (r : list B) :
  sumZ f (inner_join on l r)
  = sumZ (fun a => sumZ (fun b => if on a b then f (a, b) else 0) r) l.
Proof.
  unfold inner_join. rewrite sumZ_flat_map. apply sumZ_ext. intros a _.
  now rewrite sumZ_map, sumZ_filter.
Qed.

Lemma sumZ_nonneg {A : Type} (f : A -> Z) (l : list A) :
  (forall x, In x l -> 0 <= f x) -> 0 <= sumZ f l.
Proof.
  induction l as [|x l IH]; simpl; intros Hf; [lia|].
  assert (0 <= f x) by (apply Hf; now left).
  assert (0 <= sumZ f l) by (apply IH; intros y Hy; apply Hf; now right).
  lia.
Qed.

(** The number of rows that pass a filter, as a sum. *)
Lemma length_filter_sumZ {A : Type} (p : A -> bool) (l : list A) :
  Z.of_nat (length (List.filter p l)) = sumZ (fun x => if p x then 1 else 0) l.
Proof.
  induction l as [|x l IH]; simpl; [reflexivity|].
  destruct (p x); simpl; lia.
Qed.

Lemma filter_nil_sumZ {A : Type} (p : A -> bool) (l : list A) :
  List.filter p l = [] <-> sumZ (fun x => if p x then 1 else 0) l = 0.
Proof.
  rewrite <- length_filter_sumZ. destruct (List.filter p l); simpl.
  - tauto.
  - split; [discriminate|lia].
Qed.

Lemma length_sumZ {A : Type} (l : list A) :
  Z.of_nat (length l) = sumZ (fun _ => 1) l.
Proof. induction l as [|x l IH]; simpl; [reflexivity|]. lia. Qed.

(** A key that is unique in a table selects at most one row. *)
Lemma sumZ_unique {A : Type} (id : A -> Z) (k : Z) (f : A -> Z) (l : list A) :
  List.NoDup (map id l) ->
  sumZ (fun x => if id x =? k then f x else 0) l
  = match List.find (fun x => id x =? k) l with
    | Some x => f x
    | None => 0
    end.
Proof.
  induction l as [|x l IH]; simpl; intros Hnd; [reflexivity|].
  inversion Hnd as [|? ? Hnotin Hnd']; subst.
  destruct (Z.eqb_spec (id x) k) as [Heq|Hne].
  - rewrite (sumZ_ext _ (fun _ => 0)), sumZ_zero; [lia|].
    intros y Hy. destruct (Z.eqb_spec (id y) k) as [Heq'|]; [|reflexivity].
    exfalso. apply Hnotin. rewrite Heq, <- Heq'. now apply in_map.
  - now rewrite IH.
Qed.

Lemma unique_ids_NoDup (l : list Z) :
  Routing.unique_ids l = true -> List.NoDup l.
Proof.
  induction l as [|x l IH]; simpl; intros Hu; [constructor|].
  apply andb_true_iff in Hu. destruct Hu as [Hx Hl].
  constructor; [|now apply IH].
  intros Hin. apply negb_true_iff in Hx.
  assert (existsb (Z.eqb x) l = true); [|congruence].
  apply existsb_exists. exists x. split; [exact Hin|apply Z.eqb_refl].
Qed.

(** *** GROUP BY *)

Section GroupBy.
Context {K A : Type} (eqb : K -> K -> bool) (key : A -> K).
Hypothesis eqb_eq : forall a b, eqb a b = true <-> a = b.

Lemma distinct_In (l : list K) (k : K) : In k (distinct eqb l) <-> In k l.
Proof.
  induction l as [|k0 l IH]; simpl; [tauto|].
  rewrite filter_In, IH, negb_true_iff. split.
  - intros [Heq|[Hin _]]; auto.
  - intros [Heq|Hin]; [now left|].
    destruct (eqb k k0) eqn:Hk; [left; symmetry; now apply eqb_eq|auto].
Qed.

Lemma distinct_NoDup (l : list K) : List.NoDup (distinct eqb l).
Proof.
  induction l as [|k0 l IH]; simpl; constructor.
  - rewrite filter_In, negb_true_iff. intros [_ Hne].
    assert (eqb k0 k0 = true) by now apply eqb_eq. congruence.
  - now apply List.NoDup_filter.
Qed.

Lemma key_In_filter (rows : list A) (k : K) :
  In k (map key rows) <-> List.filter (fun r => eqb (key r) k) rows <> [].
Proof.
  induction rows as [|r rows IH]; simpl; [tauto|].
  destruct (eqb (key r) k) eqn:Hk.
  - split; [discriminate|]. intros _. left. now apply eqb_eq.
  - rewrite <- IH. split; [|tauto].
    intros [Heq|Hin]; [|exact Hin].
    apply eqb_eq in Heq. congruence.
Qed.

Lemma group_by_In (rows : list A) (k : K) (g : list A) :
  In (k, g) (group_by eqb key rows) <->
  List.filter (fun r => eqb (key r) k) rows <> []
  /\ g = List.filter (fun r => eqb (key r) k) rows.
Proof.
  unfold group_by. rewrite in_map_iff, <- key_In_filter. split.
  - intros (k' & [= <- <-] & Hin). rewrite distinct_In in Hin. now split.
  - intros [Hin ->]. exists k. split; [reflexivity|]. now rewrite distinct_In.
Qed.

Lemma group_by_keys (rows : list A) :
  List.NoDup (map fst (group_by eqb key rows)).
Proof.
  unfold group_by. rewrite map_map. simpl. rewrite map_id.
  apply distinct_NoDup.
Qed.

End GroupBy.

Lemma eqb_option_string_eq (a b : option string) :
  eqb_option_string a b = true <-> a = b.
Proof.
  destruct a as [x|], b as [y|]; simpl; try (split; [discriminate|congruence]).
  - rewrite String.eqb_eq. split; congruence.
  - tauto.
Qed.

Lemma find_unique {A : Type} (id : A -> Z) (l : list A) (x : A) :
  List.NoDup (map id l) -> In x l ->
  List.find (fun y => id y =? id x) l = Some x.
Proof.
  induction l as [|y l IH]; simpl; intros Hnd Hin; [contradiction|].
  inversion Hnd as [|? ? Hnotin Hnd']; subst.
  destruct Hin as [->|Hin]; [now rewrite Z.eqb_refl|].
  destruct (Z.eqb_spec (id y) (id x)) as [Heq|Hne]; [|now apply IH].
  exfalso. apply Hnotin. rewrite Heq. now apply in_map.
Qed.

Lemma existsb_unique {A : Type} (id : A -> Z) (k : Z) (p : A -> bool) (l : list A) :
  List.NoDup (map id l) ->
  existsb (fun x => (id x =? k) && p x) l
  = match List.find (fun x => id x =? k) l with
    | Some x => p x
    | None => false
    end.
Proof.
  induction l as [|x l IH]; simpl; intros Hnd; [reflexivity|].
  inversion Hnd as [|? ? Hnotin Hnd']; subst.
  destruct (Z.eqb_spec (id x) k) as [Heq|Hne]; simpl; [|now apply IH].
  destruct (p x); [reflexivity|].
  apply not_true_is_false. intros Hex. apply existsb_exists in Hex.
  destruct Hex as (y & Hy & Hmatch). apply andb_true_iff in Hmatch.
  destruct Hmatch as [Hid _]. apply Z.eqb_eq in Hid.
  apply Hnotin. rewrite Heq, <- Hid. now apply in_map.
Qed.

Lemma existsb_find {A : Type} (p : A -> bool) (l : list A) :
  existsb p l = true -> exists x, List.find p l = Some x.
Proof.
  induction l as [|x l IH]; simpl; [discriminate|].
  destruct (p x); [eauto|exact IH].
Qed.

Lemma sumZ_all_zero {A : Type} (f : A -> Z) (l : list A) :
  (forall x, In x l -> f x = 0) -> sumZ f l = 0.
Proof. intros Hf. rewrite (sumZ_ext f (fun _ => 0) l Hf). apply sumZ_zero. Qed.

Ltac sum_zero :=
  repeat (apply sumZ_all_zero; intros ? _;
          match goal with
          | |- (if ?b then _ else _) = 0 => destruct b; [|reflexivity]
          end);
  try reflexivity.

(** *** Rounding *)

Lemma Qfloor_plus_half (n : Z) : Qfloor (inject_Z n + (1 # 2)) = n.
Proof.
  unfold Qfloor, Qplus, inject_Z. simpl.
  symmetry. apply (Z.div_unique _ _ _ 1); lia.
Qed.

Lemma round_half_away_Qeq (x y : Q) :
  (x == y)%Q -> round_half_away x = round_half_away y.
Proof.
  intros Hxy. unfold round_half_away.
  assert (Hb : Qle_bool 0 x = Qle_bool 0 y).
  { destruct (Qle_bool 0 x) eqn:Hx, (Qle_bool 0 y) eqn:Hy; try reflexivity.
    - apply Qle_bool_iff in Hx. rewrite Hxy in Hx. apply Qle_bool_iff in Hx. congruence.
    - apply Qle_bool_iff in Hy. rewrite <- Hxy in Hy. apply Qle_bool_iff in Hy. congruence. }
  rewrite Hb. destruct (Qle_bool 0 y).
  - apply Qfloor_comp. now rewrite Hxy.
  - f_equal. apply Qfloor_comp. now rewrite Hxy.
Qed.

Lemma round_half_away_Z (n : Z) : round_half_away (inject_Z n) = n.
Proof.
  unfold round_half_away. destruct (Qle_bool 0 (inject_Z n)).
  - apply Qfloor_plus_half.
  - rewrite <- inject_Z_opp, Qfloor_plus_half. lia.
Qed.

(** Rounding to no decimals leaves a whole number as it is. *)
Lemma round_whole (x : Q) (n : Z) :
  (x == inject_Z n)%Q -> (round x 0 == x)%Q.
Proof.
  intros Hx. unfold round. change (10 ^ Z.of_nat 0) with 1.
  rewrite (round_half_away_Qeq (x * inject_Z 1) (inject_Z n)).
  - rewrite round_half_away_Z, Hx. unfold Qdiv. 
    change (/ inject_Z 1)%Q with 1%Q. apply Qmult_1_r.
  - rewrite Hx. apply Qmult_1_r.
Qed.

Lemma filter_unique {A : Type} (id : A -> Z) (k : Z) (l : list A) :
  List.NoDup (map id l) ->
  List.filter (fun x => id x =? k) l
  = match List.find (fun x => id x =? k) l with
    | Some x => [x]
    | None => []
    end.
Proof.
  induction l as [|x l IH]; simpl; intros Hnd; [reflexivity|].
  inversion Hnd as [|? ? Hnotin Hnd']; subst.
  destruct (Z.eqb_spec (id x) k) as [Heq|Hne]; [|now apply IH].
  f_equal. rewrite IH by exact Hnd'.
  destruct (List.find _ l) as [y|] eqn:Hf; [|reflexivity].
  apply find_some in Hf. destruct Hf as [Hy Hid]. apply Z.eqb_eq in Hid.
  exfalso. apply Hnotin. rewrite Heq, <- Hid. now apply in_map.
Qed.

Lemma sumZ_left_join {A B : Type} (f : A * option B -> Z) (on : A -> B -> bool)
    (l : list A) (r : list B) :
  sumZ f (left_join on l r)
  = sumZ (fun a => match List.filter (on a) r with
                   | [] => f (a, None)
                   | ms => sumZ (fun b => f (a, Some b)) ms
                   end) l.
Proof.
  unfold left_join. rewrite sumZ_flat_map. apply sumZ_ext. intros a _.
  destruct (List.filter (on a) r) as [|b ms]; simpl; [lia|].
  now rewrite sumZ_map.
Qed.

Lemma sum_filter_group_nonempty {A : Type} (e : A -> Z) (p : A -> bool)
    (g : list A) (m : Z) :
  sum_filter e p g = Some m -> g <> [].
Proof. intros Hs ->. discriminate. Qed.

Lemma in_inner_join {A B : Type} (on : A -> B -> bool) (l : list A) (r : list B)
    (a : A) (b : B) :
  In (a, b) (inner_join on l r) <-> In a l /\ In b r /\ on a b = true.
Proof.
  unfold inner_join. rewrite in_flat_map. split.
  - intros (a' & Ha & Hab). apply in_map_iff in Hab.
    destruct Hab as (b' & [= -> ->] & Hb). apply filter_In in Hb. tauto.
  - intros (Ha & Hb & Hon). exists a. split; [exact Ha|].
    apply in_map. apply filter_In. auto.
Qed.

Lemma in_left_join_l {A B : Type} (on : A -> B -> bool) (l : list A) (r : list B)
    (a : A) (b : option B) :
  In (a, b) (left_join on l r) -> In a l.
Proof.
  unfold left_join. rewrite in_flat_map. intros (a' & Ha & Hab).
  destruct (List.filter (on a') r) as [|b' ms].
  - destruct Hab as [[= -> _]|[]]. exact Ha.
  - apply in_map_iff in Hab. destruct Hab as (b'' & [= -> _] & _). exact Ha.
Qed.

Section OrderBy.
Context {A : Type} (leb : A -> A -> bool).
Hypothesis leb_total : forall a b, leb a b = true \/ leb b a = true.

Lemma insert_row_sorted (x : A) (l : list A) :
  Sorted (fun a b => leb a b = true) l ->
  Sorted (fun a b => leb a b = true) (insert_row leb x l).
Proof.
  induction l as [|y l IH]; simpl; intros Hs.
  - repeat constructor.
  - destruct (leb x y) eqn:Hxy.
    + constructor; [exact Hs|]. now constructor.
    + inversion Hs as [|? ? Hs' Hhd]; subst.
      constructor; [now apply IH|].
      destruct l as [|z l]; simpl.
      * constructor. destruct (leb_total x y); congruence.
      * destruct (leb x z).
        -- constructor. destruct (leb_total x y); congruence.
        -- inversion Hhd; subst. now constructor.
Qed.

Lemma order_by_sorted (l : list A) :
  Sorted (fun a b => leb a b = true) (order_by leb l).
Proof.
  induction l as [|x l IH]; simpl; [constructor|].
  now apply insert_row_sorted.
Qed.
End OrderBy.

Lemma unique_id_eq {A : Type} (id : A -> Z) (l : list A) (x y : A) :
  List.NoDup (map id l) -> In x l -> In y l -> id x = id y -> x = y.
Proof.
  intros Hnd Hx Hy Hid.
  pose proof (find_unique id l x Hnd Hx) as Hfx.
  pose proof (find_unique id l y Hnd Hy) as Hfy.
  rewrite Hid in Hfx. congruence.
Qed.

Lemma filter_false {A : Type} (l : list A) : List.filter (fun _ => false) l = [].
Proof. induction l; simpl; auto. Qed.

End SqlFacts.

(** ** Facts about the HTTP backend *)

Module WebFacts.
Import Sql Js Web SqlFacts.

Section Routes.
Context `{Platform}.

Lemma authMiddleware_inl (req : Request) (res : Response) :
  authMiddleware req = inl res -> code res = 401.
Proof.
  unfold authMiddleware. intros Hres.
  repeat match type of Hres with
         | context [match ?x with _ => _ end] => destruct x
         end; inversion Hres; reflexivity.
Qed.

Lemma authMiddleware_inr (req req' : Request) :
  authMiddleware req = inr req' -> exists p, req' = with_user req p.
Proof.
  unfold authMiddleware. intros Hres.
  repeat match type of Hres with
         | context [match ?x with _ => _ end] => destruct x
         end; inversion Hres; eauto.
Qed.

Lemma adminOnly_admin (req : Request) (p : Principal) :
  pr_role p = "ADMIN" ->
  adminOnlyMiddleware (with_user req p) = inr (with_user req p).
Proof. intros Hrole. unfold adminOnlyMiddleware. simpl. now rewrite Hrole. Qed.

Lemma adminOnly_other (req : Request) (p : Principal) :
  pr_role p <> "ADMIN" ->
  adminOnlyMiddleware (with_user req p) = inl (respond 403 (JError AdminOnly)).
Proof.
  intros Hrole. unfold adminOnlyMiddleware. simpl.
  apply String.eqb_neq in Hrole. now rewrite Hrole.
Qed.

(** The routes behind [adminOnlyMiddleware] answer 403 to everybody
    else, and leave the store alone. *)
Lemma admin_gate (handler : Request -> M Response) (req : Request)
    (p : Principal) (s : State) :
  authMiddleware req = inr (with_user req p) ->
  pr_role p <> "ADMIN" ->
  chain [authMiddleware; adminOnlyMiddleware] handler req s
  = (Ok (respond 403 (JError AdminOnly)), s).
Proof.
  intros Hauth Hrole. simpl. rewrite Hauth.
  now rewrite (adminOnly_other req p Hrole).
Qed.

(** C8.  A DELETE /users/:id request whose target id is the id of the
    authenticated principal is answered with a 4xx code whatever the
    role of the principal (403 from the admin gate, 400 from the
    handler); the store is left as it was: no user is deleted and no
    store access is made. *)
Theorem self_deletion_rejected (req : Request) (s : State) (p : Principal) :
  authMiddleware req = inr (with_user req p) ->
  parseInt (params_id req) = Some (pr_id p) ->
  400 <= code (fst (serve DELETE_users_id req s)) < 500
  /\ snd (serve DELETE_users_id req s) = s
  /\ users (snd (serve DELETE_users_id req s)) = users s
  /\ trace (snd (serve DELETE_users_id req s)) = trace s.
Proof.
  intros Hauth Hid.
  assert (Hserve : exists c, 400 <= c < 500 /\
             exists m, serve DELETE_users_id req s = (respond c (JError m), s)).
  { unfold serve, app.
    destruct (String.eqb_spec (pr_role p) "ADMIN") as [Hrole|Hrole].
    - exists 400. split; [lia|]. exists CannotDeleteYourself.
      simpl. rewrite Hauth, (adminOnly_admin req p Hrole).
      unfold delete_users_handler, try_catch. simpl.
      rewrite Hid. simpl. now rewrite Z.eqb_refl.
    - exists 403. split; [lia|]. exists AdminOnly.
      now rewrite (admin_gate _ req p s Hauth Hrole). }
  destruct Hserve as (c & Hc & m & ->). simpl. auto.
Qed.

Lemma strict_eq_string_spec (v : option JVal) (lit : string) :
  strict_eq_string v lit = true <-> v = Some (JStr lit).
Proof.
  unfold strict_eq_string.
  destruct v as [[| | |s|]|]; try (split; [discriminate|congruence]).
  rewrite String.eqb_eq. split; congruence.
Qed.

Lemma post_users_handler_created (req : Request) (s s' : State)
    (res : Response) :
  post_users_handler req s = (Ok res, s') ->
  code res = 201 ->
  exists row,
    users s' = (users s ++ [row])%list
    /\ payload res = JUser (view_of_user row)
    /\ u_role row = (if strict_eq_string (body req !! "role") "ADMIN"
                     then "ADMIN" else "MANAGER").
Proof.
  unfold post_users_handler, try_catch.
  destruct (if_truthy (body req !! "username")) as [username|];
    [|intros [= <- <-]; discriminate].
  destruct (if_truthy (body req !! "password")) as [password|];
    [|intros [= <- <-]; discriminate].
  destruct password as [| | |pw|]; simpl;
    try (intros [= <- <-]; discriminate).
  unfold insert_user, with_client, bind, finally, log, ret. simpl.
  destruct (prepareValue username) as [name|]; simpl;
    [|intros [= <- <-]; discriminate].
  match goal with
  | |- context [existsb ?f ?l] => destruct (existsb f l)
  end; simpl; [intros [= <- <-]; discriminate|].
  intros [= <- <-] _. simpl. eexists. repeat split.
Qed.

(** C9.  When POST /users answers 201, the row added to [users] has
    role ADMIN exactly when the body's [role] is the string "ADMIN",
    and MANAGER for every other value, a missing one included; so the
    role of a user created here is ADMIN or MANAGER. *)
Theorem created_user_role (req : Request) (s : State) :
  code (fst (serve POST_users req s)) = 201 ->
  exists row,
    users (snd (serve POST_users req s)) = (users s ++ [row])%list
    /\ payload (fst (serve POST_users req s)) = JUser (view_of_user row)
    /\ (u_role row = "ADMIN" <-> body req !! "role" = Some (JStr "ADMIN"))
    /\ (u_role row = "MANAGER" <-> body req !! "role" <> Some (JStr "ADMIN"))
    /\ (u_role row = "ADMIN" \/ u_role row = "MANAGER").
Proof.
  unfold serve, app. simpl.
  destruct (authMiddleware req) as [res|req'] eqn:Hauth.
  { simpl. intros Hcode. apply authMiddleware_inl in Hauth. lia. }
  destruct (authMiddleware_inr _ _ Hauth) as [p ->].
  destruct (String.eqb_spec (pr_role p) "ADMIN") as [Hrole|Hrole].
  2: { rewrite (adminOnly_other req p Hrole). simpl. discriminate. }
  rewrite (adminOnly_admin req p Hrole).
  destruct (post_users_handler (with_user req p) s) as [[res|e] s'] eqn:Hrun;
    simpl; [|discriminate].
  intros Hcode.
  destruct (post_users_handler_created _ _ _ _ Hrun Hcode)
    as (row & Husers & Hbody & Hrow).
  exists row. simpl in Hrow. rewrite Hrow.
  pose proof (strict_eq_string_spec (body req !! "role") "ADMIN") as Hspec.
  destruct (strict_eq_string (body req !! "role") "ADMIN").
  - assert (Hrole' : body req !! "role" = Some (JStr "ADMIN")) by now apply Hspec.
    repeat split; auto; try discriminate. intros Hne. now destruct Hne.
  - assert (Hrole' : body req !! "role" <> Some (JStr "ADMIN")).
    { intros Heq. apply Hspec in Heq. discriminate. }
    repeat split; auto; try discriminate. intros Heq. now destruct Hrole'.
Qed.

Lemma stats_handler_ok (req : Request) (s : State) :
  exists r,
    stats_handler req s
    = (Ok (respond 200 (JStats r)),
       emit Release (emit (Query SelectAvgTime)
         (emit (Query SelectUsersCount)
           (emit (Query SelectOrdersStats) (emit Connect s)))))
    /\ totalOrders r = Z.of_nat (length (orders s))
    /\ totalUsers r = Z.of_nat (length (users s)).
Proof. eexists. repeat split. Qed.

(** C6, as the code has it.  GET /stats/mv answers 403, without any
    store access, to an authenticated principal whose role is not
    ADMIN, and sends the report to an ADMIN; GET /stats has no role
    check: every authenticated principal receives its report. *)
Theorem stats_reports_access (req : Request) (s : State) (p : Principal) :
  authMiddleware req = inr (with_user req p) ->
  (pr_role p <> "ADMIN" ->
     serve GET_stats_mv req s = (respond 403 (JError AdminOnly), s))
  /\ (pr_role p = "ADMIN" ->
        serve GET_stats_mv req s
        = (respond 200 (JMv (order_stats_mv s)),
           emit Release (emit (Query SelectOrderStatsMv) (emit Connect s))))
  /\ (exists r, fst (serve GET_stats req s) = respond 200 (JStats r)
                /\ totalOrders r = Z.of_nat (length (orders s))).
Proof.
  intros Hauth. split; [|split].
  - intros Hrole. unfold serve, app.
    now rewrite (admin_gate _ req p s Hauth Hrole).
  - intros Hrole. unfold serve, app. simpl.
    now rewrite Hauth, (adminOnly_admin req p Hrole).
  - destruct (stats_handler_ok (with_user req p) s) as (r & Hrun & Htotal & _).
    exists r. split; [|exact Htotal].
    unfold serve, app. simpl. rewrite Hauth, Hrun. reflexivity.
Qed.

Lemma patch_handler_missing (req : Request) (s : State) :
  if_truthy (body req !! "status") = None ->
  patch_order_status_handler req s
  = (Ok (respond 400 (JError StatusRequired)), s).
Proof.
  intros Hst. unfold patch_order_status_handler, try_catch.
  now rewrite Hst.
Qed.

Lemma update_no_match (n : Z) (f : OrderRow -> OrderRow) (l : list OrderRow) :
  List.filter (fun o => ord_id o =? n) l = [] ->
  map (fun o => if ord_id o =? n then f o else o) l = l.
Proof.
  induction l as [|o l IH]; simpl; [reflexivity|].
  destruct (ord_id o =? n); [discriminate|].
  intros Hl. now rewrite IH.
Qed.

Lemma patch_handler_sent (req : Request) (s : State) (v : JVal) :
  if_truthy (body req !! "status") = Some v ->
  trace (snd (patch_order_status_handler req s))
  = (trace s ++ [Connect;
                 Query (UpdateOrderStatus (prepareValue v) (params_id req));
                 Release])%list
  /\ (exists res, fst (patch_order_status_handler req s) = Ok res)
  /\ forall n st,
       int_in (params_id req) = Some n ->
       prepareValue v = Some st ->
       status_admitted st = true ->
       orders (snd (patch_order_status_handler req s))
       = map (fun o => if ord_id o =? n then set_status st (now s) o else o)
             (orders s).
Proof.
  intros Hst. unfold patch_order_status_handler, try_catch.
  rewrite Hst.
  unfold update_order_status, with_client, bind, finally, log, ret. simpl.
  destruct (int_in (params_id req)) as [n|];
    [destruct (prepareValue v) as [st|]|]; simpl.
  - destruct (List.filter (fun o => ord_id o =? n) (orders s)) as [|o l] eqn:Hhit;
      [|destruct (status_admitted st) eqn:Hadm]; simpl;
      rewrite <- !app_assoc; simpl;
      (split; [reflexivity|split; [eauto|]]); intros ? ? [= <-] [= <-] Hok.
    + symmetry. now apply update_no_match.
    + reflexivity.
    + congruence.
  - rewrite <- !app_assoc. simpl. split; [reflexivity|split; [eauto|]]. discriminate.
  - rewrite <- !app_assoc. simpl. split; [reflexivity|split; [eauto|]]. discriminate.
Qed.

Lemma get_orders_handler_shape (req : Request) (s : State) :
  exists res rest,
    get_orders_handler req s
    = (Ok res,
       {| users := users s; orders := orders s;
          order_stats_mv := order_stats_mv s;
          users_id_seq := users_id_seq s; now := now s;
          trace := trace s ++ Connect :: rest |})
    /\ (code res = 200 \/ code res = 500).
Proof.
  unfold get_orders_handler, try_catch, with_client, search_pattern,
    sortDirection, call_trim, call_toLowerCase, select_orders,
    bind, finally, log, ret, throw.
  destruct (query req !! "q") as [[qs|ql|]|]; simpl;
    destruct (query req !! "direction") as [[ds|dl|]|]; simpl;
    destruct (sortField (query req !! "sort")); simpl;
    repeat match goal with
           | |- context [if ?b then _ else _] => destruct b; simpl
           end;
    do 2 eexists; (split; [unfold emit; simpl; rewrite <- ?app_assoc; simpl; reflexivity|auto]).
Qed.

Lemma status_filter_unlisted (status : option QVal) :
  includes allowed_statuses status = false -> status_filter status = None.
Proof.
  intros Hinc. unfold status_filter.
  destruct status as [[st| |]|]; try reflexivity.
  rewrite Hinc. now rewrite andb_false_r.
Qed.

Lemma authMiddleware_without_status (req : Request) :
  authMiddleware (without_status req)
  = match authMiddleware req with
    | inl res => inl res
    | inr req' => inr (without_status req')
    end.
Proof.
  unfold authMiddleware. simpl.
  repeat match goal with
         | |- context [match ?x with _ => _ end] => destruct x; simpl
         end; reflexivity.
Qed.

Lemma get_orders_without_status (req : Request) (s : State) :
  includes allowed_statuses (query req !! "status") = false ->
  get_orders_handler (without_status req) s = get_orders_handler req s.
Proof.
  intros Hinc. unfold get_orders_handler. simpl.
  rewrite (lookup_delete_ne _ "status" "q") by done.
  rewrite (lookup_delete_ne _ "status" "direction") by done.
  rewrite (lookup_delete_ne _ "status" "sort") by done.
  rewrite lookup_delete_eq.
  now rewrite (status_filter_unlisted _ Hinc).
Qed.

Lemma get_orders_handler_ok (req : Request) (s s' : State) (res : Response) :
  get_orders_handler req s = (Ok res, s') ->
  code res = 200 ->
  exists like rows,
    payload res = JOrders rows
    /\ Permutation rows
         (map view_of_order
            (List.filter (orders_where (status_filter (query req !! "status")) like)
                         (orders s))).
Proof.
  unfold get_orders_handler, try_catch, with_client, search_pattern,
    sortDirection, call_trim, call_toLowerCase, select_orders,
    bind, finally, log, ret, throw.
  destruct (query req !! "q") as [[qs|ql|]|]; simpl;
    destruct (query req !! "direction") as [[ds|dl|]|]; simpl;
    destruct (sortField (query req !! "sort")); simpl;
    repeat match goal with
           | |- context [if ?b then _ else _] => destruct b; simpl
           end;
    intros [= <- <-]; simpl; try discriminate; intros _;
    do 2 eexists; (split; [reflexivity|]);
    apply Permutation_map; symmetry; apply order_by_perm.
Qed.
Lemma snd_serve (r : Route) (req : Request) (s : State) :
  snd (serve r req s) = snd (app r req s).
Proof. unfold serve. now destruct (app r req s) as [[res|e] s']. Qed.

Lemma sortField_fallback (sort : option QVal) :
  property_key sort <> "customer_name" ->
  property_key sort <> "status" ->
  ~ In (property_key sort) object_prototype_keys ->
  sortField sort = Column ByCreatedAt.
Proof.
  intros Hname Hstatus Hproto. unfold sortField.
  apply String.eqb_neq in Hname, Hstatus. rewrite Hname, Hstatus.
  destruct (String.eqb (property_key sort) "created_at"); [reflexivity|].
  destruct (existsb _ object_prototype_keys) eqn:Hex; [|reflexivity].
  apply existsb_exists in Hex. destruct Hex as (k & Hk & Heq).
  apply String.eqb_eq in Heq. now subst k.
Qed.

(** C7, as the code has it.  PATCH /orders/:id/status answers 400
    before any store access only when the status is missing or falsy.
    Every other value goes to the store unchecked, as the parameter of
    the UPDATE statement, and the order with the given id takes it as
    its status unless the store itself refuses the value.  GET /orders rejects nothing: it takes a connection
    before it looks at its parameters and answers 200 or 500; a status
    outside its list yields no filter, and a sort field that is neither
    one of its three columns nor a member that its lookup table inherits
    yields the order by created_at. *)
Theorem status_update_validation (req : Request) (s : State) (p : Principal) :
  authMiddleware req = inr (with_user req p) ->
  (if_truthy (body req !! "status") = None ->
     serve PATCH_orders_id_status req s
     = (respond 400 (JError StatusRequired), s))
  /\ (forall v, if_truthy (body req !! "status") = Some v ->
        trace (snd (serve PATCH_orders_id_status req s))
        = (trace s ++ [Connect;
                       Query (UpdateOrderStatus (prepareValue v) (params_id req));
                       Release])%list
        /\ forall n st,
             int_in (params_id req) = Some n ->
             prepareValue v = Some st ->
             status_admitted st = true ->
             orders (snd (serve PATCH_orders_id_status req s))
             = map (fun o => if ord_id o =? n then set_status st (now s) o else o)
                   (orders s))
  /\ (exists rest,
        trace (snd (serve GET_orders req s)) = (trace s ++ Connect :: rest)%list)
  /\ (code (fst (serve GET_orders req s)) = 200
      \/ code (fst (serve GET_orders req s)) = 500)
  /\ (includes allowed_statuses (query req !! "status") = false ->
      status_filter (query req !! "status") = None)
  /\ (property_key (query req !! "sort") <> "customer_name" ->
      property_key (query req !! "sort") <> "status" ->
      ~ In (property_key (query req !! "sort")) object_prototype_keys ->
      sortField (query req !! "sort") = Column ByCreatedAt).
Proof.
  intros Hauth. split; [|split; [|split; [|split; [|split]]]];
    [| | | |apply status_filter_unlisted|apply sortField_fallback].
  - intros Hst. unfold serve, app. simpl. rewrite Hauth.
    now rewrite (patch_handler_missing (with_user req p) s Hst).
  - intros v Hst. rewrite snd_serve. unfold app. simpl. rewrite Hauth.
    destruct (patch_handler_sent (with_user req p) s v Hst) as (Htrace & _ & Hset).
    split; [exact Htrace|exact Hset].
  - rewrite snd_serve. unfold app. simpl. rewrite Hauth.
    destruct (get_orders_handler_shape (with_user req p) s)
      as (res & rest & -> & _).
    now exists rest.
  - unfold serve, app. simpl. rewrite Hauth.
    destruct (get_orders_handler_shape (with_user req p) s)
      as (res & rest & -> & Hcode).
    exact Hcode.
Qed.

(** C10.  A GET /orders request whose [status] parameter is not one of
    NEW, IN_PROGRESS, DONE, CANCELED is answered as the same request
    without that parameter: no rejection and no filter on the status.
    The rows of a 200 answer are the orders that match the search
    pattern alone, whatever their status, and all the orders of the
    store when the request has no other parameter. *)
Theorem unlisted_status_is_dropped (req : Request) (s : State) (p : Principal) :
  authMiddleware req = inr (with_user req p) ->
  includes allowed_statuses (query req !! "status") = false ->
  serve GET_orders req s = serve GET_orders (without_status req) s
  /\ (code (fst (serve GET_orders req s)) = 200 ->
      exists like rows,
        payload (fst (serve GET_orders req s)) = JOrders rows
        /\ Permutation rows
             (map view_of_order
                (List.filter (orders_where None like) (orders s))))
  /\ (query req !! "q" = None ->
      query req !! "sort" = None ->
      query req !! "direction" = None ->
      exists rows,
        fst (serve GET_orders req s) = respond 200 (JOrders rows)
        /\ Permutation rows (map view_of_order (orders s))).
Proof.
  intros Hauth Hinc. split; [|split].
  - unfold serve, app. simpl.
    rewrite authMiddleware_without_status, Hauth.
    now rewrite (get_orders_without_status (with_user req p) s Hinc).
  - unfold serve, app. simpl. rewrite Hauth.
    destruct (get_orders_handler (with_user req p) s) as [[res|e] s'] eqn:Hrun;
      simpl; [|discriminate].
    intros Hcode.
    destruct (get_orders_handler_ok _ _ _ _ Hrun Hcode) as (like & rows & Hbody & Hperm).
    simpl in Hperm. rewrite (status_filter_unlisted _ Hinc) in Hperm.
    now exists like, rows.
  - intros Hq Hsort Hdir. unfold serve, app. simpl. rewrite Hauth.
    unfold get_orders_handler. simpl.
    rewrite Hq, Hsort, Hdir, (status_filter_unlisted _ Hinc).
    change (sortField None) with (Column ByCreatedAt).
    eexists. split; [reflexivity|].
    apply Permutation_map. etransitivity; [symmetry; apply order_by_perm|].
    assert (Hall : forall l, List.filter (orders_where None None) l = l).
    { induction l as [|o l IH]; simpl; [reflexivity|now rewrite IH]. }
    now rewrite Hall.
Qed.

End Routes.

Import Demo.

Lemma self_deletion_rejected_witness :
  authMiddleware self_delete_request = inr (with_user self_delete_request admin)
  /\ parseInt (params_id self_delete_request) = Some (pr_id admin)
  /\ 400 <= code (fst (serve DELETE_users_id self_delete_request store)) < 500
  /\ users (snd (serve DELETE_users_id self_delete_request store)) = users store.
Proof.
  assert (Hauth : authMiddleware self_delete_request
                  = inr (with_user self_delete_request admin)) by reflexivity.
  assert (Hid : parseInt (params_id self_delete_request) = Some (pr_id admin))
    by reflexivity.
  pose proof (self_deletion_rejected self_delete_request store admin Hauth Hid)
    as (Hcode & _ & Husers & _).
  repeat split; try assumption; apply Hcode.
Defined.

Lemma created_user_role_witness :
  code (fst (serve POST_users create_user_request store)) = 201
  /\ exists row,
       users (snd (serve POST_users create_user_request store))
       = (users store ++ [row])%list
       /\ u_role row = "MANAGER".
Proof.
  assert (Hcode : code (fst (serve POST_users create_user_request store)) = 201)
    by reflexivity.
  split; [exact Hcode|].
  destruct (created_user_role create_user_request store Hcode)
    as (row & Husers & _ & _ & Hmanager & _).
  exists row. split; [exact Husers|].
  apply Hmanager. vm_compute. discriminate.
Defined.

(** A manager receives the report of GET /stats. *)
Lemma stats_served_to_manager :
  authMiddleware manager_stats_request
  = inr (with_user manager_stats_request manager)
  /\ pr_role manager <> "ADMIN"
  /\ fst (serve GET_stats manager_stats_request store)
     = respond 200
         (JStats {| totalOrders := 2; statusCounts_NEW := 1;
                    statusCounts_IN_PROGRESS := 0; statusCounts_DONE := 0;
                    statusCounts_CANCELED := 0; totalUsers := 2;
                    avgCompletionHours := None |}).
Proof. repeat split. discriminate. Qed.

Lemma stats_reports_access_witness :
  authMiddleware manager_stats_request
  = inr (with_user manager_stats_request manager)
  /\ serve GET_stats_mv manager_stats_request store
     = (respond 403 (JError AdminOnly), store).
Proof.
  assert (Hauth : authMiddleware manager_stats_request
                  = inr (with_user manager_stats_request manager)) by reflexivity.
  split; [exact Hauth|].
  apply (stats_reports_access manager_stats_request store manager Hauth).
  discriminate.
Defined.

(** On a store that admits it, a status outside every list is written to
    order 2; the UPDATE is sent whatever the store admits. *)
Lemma bogus_status_is_stored :
  existsb (String.eqb "BOGUS") ["NEW"; "PLANNED"; "IN_PROGRESS"; "DONE"; "CANCELED"]
  = false
  /\ code (fst (serve PATCH_orders_id_status bogus_status_request store)) = 200
  /\ trace (snd (serve PATCH_orders_id_status bogus_status_request store))
     = [Connect; Query (UpdateOrderStatus (Some "BOGUS") "2"); Release]
  /\ map ord_status (orders (snd (serve PATCH_orders_id_status bogus_status_request store)))
     = ["NEW"; "BOGUS"].
Proof. repeat split. Qed.

Lemma status_update_validation_witness :
  authMiddleware bogus_status_request
  = inr (with_user bogus_status_request manager)
  /\ trace (snd (serve PATCH_orders_id_status bogus_status_request store))
     = [Connect; Query (UpdateOrderStatus (Some "BOGUS") "2"); Release].
Proof.
  assert (Hauth : authMiddleware bogus_status_request
                  = inr (with_user bogus_status_request manager)) by reflexivity.
  split; [exact Hauth|].
  destruct (status_update_validation bogus_status_request store manager Hauth)
    as (_ & Hsent & _).
  apply (Hsent (JStr "BOGUS")). reflexivity.
Defined.

Lemma unlisted_status_is_dropped_witness :
  authMiddleware planned_orders_request
  = inr (with_user planned_orders_request manager)
  /\ includes allowed_statuses (query planned_orders_request !! "status") = false
  /\ exists rows,
       fst (serve GET_orders planned_orders_request store)
       = respond 200 (JOrders rows)
       /\ Permutation rows (map view_of_order (orders store)).
Proof.
  assert (Hauth : authMiddleware planned_orders_request
                  = inr (with_user planned_orders_request manager)) by reflexivity.
  assert (Hinc : includes allowed_statuses
                   (query planned_orders_request !! "status") = false)
    by reflexivity.
  split; [exact Hauth|]. split; [exact Hinc|].
  destruct (unlisted_status_is_dropped planned_orders_request store manager
              Hauth Hinc) as (_ & _ & Hall).
  apply Hall; reflexivity.
Defined.

End WebFacts.

(** ** Facts about the analytical queries *)

Module AnalyticsFacts.
Import Sql Schema Analytics Routing SqlFacts.

(** *** Q13 *)

Lemma Q13_rows (db : Db) (now : Z) (row : Q13Row) :
  In row (Q13 db now) <->
  exists j, In j (Q13_from db) /\ Q13_where now j = true /\ row = Q13_select now j.
Proof.
  unfold Q13. rewrite order_by_In, in_map_iff. split.
  - intros (j & <- & Hj). apply filter_In in Hj. destruct Hj. eauto.
  - intros (j & Hin & Hwhere & ->). exists j. split; [reflexivity|].
    apply filter_In. auto.
Qed.

Lemma epoch_hours_mono (t now1 now2 : Z) :
  t < now1 -> now1 <= now2 ->
  (0 <= epoch_between now1 t / 3600)%Q
  /\ (epoch_between now1 t / 3600 <= epoch_between now2 t / 3600)%Q.
Proof.
  intros Hlt Hle. unfold epoch_between, Qdiv.
  assert (Hpos : forall c : Z, 0 < c -> (0 <= / inject_Z c)%Q).
  { intros c Hc. apply Qlt_le_weak, Qinv_lt_0_compat.
    change 0%Q with (inject_Z 0). now rewrite <- Zlt_Qlt. }
  split.
  - apply Qmult_le_0_compat; [apply Qmult_le_0_compat|].
    + change 0%Q with (inject_Z 0). rewrite <- Zle_Qle. lia.
    + apply Hpos. lia.
    + apply (Hpos 3600). lia.
  - apply Qmult_le_compat_r; [apply Qmult_le_compat_r|].
    + rewrite <- Zle_Qle. lia.
    + apply Hpos. lia.
    + apply (Hpos 3600). lia.
Qed.

Lemma Q13_where_overdue (now : Z) (j : Q13Joined) :
  Q13_where now j = true ->
  exists t, rs_planned_finish (fst (fst (fst (fst (fst j))))) = Some t
            /\ t < now
            /\ rs_status (fst (fst (fst (fst (fst j))))) <> "DONE".
Proof.
  destruct j as [[[[[rs oi] o] p] op] w]. simpl.
  destruct (rs_planned_finish rs) as [t|]; [|discriminate].
  intros Hw. apply andb_true_iff in Hw. destruct Hw as [Hlt Hst].
  exists t. repeat split.
  - now apply Z.ltb_lt.
  - apply negb_true_iff in Hst. now apply String.eqb_neq.
Qed.

Lemma Q13_select_hours (now : Z) (j : Q13Joined) :
  q13_hours_overdue (Q13_select now j)
  = hours_overdue now (rs_planned_finish (fst (fst (fst (fst (fst j)))))).
Proof. now destruct j as [[[[[rs oi] o] p] op] w]. Qed.

(** C3.  Every row that Q13 reports comes from a step whose
    planned_finish is set and lies strictly before the instant of
    evaluation and whose status is not DONE, and its hours_overdue is
    not negative.  Such a step is still reported at any later instant,
    and its hours_overdue there is not smaller. *)
Theorem Q13_hours_overdue_nonneg_monotone (db : Db) (now1 now2 : Z) :
  now1 <= now2 ->
  (forall row, In row (Q13 db now1) ->
     exists h, q13_hours_overdue row = Some h /\ (0 <= h)%Q)
  /\ (forall j, In j (Q13_from db) -> Q13_where now1 j = true ->
        In (Q13_select now1 j) (Q13 db now1)
        /\ In (Q13_select now2 j) (Q13 db now2)
        /\ exists h1 h2,
             q13_hours_overdue (Q13_select now1 j) = Some h1
             /\ q13_hours_overdue (Q13_select now2 j) = Some h2
             /\ (0 <= h1)%Q /\ (h1 <= h2)%Q).
Proof.
  intros Hle. split.
  - intros row Hrow. apply Q13_rows in Hrow.
    destruct Hrow as (j & _ & Hwhere & ->).
    destruct (Q13_where_overdue _ _ Hwhere) as (t & Ht & Hlt & _).
    rewrite Q13_select_hours, Ht. simpl. eexists. split; [reflexivity|].
    apply round_nonneg. apply (epoch_hours_mono t now1 now1); lia.
  - intros j Hin Hwhere.
    destruct (Q13_where_overdue _ _ Hwhere) as (t & Ht & Hlt & Hst).
    assert (Hwhere2 : Q13_where now2 j = true).
    { destruct j as [[[[[rs oi] o] p] op] w]. simpl in *.
      rewrite Ht in *. apply andb_true_iff in Hwhere.
      destruct Hwhere as [_ Hnd]. rewrite Hnd, andb_true_r.
      apply Z.ltb_lt. lia. }
    split; [apply Q13_rows; eauto|]. split; [apply Q13_rows; eauto|].
    rewrite !Q13_select_hours, Ht. simpl.
    destruct (epoch_hours_mono t now1 now2 Hlt Hle) as [H0 Hmono].
    do 2 eexists. repeat split.
    + now apply round_nonneg.
    + now apply round_mono.
Qed.

(** *** Q15 *)

Lemma well_formed_keys (db : Db) :
  well_formed db = true ->
  List.NoDup (map o_id (orders db))
  /\ List.NoDup (map oi_id (order_items db))
  /\ List.NoDup (map op_id (operations db))
  /\ List.NoDup (map w_id (workshops db))
  /\ forall rs, In rs (route_steps db) -> exists op, operation_of db rs = Some op.
Proof.
  unfold well_formed. rewrite !andb_true_iff.
  intros [[[[Ho Hoi] Hop] Hw] Hfk].
  repeat split; try now apply unique_ids_NoDup.
  intros rs Hrs. rewrite forallb_forall in Hfk.
  apply existsb_find. now apply Hfk.
Qed.

(** The rows that a step contributes to a join over the items of one
    order, counted through the unique item it belongs to. *)
Lemma sumZ_steps_of_order (db : Db) (oid : Z) (T : RouteStep -> Z) :
  List.NoDup (map oi_id (order_items db)) ->
  sumZ (fun oi => if oi_order_id oi =? oid
                  then sumZ (fun rs => if rs_order_item_id rs =? oi_id oi
                                       then T rs else 0) (route_steps db)
                  else 0) (order_items db)
  = sumZ T (steps_of_order db oid).
Proof.
  intros Hkoi. unfold steps_of_order. rewrite sumZ_filter.
  rewrite (sumZ_ext _
    (fun oi => sumZ (fun rs => if oi_id oi =? rs_order_item_id rs
                               then (if oi_order_id oi =? oid then T rs else 0)
                               else 0) (route_steps db))).
  2: { intros oi _. destruct (oi_order_id oi =? oid).
       - apply sumZ_ext. intros rs _. now rewrite Z.eqb_sym.
       - symmetry. sum_zero. }
  rewrite sumZ_swap. apply sumZ_ext. intros rs _.
  rewrite (sumZ_unique oi_id (rs_order_item_id rs)) by exact Hkoi.
  unfold step_of_order.
  rewrite (existsb_unique oi_id (rs_order_item_id rs)) by exact Hkoi.
  now destruct (List.find _ _).
Qed.

Lemma Q15_group_sum (db : Db) (o : Order) (F : RouteStep -> Operation -> Z) :
  well_formed db = true -> In o (orders db) ->
  sumZ (fun j : Q15Joined => let '(_, _, rs, op) := j in F rs op)
       (List.filter (fun j => Q15_key j =? o_id o)
                    (List.filter Q15_where (Q15_from db)))
  = if in_flight o
    then sumZ (fun rs => match operation_of db rs with
                         | Some op => F rs op
                         | None => 0
                         end)
              (steps_of_order db (o_id o))
    else 0.
Proof.
  intros Hwf Ho.
  destruct (well_formed_keys db Hwf) as (Hko & Hkoi & Hkop & _ & _).
  rewrite !sumZ_filter. unfold Q15_from, Q15Joined. rewrite !sumZ_inner_join.
  rewrite (sumZ_ext _
    (fun o' => if o_id o' =? o_id o
               then (if in_flight o'
                     then sumZ (fun oi => if oi_order_id oi =? o_id o' then
                            sumZ (fun rs => if rs_order_item_id rs =? oi_id oi then
                               match operation_of db rs with
                               | Some op => F rs op
                               | None => 0
                               end else 0) (route_steps db) else 0) (order_items db)
                     else 0)
               else 0)).
  2: { intros o' _. simpl.
       destruct (o_id o' =? o_id o), (in_flight o') eqn:Hfl; simpl;
         try rewrite Hfl; try (now sum_zero).
       apply sumZ_ext. intros oi _.
       destruct (oi_order_id oi =? o_id o'); [|reflexivity].
       apply sumZ_ext. intros rs _.
       destruct (rs_order_item_id rs =? oi_id oi); [|reflexivity].
       now rewrite (sumZ_unique op_id (rs_operation_id rs)) by exact Hkop. }
  rewrite (sumZ_unique o_id (o_id o)) by exact Hko.
  rewrite (find_unique o_id _ o Hko Ho).
  destruct (in_flight o); [|reflexivity].
  now apply sumZ_steps_of_order.
Qed.

Lemma cost_is_valuation (m : Z) :
  exists c, cost_of (Some m) = Some c
            /\ (c == valuation m rate_rub_per_hour)%Q.
Proof.
  eexists. split; [reflexivity|].
  apply (round_whole _ (25 * m)).
  rewrite inject_Z_mult. unfold inject_Z. simpl. field.
Qed.

Lemma Q15_rows (db : Db) (row : Q15Row) :
  In row (Q15 db) <->
  exists oid,
    Q15_group db oid <> []
    /\ row = Q15_select
               (oid, sum_filter (fun '(_, _, rs, op) => minutes_of rs op)
                                (fun '(_, _, rs, _) => not_done rs)
                                (Q15_group db oid)).
Proof.
  unfold Q15, Q15_remaining. rewrite order_by_In, in_map_iff. split.
  - intros (r & <- & Hr). apply in_map_iff in Hr.
    destruct Hr as ([k g] & <- & Hg).
    apply (group_by_In Z.eqb Q15_key Z.eqb_eq) in Hg. destruct Hg as [Hne ->].
    exists k. split; [exact Hne|reflexivity].
  - intros (oid & Hne & ->). eexists. split; [reflexivity|].
    apply in_map_iff. exists (oid, Q15_group db oid). split; [reflexivity|].
    apply (group_by_In Z.eqb Q15_key Z.eqb_eq). split; [exact Hne|reflexivity].
Qed.

Lemma nonempty_sumZ {A : Type} (l : list A) :
  l <> [] <-> sumZ (fun _ => 1) l <> 0.
Proof.
  rewrite <- length_sumZ. destruct l; simpl; [tauto|].
  split; [lia|discriminate].
Qed.

Lemma Q15_group_nonempty (db : Db) (o : Order) :
  well_formed db = true -> In o (orders db) -> in_flight o = true ->
  Q15_group db (o_id o) <> [] <-> steps_of_order db (o_id o) <> [].
Proof.
  intros Hwf Ho Hfl.
  destruct (well_formed_keys db Hwf) as (_ & _ & _ & _ & Hfk).
  rewrite !nonempty_sumZ. unfold Q15_group.
  rewrite (sumZ_ext _ (fun j : Q15Joined => let '(_, _, rs, op) := j in 1))
    by (now intros [[[? ?] ?] ?] _).
  rewrite (Q15_group_sum db o (fun _ _ => 1) Hwf Ho), Hfl.
  rewrite (sumZ_ext _ (fun _ => 1)); [reflexivity|].
  intros rs Hrs. apply filter_In in Hrs. destruct Hrs as [Hrs _].
  destruct (Hfk rs Hrs) as [op ->]. reflexivity.
Qed.

Lemma minutes_of_planned_duration (db : Db) (rs : RouteStep) (op : Operation) :
  operation_of db rs = Some op -> minutes_of rs op = planned_duration db rs.
Proof.
  intros Hop. unfold minutes_of, planned_duration, coalesce3. now rewrite Hop.
Qed.

Lemma Q15_group_minutes (db : Db) (o : Order) :
  well_formed db = true -> In o (orders db) -> in_flight o = true ->
  sum_filter (fun '(_, _, rs, op) => minutes_of rs op)
             (fun '(_, _, rs, _) => not_done rs)
             (Q15_group db (o_id o))
  = match pending_steps db (o_id o) with
    | [] => None
    | _ => Some (remaining_minutes db (o_id o))
    end.
Proof.
  intros Hwf Ho Hfl.
  destruct (well_formed_keys db Hwf) as (_ & _ & _ & _ & Hfk).
  unfold sum_filter.
  assert (Hcount :
    List.filter (fun '(_, _, rs, _) => not_done rs) (Q15_group db (o_id o)) = []
    <-> pending_steps db (o_id o) = []).
  { unfold pending_steps. rewrite !filter_nil_sumZ. unfold Q15_group.
    rewrite (sumZ_ext _ (fun j : Q15Joined =>
               let '(_, _, rs, op) := j in if not_done rs then 1 else 0))
      by (now intros [[[? ?] ?] ?] _).
    rewrite (Q15_group_sum db o (fun rs _ => if not_done rs then 1 else 0) Hwf Ho), Hfl.
    rewrite (sumZ_ext _ (fun rs => if negb (is_done rs) then 1 else 0)); [reflexivity|].
    intros rs Hrs. apply filter_In in Hrs. destruct Hrs as [Hrs _].
    destruct (Hfk rs Hrs) as [op ->]. reflexivity. }
  assert (Hsum :
    sumZ (fun '(_, _, rs, op) => minutes_of rs op)
         (List.filter (fun '(_, _, rs, _) => not_done rs) (Q15_group db (o_id o)))
    = remaining_minutes db (o_id o)).
  { rewrite sumZ_filter. unfold Q15_group.
    rewrite (sumZ_ext _ (fun j : Q15Joined =>
               let '(_, _, rs, op) := j in
               if not_done rs then minutes_of rs op else 0))
      by (now intros [[[? ?] ?] ?] _).
    rewrite (Q15_group_sum db o (fun rs op => if not_done rs then minutes_of rs op else 0)
               Hwf Ho), Hfl.
    unfold remaining_minutes, pending_steps. rewrite sumZ_filter.
    apply sumZ_ext. intros rs Hrs. apply filter_In in Hrs. destruct Hrs as [Hrs _].
    destruct (Hfk rs Hrs) as [op Hop]. rewrite Hop.
    rewrite (minutes_of_planned_duration db rs op Hop). reflexivity. }
  rewrite <- Hsum.
  match goal with
  | |- context [List.filter ?p (Q15_group db (o_id o))] =>
      destruct (List.filter p (Q15_group db (o_id o))) as [|j js] eqn:Hf
  end.
  - now rewrite (proj1 Hcount eq_refl).
  - destruct (pending_steps db (o_id o)) as [|rs l] eqn:Hp; [|reflexivity].
    destruct Hcount as [_ Hc]. discriminate (Hc eq_refl).
Qed.

(** C2, as the code has it.  For an order whose status is PLANNED or
    IN_PROGRESS, Q15 has a row exactly when the order has a route step.
    When some step of the order is not DONE, remaining_minutes is the
    sum over those steps of planned_minutes if present, else the
    default_minutes of the operation, else zero, and the valuation is
    (remaining_minutes / 60) times the rate, the constant 1500.  When
    every step is DONE, remaining_minutes and the valuation are NULL. *)
Theorem Q15_remaining_and_valuation (db : Db) (o : Order) :
  well_formed db = true ->
  In o (orders db) ->
  o_status o = "PLANNED" \/ o_status o = "IN_PROGRESS" ->
  ((exists row, In row (Q15 db) /\ q15_order_id row = o_id o)
   <-> steps_of_order db (o_id o) <> [])
  /\ forall row, In row (Q15 db) -> q15_order_id row = o_id o ->
       q15_rate_rub_per_hour row = 1500
       /\ (pending_steps db (o_id o) <> [] ->
             q15_remaining_minutes row = Some (remaining_minutes db (o_id o))
             /\ exists c,
                  q15_nzp_cost_rub row = Some c
                  /\ (c == valuation (remaining_minutes db (o_id o)) 1500)%Q)
       /\ (pending_steps db (o_id o) = [] ->
             q15_remaining_minutes row = None
             /\ q15_nzp_cost_rub row = None).
Proof.
  intros Hwf Ho Hst.
  assert (Hfl : in_flight o = true).
  { unfold in_flight. destruct Hst as [-> | ->]; reflexivity. }
  pose proof (Q15_group_nonempty db o Hwf Ho Hfl) as Hgroup.
  pose proof (Q15_group_minutes db o Hwf Ho Hfl) as Hminutes.
  split.
  - rewrite <- Hgroup. split.
    + intros (row & Hrow & Hid). apply Q15_rows in Hrow.
      destruct Hrow as (oid & Hne & ->). simpl in Hid. now subst oid.
    + intros Hne. eexists. split.
      * apply Q15_rows. exists (o_id o). split; [exact Hne|reflexivity].
      * reflexivity.
  - intros row Hrow Hid. apply Q15_rows in Hrow.
    destruct Hrow as (oid & Hne & ->). simpl in Hid. subst oid.
    unfold Q15_select. simpl. rewrite Hminutes.
    split; [reflexivity|]. split.
    + intros Hpending.
      destruct (pending_steps db (o_id o)); [contradiction|].
      split; [reflexivity|apply cost_is_valuation].
    + intros ->. split; reflexivity.
Qed.

(** Q15 has rows for orders that are PLANNED or IN_PROGRESS only. *)
Lemma Q15_reports_in_flight_orders_only (db : Db) (row : Q15Row) :
  In row (Q15 db) ->
  exists o, In o (orders db) /\ o_id o = q15_order_id row
            /\ (o_status o = "PLANNED" \/ o_status o = "IN_PROGRESS").
Proof.
  intros Hrow. apply Q15_rows in Hrow. destruct Hrow as (oid & Hne & ->).
  destruct (Q15_group db oid) as [|[[[o oi] rs] op] g] eqn:Hg; [contradiction|].
  assert (Hj : In (o, oi, rs, op) (Q15_group db oid)) by (rewrite Hg; now left).
  unfold Q15_group in Hj. apply filter_In in Hj. destruct Hj as [Hj Hkey].
  apply filter_In in Hj. destruct Hj as [Hfrom Hwhere]. simpl in Hwhere, Hkey.
  unfold Q15_from in Hfrom.
  apply in_inner_join in Hfrom. destruct Hfrom as [Hfrom _].
  apply in_inner_join in Hfrom. destruct Hfrom as [Hfrom _].
  apply in_inner_join in Hfrom. destruct Hfrom as [Ho _].
  exists o. split; [exact Ho|]. split; [now apply Z.eqb_eq|].
  unfold in_flight in Hwhere. apply orb_true_iff in Hwhere.
  destruct Hwhere as [H|H]; apply String.eqb_eq in H; auto.
Qed.

(** *** Q16 *)

Lemma Q16_group_sum (db : Db) (k : option string) (F : RouteStep -> Operation -> Z) :
  well_formed db = true ->
  sumZ (fun j : Q16Joined => let '(rs, op, _) := j in F rs op) (Q16_group db k)
  = sumZ (fun rs => if eqb_option_string (workshop_of db rs) k
                    then match operation_of db rs with
                         | Some op => F rs op
                         | None => 0
                         end
                    else 0) (route_steps db).
Proof.
  intros Hwf.
  destruct (well_formed_keys db Hwf) as (_ & _ & Hkop & Hkw & _).
  unfold Q16_group. rewrite sumZ_filter. unfold Q16_from, Q16Joined.
  rewrite sumZ_left_join, sumZ_inner_join.
  apply sumZ_ext. intros rs _.
  rewrite (sumZ_ext _
    (fun op => if op_id op =? rs_operation_id rs
               then (if eqb_option_string (workshop_of db rs) k then F rs op else 0)
               else 0)).
  2: { intros op _. destruct (op_id op =? rs_operation_id rs); [|reflexivity].
       simpl. unfold workshop_of, eq_nullable.
       destruct (rs_workshop_id rs) as [wid|]; simpl.
       - rewrite (filter_unique w_id wid) by exact Hkw.
         destruct (List.find _ _); simpl; [|reflexivity].
         now rewrite Z.add_0_r.
       - assert (Hnone : forall l : list Workshop, List.filter (fun _ => false) l = []).
         { induction l; simpl; auto. }
         now rewrite Hnone. }
  rewrite (sumZ_unique op_id (rs_operation_id rs)) by exact Hkop.
  unfold operation_of.
  destruct (List.find _ (operations db)); [reflexivity|].
  now destruct (eqb_option_string _ _).
Qed.

Lemma Q16_rows (db : Db) (row : Q16Row) :
  In row (Q16 db) <->
  exists k m,
    Q16_group db k <> []
    /\ sum_filter (fun '(rs, op, _) => minutes_of rs op)
                  (fun '(rs, _, _) => not_done rs) (Q16_group db k) = Some m
    /\ 0 < m
    /\ row = Q16_select (k, Some m).
Proof.
  unfold Q16, Q16_wip. rewrite order_by_In, in_map_iff. split.
  - intros (r & <- & Hr). apply filter_In in Hr. destruct Hr as [Hr Hwhere].
    apply in_map_iff in Hr. destruct Hr as ([k g] & <- & Hg).
    apply (group_by_In eqb_option_string Q16_key eqb_option_string_eq) in Hg.
    destruct Hg as [Hne ->]. unfold Q16_where in Hwhere. simpl in Hwhere.
    fold (Q16_group db k) in *.
    match type of Hwhere with
    | match ?agg with _ => _ end = true => destruct agg as [m|] eqn:Hm
    end; [|discriminate].
    exists k, m. repeat split; auto. now apply Z.ltb_lt.
  - intros (k & m & Hne & Hm & Hpos & ->). exists (k, Some m). split; [reflexivity|].
    apply filter_In. split.
    + apply in_map_iff. exists (k, Q16_group db k). split.
      * now rewrite Hm.
      * apply (group_by_In eqb_option_string Q16_key eqb_option_string_eq).
        split; [exact Hne|reflexivity].
    + unfold Q16_where. simpl. now apply Z.ltb_lt.
Qed.

Lemma Q16_group_minutes (db : Db) (k : option string) :
  well_formed db = true ->
  sum_filter (fun '(rs, op, _) => minutes_of rs op)
             (fun '(rs, _, _) => not_done rs) (Q16_group db k)
  = match pending_in_workshop db k with
    | [] => None
    | _ => Some (workshop_minutes db k)
    end.
Proof.
  intros Hwf.
  destruct (well_formed_keys db Hwf) as (_ & _ & _ & _ & Hfk).
  unfold sum_filter.
  assert (Hcount :
    List.filter (fun '(rs, _, _) => not_done rs) (Q16_group db k) = []
    <-> pending_in_workshop db k = []).
  { unfold pending_in_workshop. rewrite !filter_nil_sumZ.
    rewrite (sumZ_ext _ (fun j : Q16Joined =>
               let '(rs, op, _) := j in if not_done rs then 1 else 0))
      by (now intros [[? ?] ?] _).
    rewrite (Q16_group_sum db k (fun rs _ => if not_done rs then 1 else 0) Hwf).
    rewrite (sumZ_ext _
      (fun rs => if negb (is_done rs) && eqb_option_string (workshop_of db rs) k
                 then 1 else 0)); [reflexivity|].
    intros rs Hrs. destruct (Hfk rs Hrs) as [op ->].
    unfold not_done, is_done.
    now destruct (eqb_option_string _ _), (String.eqb _ _). }
  assert (Hsum :
    sumZ (fun '(rs, op, _) => minutes_of rs op)
         (List.filter (fun '(rs, _, _) => not_done rs) (Q16_group db k))
    = workshop_minutes db k).
  { rewrite sumZ_filter.
    rewrite (sumZ_ext _ (fun j : Q16Joined =>
               let '(rs, op, _) := j in
               if not_done rs then minutes_of rs op else 0))
      by (now intros [[? ?] ?] _).
    rewrite (Q16_group_sum db k
               (fun rs op => if not_done rs then minutes_of rs op else 0) Hwf).
    unfold workshop_minutes, pending_in_workshop. rewrite sumZ_filter.
    apply sumZ_ext. intros rs Hrs. destruct (Hfk rs Hrs) as [op Hop]. rewrite Hop.
    rewrite (minutes_of_planned_duration db rs op Hop).
    unfold not_done, is_done.
    now destruct (eqb_option_string _ _), (String.eqb _ _). }
  rewrite <- Hsum.
  match goal with
  | |- context [List.filter ?p (Q16_group db k)] =>
      destruct (List.filter p (Q16_group db k)) as [|j js] eqn:Hf
  end.
  - now rewrite (proj1 Hcount eq_refl).
  - destruct (pending_in_workshop db k) as [|rs l] eqn:Hp; [|reflexivity].
    destruct Hcount as [_ Hc]. discriminate (Hc eq_refl).
Qed.

(** C4, as the code has it.  Q16 sums, per workshop name, planned_minutes
    if present, else the default_minutes of the operation, else zero,
    over all the route steps that are not DONE, whatever the status of
    their order, and reports the workshops for which the sum is
    positive, with the valuation of that sum at the rate 1500.  A step
    without a workshop counts in the bucket whose name is NULL. *)
Theorem Q16_per_workshop (db : Db) (k : option string) :
  well_formed db = true ->
  ((exists row, In row (Q16 db) /\ q16_workshop row = k)
   <-> 0 < workshop_minutes db k)
  /\ (forall row, In row (Q16 db) -> q16_workshop row = k ->
        q16_wip_minutes row = Some (workshop_minutes db k)
        /\ q16_rate_rub_per_hour row = 1500
        /\ exists c,
             q16_wip_cost_rub row = Some c
             /\ (c == valuation (workshop_minutes db k) 1500)%Q)
  /\ (forall rs, In rs (route_steps db) ->
        rs_status rs <> "DONE" -> rs_workshop_id rs = None ->
        In rs (pending_in_workshop db None)).
Proof.
  intros Hwf. pose proof (Q16_group_minutes db k Hwf) as Hminutes.
  split; [|split].
  - split.
    + intros (row & Hrow & Hk). apply Q16_rows in Hrow.
      destruct Hrow as (k' & m & _ & Hm & Hpos & ->). simpl in Hk. subst k'.
      rewrite Hminutes in Hm.
      destruct (pending_in_workshop db k); [discriminate|].
      injection Hm as <-. exact Hpos.
    + intros Hpos.
      assert (Hm : sum_filter (fun '(rs, op, _) => minutes_of rs op)
                     (fun '(rs, _, _) => not_done rs) (Q16_group db k)
                   = Some (workshop_minutes db k)).
      { rewrite Hminutes. unfold workshop_minutes in *.
        destruct (pending_in_workshop db k); [simpl in Hpos; lia|reflexivity]. }
      eexists. split.
      * apply Q16_rows. exists k, (workshop_minutes db k).
        repeat split; eauto using sum_filter_group_nonempty.
      * reflexivity.
  - intros row Hrow Hk. apply Q16_rows in Hrow.
    destruct Hrow as (k' & m & _ & Hm & Hpos & ->). simpl in Hk. subst k'.
    rewrite Hminutes in Hm.
    destruct (pending_in_workshop db k); [discriminate|].
    injection Hm as <-. unfold Q16_select. simpl.
    split; [reflexivity|]. split; [reflexivity|]. apply cost_is_valuation.
  - intros rs Hrs Hst Hw. unfold pending_in_workshop. apply filter_In.
    split; [exact Hrs|]. unfold is_done, workshop_of. rewrite Hw. simpl.
    apply String.eqb_neq in Hst. now rewrite Hst.
Qed.

(** *** Q5 *)

Lemma Q5_rows (db : Db) (row : Q5Row) :
  In row (Q5 db) <->
  In row (Q5_steps db)
  /\ (q5_status row = "IN_PROGRESS" \/ q5_status row = "PLANNED").
Proof.
  unfold Q5. rewrite order_by_In, filter_In. unfold Q5_where.
  rewrite orb_true_iff, !String.eqb_eq. tauto.
Qed.

(** C1.  Q5 returns every step of the CTE whose status is IN_PROGRESS or
    PLANNED and nothing else: no DONE step, and no row for an item
    without such a step, but as many rows for an item as it has such
    steps.  On the scenario of the specification (order 1 IN_PROGRESS,
    one item with the steps 1: DONE, 2: IN_PROGRESS, 3: PLANNED) these
    are two rows: the IN_PROGRESS step 2 and, after it, the PLANNED
    step 3. *)
Theorem Q5_lists_every_pending_step :
  (forall db row,
     In row (Q5 db) <->
     In row (Q5_steps db)
     /\ (q5_status row = "IN_PROGRESS" \/ q5_status row = "PLANNED"))
  /\ Q5 Demo.underway_db
     = [ {| q5_order_id := 1; q5_product := "bracket"; q5_route_step_id := 2;
            q5_step_no := 2; q5_operation := "milling"; q5_workshop := Some "A";
            q5_status := "IN_PROGRESS" |};
         {| q5_order_id := 1; q5_product := "bracket"; q5_route_step_id := 3;
            q5_step_no := 3; q5_operation := "milling"; q5_workshop := None;
            q5_status := "PLANNED" |} ].
Proof. split; [exact Q5_rows|reflexivity]. Qed.

(** *** Q8 *)

Lemma Q8_total_logs_positive (db : Db) (row : Q8Row) :
  In row (Q8 db) -> 1 <= q8_total_logs row.
Proof.
  unfold Q8. rewrite order_by_In, in_map_iff.
  intros ([k g] & <- & Hg).
  apply group_by_In in Hg.
  - destruct Hg as [Hne ->]. destruct k as [[i n] w]. simpl.
    unfold count_star.
    match goal with
    | |- 1 <= Z.of_nat (length ?l) => destruct l; [contradiction|simpl; lia]
    end.
  - intros [[i n] w] [[i' n'] w']. unfold Q8_key_eqb.
    rewrite !andb_true_iff, Z.eqb_eq, String.eqb_eq, eqb_option_string_eq.
    split; [intros [[-> ->] ->]; reflexivity|intros [= -> -> ->]; auto].
Qed.

Lemma Q8_compare_total (a b : Q8Row) :
  not_after (Q8_compare a b) = true \/ not_after (Q8_compare b a) = true.
Proof.
  unfold Q8_compare, lex.
  rewrite (Z.compare_antisym (q8_active_ops b) (q8_active_ops a)).
  rewrite (String.compare_antisym (q8_equipment a) (q8_equipment b)).
  destruct (q8_active_ops b ?= q8_active_ops a),
           (String.compare (q8_equipment b) (q8_equipment a)); simpl; auto.
Qed.

Lemma Q8_key_eqb_eq (a b : Z * string * option string) :
  Q8_key_eqb a b = true <-> a = b.
Proof.
  destruct a as [[i n] w], b as [[i' n'] w']. unfold Q8_key_eqb.
  rewrite !andb_true_iff, Z.eqb_eq, String.eqb_eq, eqb_option_string_eq.
  split; [intros [[-> ->] ->]; reflexivity|intros [= -> -> ->]; auto].
Qed.

Lemma Q8_group_sum (db : Db) (e : Equipment) (F : option OperationLog -> Z) :
  List.NoDup (map e_id (equipment db)) ->
  List.NoDup (map w_id (workshops db)) ->
  In e (equipment db) ->
  sumZ (fun j : Q8Joined => let '(_, _, ol) := j in F ol)
       (Q8_group db (equipment_key db e))
  = match logs_of db (e_id e) with
    | [] => F None
    | ms => sumZ (fun ol => F (Some ol)) ms
    end.
Proof.
  intros Hke Hkw He. unfold Q8_group. rewrite sumZ_filter.
  unfold Q8_from, Q8Joined. rewrite !sumZ_left_join.
  rewrite (sumZ_ext _
    (fun e' => if e_id e' =? e_id e
               then match logs_of db (e_id e') with
                    | [] => F None
                    | ms => sumZ (fun ol => F (Some ol)) ms
                    end
               else 0)).
  2: { intros e' He'.
       assert (Hrow : forall w' : option Workshop,
                 option_map w_name w' = option_map w_name (workshop_of_equipment db e') ->
                 match List.filter (fun ol => eq_nullable (e_id e') (ol_equipment_id ol))
                                   (operation_logs db) with
                 | [] => if Q8_key_eqb (Q8_key (e', w', None)) (equipment_key db e)
                         then F None else 0
                 | ms => sumZ (fun ol => if Q8_key_eqb (Q8_key (e', w', Some ol)) (equipment_key db e)
                                         then F (Some ol) else 0) ms
                 end
                 = if e_id e' =? e_id e
                   then match logs_of db (e_id e') with
                        | [] => F None
                        | ms => sumZ (fun ol => F (Some ol)) ms
                        end
                   else 0).
       { intros w' Hw'. unfold logs_of. simpl. unfold equipment_key. rewrite Hw'.
         destruct (Z.eqb_spec (e_id e') (e_id e)) as [Hid|Hid].
         - rewrite (unique_id_eq e_id _ e' e Hke He' He Hid).
           rewrite String.eqb_refl, (proj2 (eqb_option_string_eq _ _) eq_refl).
           simpl. destruct (List.filter _ _); reflexivity.
         - simpl. destruct (List.filter _ _); simpl; [reflexivity|apply sumZ_zero]. }
       unfold eq_nullable at 1. unfold workshop_of_equipment in Hrow.
       destruct (e_workshop_id e') as [wid|].
       - rewrite (filter_unique w_id wid) by exact Hkw.
         destruct (List.find _ (workshops db)) as [w|]; simpl.
         + rewrite Z.add_0_r. now apply (Hrow (Some w)).
         + now apply (Hrow None).
       - rewrite filter_false. now apply (Hrow None). }
  rewrite (sumZ_unique e_id (e_id e)) by exact Hke.
  now rewrite (find_unique e_id _ e Hke He).
Qed.

Lemma Q8_rows (db : Db) (row : Q8Row) :
  In row (Q8 db) <->
  exists k, Q8_group db k <> [] /\ row = Q8_select (k, Q8_group db k).
Proof.
  unfold Q8. rewrite order_by_In, in_map_iff. split.
  - intros ([k g] & <- & Hg).
    apply (group_by_In Q8_key_eqb Q8_key Q8_key_eqb_eq) in Hg.
    destruct Hg as [Hne ->]. now exists k.
  - intros (k & Hne & ->). exists (k, Q8_group db k). split; [reflexivity|].
    now apply (group_by_In Q8_key_eqb Q8_key Q8_key_eqb_eq).
Qed.

(** What Q8 reports for an equipment unit: the number of its IN_PROGRESS
    logs, and the number of its logs or 1 when it has none. *)
Lemma Q8_row_of_equipment (db : Db) (e : Equipment) :
  List.NoDup (map e_id (equipment db)) ->
  List.NoDup (map w_id (workshops db)) ->
  In e (equipment db) ->
  exists row,
    In row (Q8 db)
    /\ (q8_id row, q8_equipment row, q8_workshop row) = equipment_key db e
    /\ q8_active_ops row = Z.of_nat (length (active_logs_of db (e_id e)))
    /\ q8_total_logs row = Z.max 1 (Z.of_nat (length (logs_of db (e_id e)))).
Proof.
  intros Hke Hkw He.
  assert (Htotal : count_star (Q8_group db (equipment_key db e))
                   = Z.max 1 (Z.of_nat (length (logs_of db (e_id e))))).
  { unfold count_star. rewrite length_sumZ.
    rewrite (sumZ_ext _ (fun j : Q8Joined => let '(_, _, ol) := j in 1))
      by (now intros [[? ?] ?] _).
    rewrite (Q8_group_sum db e (fun _ => 1) Hke Hkw He).
    destruct (logs_of db (e_id e)) as [|ol ms]; [reflexivity|].
    rewrite <- length_sumZ. simpl length. lia. }
  assert (Hactive : count_filter Q8_active (Q8_group db (equipment_key db e))
                    = Z.of_nat (length (active_logs_of db (e_id e)))).
  { unfold count_filter, active_logs_of. rewrite !length_filter_sumZ.
    rewrite (sumZ_ext _
      (fun j : Q8Joined =>
         let '(_, _, ol) := j in
         match ol with
         | Some l => if String.eqb (ol_status l) "IN_PROGRESS" then 1 else 0
         | None => 0
         end)).
    2: { intros [[? ?] [l|]] _; simpl; reflexivity. }
    rewrite (Q8_group_sum db e _ Hke Hkw He).
    now destruct (logs_of db (e_id e)). }
  exists (Q8_select (equipment_key db e, Q8_group db (equipment_key db e))).
  split; [|unfold Q8_select, equipment_key; simpl; auto].
  apply Q8_rows. eexists. split; [|reflexivity].
  intros Hnil. rewrite Hnil in Htotal. unfold count_star in Htotal.
  simpl in Htotal. lia.
Qed.

(** The rows of Q8 are in the order of ORDER BY active_ops DESC, e.name. *)
Lemma Q8_sorted (db : Db) :
  Sorted (fun a b => not_after (Q8_compare a b) = true) (Q8 db).
Proof. unfold Q8. apply order_by_sorted. exact Q8_compare_total. Qed.

(** C5.  The mill has two logs, one of them IN_PROGRESS, and Q8 reports
    active_ops 1 and total_logs 2 for it, ahead of the lathe.  The lathe
    has no log, and Q8 reports total_logs 1 for it: COUNT( * ) counts the
    row of NULLs that the LEFT JOIN keeps for it. *)
Theorem Q8_counts_idle_equipment_once :
  List.filter (fun ol => eq_nullable 1 (ol_equipment_id ol))
              (operation_logs Demo.workload_db) = []
  /\ Q8 Demo.workload_db
     = [ {| q8_id := 2; q8_equipment := "mill"; q8_workshop := None;
            q8_active_ops := 1; q8_total_logs := 2 |};
         {| q8_id := 1; q8_equipment := "lathe"; q8_workshop := Some "A";
            q8_active_ops := 0; q8_total_logs := 1 |} ].
Proof. split; reflexivity. Qed.

(** *** The statements above on the sample data *)

Lemma Q13_hours_overdue_nonneg_monotone_witness :
  8000000000 <= 9000000000
  /\ forall row, In row (Q13 Demo.underway_db 8000000000) ->
       exists h, q13_hours_overdue row = Some h /\ (0 <= h)%Q.
Proof.
  assert (Hle : 8000000000 <= 9000000000) by lia.
  split; [exact Hle|].
  apply (Q13_hours_overdue_nonneg_monotone Demo.underway_db _ _ Hle).
Defined.

(** Every step of order 1 is DONE: Q15 reports the order with NULL
    minutes and a NULL valuation. *)
Lemma Q15_finished_order_valuation_is_null :
  in_flight {| o_id := 1; o_status := "IN_PROGRESS" |} = true
  /\ pending_steps Demo.finished_db 1 = []
  /\ Q15 Demo.finished_db
     = [ {| q15_order_id := 1; q15_remaining_minutes := None;
            q15_remaining_hours := None; q15_rate_rub_per_hour := 1500;
            q15_nzp_cost_rub := None |} ].
Proof. repeat split. Qed.

Lemma Q15_remaining_and_valuation_witness :
  well_formed Demo.underway_db = true
  /\ forall row, In row (Q15 Demo.underway_db) -> q15_order_id row = 1 ->
       q15_remaining_minutes row = Some 65.
Proof.
  assert (Hwf : well_formed Demo.underway_db = true) by reflexivity.
  split; [exact Hwf|]. intros row Hrow Hid.
  destruct (Q15_remaining_and_valuation Demo.underway_db
              {| o_id := 1; o_status := "IN_PROGRESS" |} Hwf
              (or_introl eq_refl) (or_intror eq_refl)) as [_ Hrows].
  destruct (Hrows row Hrow Hid) as (_ & Hpending & _).
  apply Hpending. discriminate.
Defined.

(** Order 1 is CANCELED, so the aggregation of Q15 has nothing for it;
    Q16 counts the 60 minutes of its PLANNED step for workshop A. *)
Lemma Q16_counts_steps_of_canceled_orders :
  Q15 Demo.canceled_db = []
  /\ workshop_minutes_in_flight Demo.canceled_db (Some "A") = 0
  /\ map (fun row => (q16_workshop row, q16_wip_minutes row)) (Q16 Demo.canceled_db)
     = [ (Some "A", Some 60) ].
Proof. repeat split. Qed.

Lemma Q16_per_workshop_witness :
  well_formed Demo.underway_db = true
  /\ forall row, In row (Q16 Demo.underway_db) -> q16_workshop row = None ->
       q16_wip_minutes row = Some 20.
Proof.
  assert (Hwf : well_formed Demo.underway_db = true) by reflexivity.
  split; [exact Hwf|]. intros row Hrow Hk.
  destruct (Q16_per_workshop Demo.underway_db None Hwf) as (_ & Hrows & _).
  now destruct (Hrows row Hrow Hk) as [Hminutes _].
Defined.

End AnalyticsFacts.

(** ** What the requests leave behind *)

Module EffectsFacts.
Import Sql Js Web Effects SqlFacts WebFacts.

Ltac norm_trace :=
  unfold emit, after; simpl; rewrite <- ?app_assoc; simpl.

Section Requests.
Context `{Platform}.

Lemma paired_nil : paired [].
Proof. now left. Qed.

Lemma paired_queries (sts : list Statement) :
  paired (Connect :: map Query sts ++ [Release]).
Proof. right. now exists sts. Qed.

Lemma after_nil (s : State) : after s [] (users s) (orders s) (users_id_seq s) = s.
Proof. unfold after. rewrite app_nil_r. now destruct s. Qed.

Lemma stats_mv_handler_run (req : Request) (s : State) :
  stats_mv_handler req s
  = (Ok (respond 200 (JMv (order_stats_mv s))),
     after s [Connect; Query SelectOrderStatsMv; Release] (users s) (orders s)
       (users_id_seq s)).
Proof. unfold stats_mv_handler, try_catch. simpl. now norm_trace. Qed.

Lemma stats_handler_run (req : Request) (s : State) :
  exists r,
    stats_handler req s
    = (Ok (respond 200 (JStats r)),
       after s [Connect; Query SelectOrdersStats; Query SelectUsersCount;
                Query SelectAvgTime; Release] (users s) (orders s) (users_id_seq s)).
Proof. eexists. unfold stats_handler, try_catch. simpl. now norm_trace. Qed.

Lemma get_orders_handler_run (req : Request) (s : State) :
  exists res sts,
    get_orders_handler req s
    = (Ok res, after s (Connect :: map Query sts ++ [Release]) (users s) (orders s)
                 (users_id_seq s)).
Proof.
  unfold get_orders_handler, try_catch, with_client, search_pattern,
    sortDirection, call_trim, call_toLowerCase, select_orders,
    bind, finally, log, ret, throw.
  destruct (query req !! "q") as [[qs|ql|]|]; simpl;
    destruct (query req !! "direction") as [[ds|dl|]|]; simpl;
    destruct (sortField (query req !! "sort")); simpl;
    repeat match goal with
           | |- context [if ?b then _ else _] => destruct b; simpl
           end;
    eexists;
    first [ exists []; norm_trace; reflexivity
          | eexists [_]; norm_trace; reflexivity ].
Qed.

Lemma handled_unchanged (r : Route) (s : State) (res : Response) :
  handled r s (Ok res, s).
Proof.
  exists res, []. simpl. rewrite app_nil_r.
  repeat split; try apply paired_nil.
  destruct r; simpl; auto.
Qed.

Lemma handled_after (r : Route) (s : State) (res : Response)
    (sts : list Statement) (us : list UserRow) (os : list OrderRow) (seq : Z) :
  may_change r s (after s (Connect :: map Query sts ++ [Release]) us os seq) ->
  handled r s (Ok res, after s (Connect :: map Query sts ++ [Release]) us os seq).
Proof.
  intros Hch. exists res, (Connect :: map Query sts ++ [Release])%list.
  repeat split; auto. apply paired_queries.
Qed.

Lemma stats_mv_handled (req : Request) (s : State) :
  handled GET_stats_mv s (stats_mv_handler req s).
Proof.
  rewrite stats_mv_handler_run.
  apply (handled_after GET_stats_mv s _ [SelectOrderStatsMv]). simpl. auto.
Qed.

Lemma stats_handled (req : Request) (s : State) :
  handled GET_stats s (stats_handler req s).
Proof.
  destruct (stats_handler_run req s) as [r ->].
  apply (handled_after GET_stats s _
           [SelectOrdersStats; SelectUsersCount; SelectAvgTime]).
  simpl. auto.
Qed.

Lemma get_orders_handled (req : Request) (s : State) :
  handled GET_orders s (get_orders_handler req s).
Proof.
  destruct (get_orders_handler_run req s) as (res & sts & ->).
  apply handled_after. simpl. auto.
Qed.

(** One statement between taking and giving back the connection, as the
    handlers leave it in the trace. *)
Lemma handled_one_statement (r : Route) (s : State) (res : Response)
    (st : Statement) (us : list UserRow) (os : list OrderRow) (seq : Z) :
  may_change r s (after s [Connect; Query st; Release] us os seq) ->
  handled r s
    (Ok res,
     {| users := us; orders := os; order_stats_mv := order_stats_mv s;
        users_id_seq := seq; now := now s;
        trace := (((trace s ++ [Connect]) ++ [Query st]) ++ [Release])%list |}).
Proof.
  intros Hch.
  assert (Hg : handled r s (Ok res, after s (Connect :: map Query [st] ++ [Release])
                                     us os seq))
    by now apply handled_after.
  revert Hg. unfold after. simpl. now rewrite <- !app_assoc.
Qed.

Lemma post_users_handled (req : Request) (s : State) :
  handled POST_users s (post_users_handler req s).
Proof.
  unfold post_users_handler, try_catch.
  destruct (if_truthy (body req !! "username")) as [username|];
    [|apply handled_unchanged].
  destruct (if_truthy (body req !! "password")) as [password|];
    [|apply handled_unchanged].
  destruct password as [| | |pw|]; simpl; try apply handled_unchanged.
  unfold insert_user, with_client, bind, finally, log, ret, emit. simpl.
  destruct (prepareValue username) as [name|]; simpl.
  - match goal with
    | |- context [existsb ?f ?l] => destruct (existsb f l) eqn:Hex
    end; simpl; apply handled_one_statement; simpl; auto.
    split; [reflexivity|]. right. split; [|reflexivity].
    eexists. simpl. repeat split. exact Hex.
  - apply handled_one_statement. simpl. auto.
Qed.

Lemma delete_users_handled (req : Request) (s : State) :
  handled DELETE_users_id s (delete_users_handler req s).
Proof.
  unfold delete_users_handler, try_catch.
  destruct (user req) as [u|]; simpl; [|apply handled_unchanged].
  destruct (same_id _ _); [apply handled_unchanged|].
  unfold delete_user, with_client, bind, finally, log, ret, emit. simpl.
  destruct (int_in _) as [n|]; simpl.
  - match goal with
    | |- context [map u_id ?l] => destruct (map u_id l)
    end; simpl; apply handled_one_statement; simpl;
      (repeat split; right; now exists n).
  - apply handled_one_statement. simpl. auto.
Qed.

Lemma patch_order_status_handled (req : Request) (s : State) :
  handled PATCH_orders_id_status s (patch_order_status_handler req s).
Proof.
  unfold patch_order_status_handler, try_catch.
  destruct (if_truthy (body req !! "status")) as [v|]; [|apply handled_unchanged].
  unfold update_order_status, with_client, bind, finally, log, ret, emit. simpl.
  destruct (int_in (params_id req)) as [n|];
    [destruct (prepareValue v) as [st|]|]; simpl;
    try (apply handled_one_statement; simpl; now auto).
  destruct (List.filter (fun o => ord_id o =? n) (orders s)) as [|o l];
    [|destruct (status_admitted st)]; simpl;
    apply handled_one_statement; simpl; auto.
  repeat split. right. now exists n, st.
Qed.

(** The outcome of a request on a route. *)
Lemma app_handled (r : Route) (req : Request) (s : State) :
  handled r s (app r req s).
Proof.
  destruct r; simpl;
    (destruct (authMiddleware req) as [res|req1]; [apply handled_unchanged|]);
    try (destruct (adminOnlyMiddleware req1) as [res|req2];
         [apply handled_unchanged|]).
  - apply stats_mv_handled.
  - apply post_users_handled.
  - apply delete_users_handled.
  - apply get_orders_handled.
  - apply patch_order_status_handled.
  - apply stats_handled.
Qed.

Lemma serve_app (r : Route) (req : Request) (s : State) :
  exists res, app r req s = (Ok res, snd (serve r req s))
              /\ fst (serve r req s) = res.
Proof.
  destruct (app_handled r req s) as (res & added & Hres & _).
  unfold serve. destruct (app r req s) as [[res'|e] s']; simpl in *; [|discriminate].
  eauto.
Qed.

(** X1.  Whatever the route, the request and the store, the accesses to
    the store that serving the request adds are none at all, or one
    connection that is taken, used for statements only, and given back:
    no request leaves a connection behind, not even one that fails. *)
Theorem store_accesses_paired (r : Route) (req : Request) (s : State) :
  exists added,
    trace (snd (serve r req s)) = (trace s ++ added)%list /\ paired added.
Proof.
  destruct (serve_app r req s) as (res & Happ & _).
  destruct (app_handled r req s) as (res' & added & _ & Htrace & Hp & _).
  rewrite Happ in Htrace. eauto.
Qed.

Lemma serve_may_change (r : Route) (req : Request) (s : State) :
  may_change r s (snd (serve r req s)).
Proof.
  destruct (serve_app r req s) as (res & Happ & _).
  destruct (app_handled r req s) as (res' & added & _ & _ & _ & _ & _ & Hch).
  now rewrite Happ in Hch.
Qed.

(** X2.  What a request can change.  No route touches the materialized
    view or the clock.  GET /stats/mv, GET /orders and GET /stats change
    no table; POST /users changes nothing but the users, by one row
    appended under a username that was free, and the sequence of ids,
    which moves by at most one; DELETE /users/:id removes nothing but
    the users of one id; PATCH /orders/:id/status changes nothing but
    the status and update time of the orders of one id. *)
Theorem tables_changed_by_route (r : Route) (req : Request) (s : State) :
  order_stats_mv (snd (serve r req s)) = order_stats_mv s
  /\ now (snd (serve r req s)) = now s
  /\ may_change r s (snd (serve r req s)).
Proof.
  destruct (serve_app r req s) as (res & Happ & _).
  destruct (app_handled r req s) as (res' & added & _ & _ & _ & Hmv & Hnow & _).
  rewrite Happ in Hmv, Hnow. split; [exact Hmv|]. split; [exact Hnow|].
  apply serve_may_change.
Qed.

Lemma NoDup_map_filter {A B : Type} (f : A -> B) (p : A -> bool) (l : list A) :
  List.NoDup (map f l) -> List.NoDup (map f (List.filter p l)).
Proof.
  induction l as [|x l IH]; simpl; intros Hnd; [constructor|].
  inversion Hnd as [|? ? Hnotin Hnd']; subst.
  destruct (p x); simpl; [|now apply IH].
  constructor; [|now apply IH].
  intros Hin. apply Hnotin. apply in_map_iff in Hin.
  destruct Hin as (y & Hy & Hin). apply filter_In in Hin.
  rewrite <- Hy. apply in_map. tauto.
Qed.

Lemma NoDup_snoc {A : Type} (l : list A) (x : A) :
  List.NoDup l -> ~ In x l -> List.NoDup (l ++ [x]).
Proof.
  induction l as [|y l IH]; simpl; intros Hnd Hx.
  - constructor; [tauto|constructor].
  - inversion Hnd as [|? ? Hnotin Hnd']; subst. constructor.
    + rewrite in_app_iff. simpl. intros [Hin|[Heq|[]]]; [tauto|].
      apply Hx. now left.
    + apply IH; [exact Hnd'|tauto].
Qed.

Lemma usernames_unique_step (r : Route) (req : Request) (s : State) :
  usernames_unique s -> usernames_unique (snd (serve r req s)).
Proof.
  unfold usernames_unique. intros Hu.
  pose proof (serve_may_change r req s) as Hch.
  destruct r; simpl in Hch.
  - destruct Hch as (-> & _). exact Hu.
  - destruct Hch as (_ & [[-> _]|[(row & -> & Hfresh & _) _]]); [exact Hu|].
    rewrite map_app. simpl. apply NoDup_snoc; [exact Hu|].
    intros Hin. apply in_map_iff in Hin. destruct Hin as (u & Hname & Hin).
    assert (Hex : existsb (fun u => String.eqb (u_username u) (u_username row))
                          (users s) = true); [|congruence].
    apply existsb_exists. exists u. split; [exact Hin|]. now apply String.eqb_eq.
  - destruct Hch as (_ & _ & [->|[n ->]]); [exact Hu|].
    now apply NoDup_map_filter.
  - destruct Hch as (-> & _). exact Hu.
  - destruct Hch as (-> & _). exact Hu.
  - destruct Hch as (-> & _). exact Hu.
Qed.

Lemma ids_issued_step (r : Route) (req : Request) (s : State) :
  ids_issued s -> ids_issued (snd (serve r req s)).
Proof.
  unfold ids_issued. intros [Hnd Hlt].
  pose proof (serve_may_change r req s) as Hch.
  destruct r; simpl in Hch.
  - destruct Hch as (-> & _ & ->). auto.
  - destruct Hch as (_ & [[-> [-> | ->]]|[(row & -> & _ & Hid & _) ->]]); auto.
    + split; [exact Hnd|]. intros u Hu. specialize (Hlt u Hu). lia.
    + split.
      * rewrite map_app. simpl. apply NoDup_snoc; [exact Hnd|].
        intros Hin. apply in_map_iff in Hin. destruct Hin as (u & Hu & Hin).
        specialize (Hlt u Hin). lia.
      * intros u Hu. apply in_app_iff in Hu. destruct Hu as [Hu|[<-|[]]].
        -- specialize (Hlt u Hu). lia.
        -- lia.
  - destruct Hch as (_ & -> & [->|[n ->]]); auto.
    split; [now apply NoDup_map_filter|].
    intros u Hu. apply filter_In in Hu. now apply Hlt.
  - destruct Hch as (-> & _ & ->). auto.
  - destruct Hch as (-> & -> & _). auto.
  - destruct Hch as (-> & _ & ->). auto.
Qed.

(** X3.  A table of users with unique usernames, unique ids and ids below
    the sequence keeps these properties through every sequence of
    requests on the routes. *)
Theorem users_table_stays_well_formed (l : list (Route * Request)) (s : State) :
  usernames_unique s -> ids_issued s ->
  usernames_unique (serve_all l s) /\ ids_issued (serve_all l s).
Proof.
  revert s. induction l as [|[r req] l IH]; simpl; intros s Hu Hi; [auto|].
  apply IH; [now apply usernames_unique_step|now apply ids_issued_step].
Qed.

(** X4.  On every route, a request that [authMiddleware] turns down gets
    that answer, which has status 401, and the store is left as it was,
    without any access. *)
Theorem unauthenticated_request_rejected (r : Route) (req : Request) (s : State)
    (res : Response) :
  authMiddleware req = inl res ->
  serve r req s = (res, s) /\ code res = 401.
Proof.
  intros Hauth. split; [|now apply (authMiddleware_inl req)].
  unfold serve. destruct r; simpl; now rewrite Hauth.
Qed.

End Requests.

End EffectsFacts.

(** ** Facts about the JavaScript built-ins *)

Module JsFacts.
Import Js Effects.

Lemma split_space_cons (s : string) : exists w ws, split_space s = w :: ws.
Proof.
  induction s as [|c s IH]; simpl; [eauto|].
  destruct (Ascii.eqb c " "); [eauto|].
  destruct IH as (w & ws & ->). eauto.
Qed.

Lemma concat_split_space (s : string) : String.concat " " (split_space s) = s.
Proof.
  induction s as [|c s IH]; simpl; [reflexivity|].
  destruct (split_space_cons s) as (w & ws & Hs). rewrite Hs in *.
  destruct (Ascii.eqb_spec c " ") as [->|Hc].
  - change (String.concat " " ("" :: w :: ws))
      with (String " " (String.concat " " (w :: ws))).
    now rewrite IH.
  - destruct ws as [|w' ws].
    + simpl in *. now rewrite IH.
    + change (String.concat " " (String c w :: w' :: ws))
        with (String c (String.concat " " (w :: w' :: ws))).
      now rewrite IH.
Qed.

Lemma split_space_pieces (s : string) :
  Forall (fun w => has_space w = false) (split_space s).
Proof.
  induction s as [|c s IH]; simpl; [repeat constructor|].
  destruct (Ascii.eqb c " ") eqn:Hc; [now constructor|].
  destruct (split_space_cons s) as (w & ws & Hs). rewrite Hs in *.
  inversion IH; subst. constructor; [|assumption]. simpl. now rewrite Hc.
Qed.

Lemma split_space_word (w : string) :
  has_space w = false -> split_space w = [w].
Proof.
  induction w as [|c w IH]; simpl; [reflexivity|].
  destruct (Ascii.eqb c " "); simpl; [discriminate|].
  intros Hw. now rewrite IH.
Qed.

Lemma split_space_app (w rest : string) :
  has_space w = false ->
  split_space (w ++ String " " rest) = w :: split_space rest.
Proof.
  induction w as [|c w IH]; simpl; [reflexivity|].
  destruct (Ascii.eqb c " "); simpl; [discriminate|].
  intros Hw. now rewrite IH.
Qed.

Lemma split_space_concat (w : string) (ws : list string) :
  Forall (fun w => has_space w = false) (w :: ws) ->
  split_space (String.concat " " (w :: ws)) = w :: ws.
Proof.
  revert w. induction ws as [|w' ws IH]; intros w Hall.
  - simpl. apply split_space_word. now inversion Hall.
  - inversion Hall as [|? ? Hw Hws]; subst.
    change (String.concat " " (w :: w' :: ws))
      with (w ++ String " " (String.concat " " (w' :: ws))).
    rewrite split_space_app by exact Hw. now rewrite IH.
Qed.

Theorem split_space_round_trip :
  (forall s, String.concat " " (split_space s) = s
             /\ split_space s <> []
             /\ Forall (fun w => has_space w = false) (split_space s))
  /\ (forall w ws, Forall (fun w => has_space w = false) (w :: ws) ->
                   split_space (String.concat " " (w :: ws)) = w :: ws).
Proof.
  split.
  - intros s. split; [apply concat_split_space|]. split; [|apply split_space_pieces].
    destruct (split_space_cons s) as (w & ws & ->). discriminate.
  - apply split_space_concat.
Qed.

(* parseInt *)
Lemma digit_of_char (d : N) :
  (d < 10)%N -> digit_of (pretty_N_char d) = Some (Z.of_N d).
Proof.
  intros Hd.
  destruct d as [|p]; [reflexivity|].
  do 4 (destruct p as [p|p|]; try reflexivity; try lia).
Qed.

Lemma read_digits_pretty_go (x : N) (s : string) :
  (0 < x)%N ->
  read_digits (pretty_N_go x s) None = read_digits s (Some (Z.of_N x)).
Proof.
  revert s. induction (N.lt_wf_0 x) as [x _ IH]. intros s Hx.
  rewrite pretty_N_go_step by exact Hx.
  assert (Hmod : (x `mod` 10 < 10)%N) by (apply N.mod_lt; lia).
  assert (Hx10 : Z.of_N x = 10 * Z.of_N (x `div` 10)%N + Z.of_N (x `mod` 10)%N).
  { pose proof (N.div_mod x 10). lia. }
  destruct (N.eq_dec (x `div` 10)%N 0%N) as [Hq|Hq].
  - rewrite Hq, pretty_N_go_0. simpl. rewrite (digit_of_char _ Hmod).
    rewrite Hx10, Hq. reflexivity.
  - rewrite IH.
    + simpl. rewrite (digit_of_char _ Hmod). now rewrite Hx10.
    + apply N.div_lt; lia.
    + lia.
Qed.

Lemma pretty_N_go_head (x : N) (s : string) :
  (0 < x)%N ->
  exists d rest, (d < 10)%N /\ pretty_N_go x s = String (pretty_N_char d) rest.
Proof.
  revert s. induction (N.lt_wf_0 x) as [x _ IH]. intros s Hx.
  rewrite pretty_N_go_step by exact Hx.
  assert (Hmod : (x `mod` 10 < 10)%N) by (apply N.mod_lt; lia).
  destruct (N.eq_dec (x `div` 10)%N 0%N) as [Hq|Hq].
  - rewrite Hq, pretty_N_go_0. eauto.
  - apply (IH (x `div` 10)%N).
    + apply N.div_lt; lia.
    + now apply N.neq_0_lt_0.
Qed.

Lemma parseInt_digits (d : N) (rest : string) :
  (d < 10)%N ->
  parseInt (String (pretty_N_char d) rest)
  = read_digits (String (pretty_N_char d) rest) None.
Proof.
  intros Hd. destruct d as [|p]; [reflexivity|].
  do 4 (destruct p as [p|p|]; try reflexivity; try lia).
Qed.

Lemma parseInt_pretty_pos (p : positive) : parseInt (pretty (N.pos p)) = Some (Z.pos p).
Proof.
  unfold pretty, pretty_N. simpl.
  destruct (pretty_N_go_head (N.pos p) "") as (d & rest & Hd & Hhead); [lia|].
  rewrite Hhead, (parseInt_digits d rest Hd), <- Hhead.
  rewrite read_digits_pretty_go by lia. reflexivity.
Qed.

Lemma read_digits_pretty_pos (p : positive) :
  read_digits (pretty (N.pos p)) None = Some (Z.pos p).
Proof.
  unfold pretty, pretty_N. simpl.
  rewrite read_digits_pretty_go by lia. reflexivity.
Qed.

Theorem parseInt_number_to_string (n : Z) :
  parseInt (pretty n) = Some n
  /\ number_to_string (parseInt (pretty n)) = pretty n.
Proof.
  assert (Hp : parseInt (pretty n) = Some n).
  { destruct n as [|p|p].
    - reflexivity.
    - apply parseInt_pretty_pos.
    - change (pretty (Z.neg p)) with (String "-" (pretty (N.pos p))).
      change (parseInt (String "-" (pretty (N.pos p))))
        with (option_map Z.opp (read_digits (pretty (N.pos p)) None)).
      now rewrite read_digits_pretty_pos. }
  now rewrite Hp.
Qed.

End JsFacts.

(** ** Facts about the outcome of each route *)

Module HandlerFacts.
Import Sql Js Web Effects SqlFacts WebFacts EffectsFacts JsFacts.

Section Outcomes.
Context `{Platform}.

Lemma bearer_accepted (req : Request) (token : string) (rest : list string)
    (p : Principal) :
  authorization req = Some (String.concat " " ("Bearer" :: token :: rest)) ->
  Forall (fun w => has_space w = false) (token :: rest) ->
  token <> "" ->
  jwt_verify token = Some p ->
  authMiddleware req = inr (with_user req p).
Proof.
  intros Hh Hpieces Htoken Hv. unfold authMiddleware. rewrite Hh.
  assert (Hne : String.eqb (String.concat " " ("Bearer" :: token :: rest)) "" = false)
    by reflexivity.
  rewrite Hne.
  rewrite split_space_concat by (constructor; [reflexivity|exact Hpieces]).
  apply String.eqb_neq in Htoken.
  rewrite String.eqb_refl, Htoken, Hv. reflexivity.
Qed.

(** X5.  [authMiddleware] hands a request on exactly when its
    Authorization header is the word Bearer, one space, a token that is
    not empty and that [jwt.verify] accepts, followed, if at all, by a
    space and further words, which are ignored; the request goes on with
    the payload of the token as its user. *)
Theorem authMiddleware_accepts (req req' : Request) :
  authMiddleware req = inr req' <->
  exists token rest p,
    authorization req = Some (String.concat " " ("Bearer" :: token :: rest))
    /\ Forall (fun w => has_space w = false) (token :: rest)
    /\ token <> ""
    /\ jwt_verify token = Some p
    /\ req' = with_user req p.
Proof.
  split.
  - unfold authMiddleware.
    destruct (authorization req) as [h|]; [|discriminate].
    destruct (String.eqb h ""); [discriminate|].
    pose proof (concat_split_space h) as Hjoin.
    pose proof (split_space_pieces h) as Hpieces.
    destruct (split_space h) as [|type [|token rest]] eqn:Hs; try discriminate.
    destruct (String.eqb_spec type "Bearer") as [->|]; simpl; [|discriminate].
    destruct (String.eqb_spec token "") as [|Htoken]; [discriminate|].
    destruct (jwt_verify token) as [p|] eqn:Hv; [|discriminate].
    intros [= <-]. exists token, rest, p.
    split; [now rewrite <- Hjoin|]. inversion Hpieces; subst. auto.
  - intros (token & rest & p & Hh & Hpieces & Htoken & Hv & ->).
    now apply (bearer_accepted req token rest p).
Qed.


(** A request that the admin gate lets through reaches the handler. *)
Lemma admin_route (handler : Request -> M Response) (req : Request)
    (p : Principal) (s : State) :
  authMiddleware req = inr (with_user req p) ->
  pr_role p = "ADMIN" ->
  chain [authMiddleware; adminOnlyMiddleware] handler req s
  = handler (with_user req p) s.
Proof.
  intros Hauth Hrole. simpl. now rewrite Hauth, (adminOnly_admin req p Hrole).
Qed.

Lemma serve_ok (r : Route) (req : Request) (s s' : State) (res : Response) :
  app r req s = (Ok res, s') -> serve r req s = (res, s').
Proof. unfold serve. now intros ->. Qed.

(** X6.  POST /users by an administrator: without a truthy username or
    password the answer is 400 and the store is not accessed; with a
    password that is not a string the hashing throws, the answer is 500
    and the store is not accessed either. *)
Theorem user_creation_refused_early (req : Request) (s : State) (p : Principal) :
  authMiddleware req = inr (with_user req p) ->
  pr_role p = "ADMIN" ->
  (if_truthy (body req !! "username") = None
   \/ if_truthy (body req !! "password") = None ->
   serve POST_users req s = (respond 400 (JError LoginAndPasswordRequired), s))
  /\ (forall u v,
        if_truthy (body req !! "username") = Some u ->
        if_truthy (body req !! "password") = Some v ->
        (forall pw, v <> JStr pw) ->
        serve POST_users req s = (respond 500 (JError InternalServerError), s)).
Proof.
  intros Hauth Hrole. split.
  - intros Hmissing. apply serve_ok. unfold app.
    rewrite (admin_route _ req p s Hauth Hrole).
    unfold post_users_handler, try_catch. simpl.
    destruct Hmissing as [-> | Hpw]; [reflexivity|].
    rewrite Hpw. now destruct (if_truthy (body req !! "username")).
  - intros u v Hu Hv Hnot. apply serve_ok. unfold app.
    rewrite (admin_route _ req p s Hauth Hrole).
    unfold post_users_handler, try_catch. simpl. rewrite Hu, Hv.
    destruct v as [| | |pw|]; try reflexivity. now destruct (Hnot pw).
Qed.

(** X7.  POST /users by an administrator with a username and a password
    string.  When the username is taken the answer is 400, no row is
    added, and the sequence of ids has moved on by one all the same.
    When it is free the answer is 201 with the new row, which is
    appended to the users with the next id of the sequence, the hash of
    the password, the full name or NULL, the role ADMIN or MANAGER and
    the current instant. *)
Theorem user_creation_outcome (req : Request) (s : State) (p : Principal)
    (u : JVal) (name pw : string) :
  authMiddleware req = inr (with_user req p) ->
  pr_role p = "ADMIN" ->
  if_truthy (body req !! "username") = Some u ->
  prepareValue u = Some name ->
  if_truthy (body req !! "password") = Some (JStr pw) ->
  (In name (map u_username (users s)) ->
     fst (serve POST_users req s) = respond 400 (JError LoginAlreadyExists)
     /\ users (snd (serve POST_users req s)) = users s
     /\ users_id_seq (snd (serve POST_users req s)) = users_id_seq s + 1)
  /\ (~ In name (map u_username (users s)) ->
        let row := {| u_id := users_id_seq s; u_username := name;
                      u_password_hash := bcrypt_hash pw;
                      u_full_name := or_null (body req !! "full_name");
                      u_role := if strict_eq_string (body req !! "role") "ADMIN"
                                then "ADMIN" else "MANAGER";
                      u_created_at := now s |} in
        fst (serve POST_users req s) = respond 201 (JUser (view_of_user row))
        /\ users (snd (serve POST_users req s)) = (users s ++ [row])%list
        /\ users_id_seq (snd (serve POST_users req s)) = users_id_seq s + 1).
Proof.
  intros Hauth Hrole Hu Hname Hpw.
  assert (Hex : existsb (fun x => String.eqb (u_username x) name) (users s) = true
                <-> In name (map u_username (users s))).
  { rewrite existsb_exists, in_map_iff. split.
    - intros (x & Hx & Heq). apply String.eqb_eq in Heq. eauto.
    - intros (x & Heq & Hx). exists x. split; [exact Hx|]. now apply String.eqb_eq. }
  assert (Hrun : app POST_users req s
                 = post_users_handler (with_user req p) s).
  { unfold app. apply (admin_route _ req p s Hauth Hrole). }
  remember (app POST_users req s) as out eqn:Hout.
  unfold post_users_handler, try_catch in Hrun. simpl in Hrun.
  rewrite Hu, Hpw in Hrun. simpl in Hrun.
  unfold insert_user, with_client, bind, finally, log, ret in Hrun.
  simpl in Hrun. rewrite Hname in Hrun.
  split.
  - intros Hin. apply Hex in Hin. rewrite Hin in Hrun. simpl in Hrun.
    subst out; rewrite (serve_ok _ _ _ _ _ Hrun). simpl. auto.
  - intros Hnotin.
    destruct (existsb _ (users s)) eqn:Hb; [now destruct Hnotin; apply Hex|].
    simpl in Hrun. subst out; rewrite (serve_ok _ _ _ _ _ Hrun). simpl. auto.
Qed.


Lemma auth_route (handler : Request -> M Response) (req : Request)
    (p : Principal) (s : State) :
  authMiddleware req = inr (with_user req p) ->
  chain [authMiddleware] handler req s = handler (with_user req p) s.
Proof. intros Hauth. simpl. now rewrite Hauth. Qed.

(** X10.  PATCH /orders/:id/status with a truthy status, when the store
    reads the id as n.  Without an order of id n the answer is 404 and
    the orders are unchanged.  With one, the answer is 500 and the orders
    are unchanged when the store does not admit the status, and
    otherwise the answer is 200 with the updated row, every order of id
    n has the status and the current instant as its update time, and
    the other orders are as before. *)
Theorem status_update_outcome (req : Request) (s : State) (p : Principal)
    (v : JVal) (st : string) (n : Z) :
  authMiddleware req = inr (with_user req p) ->
  if_truthy (body req !! "status") = Some v ->
  prepareValue v = Some st ->
  int_in (params_id req) = Some n ->
  (~ In n (map ord_id (orders s)) ->
     fst (serve PATCH_orders_id_status req s) = respond 404 (JError OrderNotFound)
     /\ orders (snd (serve PATCH_orders_id_status req s)) = orders s)
  /\ (In n (map ord_id (orders s)) -> status_admitted st = false ->
        fst (serve PATCH_orders_id_status req s)
        = respond 500 (JError InternalServerError)
        /\ orders (snd (serve PATCH_orders_id_status req s)) = orders s)
  /\ (In n (map ord_id (orders s)) -> status_admitted st = true ->
        exists o,
          In o (orders s) /\ ord_id o = n
          /\ fst (serve PATCH_orders_id_status req s)
             = respond 200 (JOrder (set_status st (now s) o))
          /\ orders (snd (serve PATCH_orders_id_status req s))
             = map (fun o => if ord_id o =? n then set_status st (now s) o else o)
                   (orders s)).
Proof.
  intros Hauth Hv Hst Hn.
  assert (Hrun : app PATCH_orders_id_status req s
                 = patch_order_status_handler (with_user req p) s).
  { unfold app. apply (auth_route _ req p s Hauth). }
  remember (app PATCH_orders_id_status req s) as out eqn:Hout.
  unfold patch_order_status_handler, try_catch in Hrun. simpl in Hrun.
  rewrite Hv in Hrun.
  unfold update_order_status, with_client, bind, finally, log, ret in Hrun.
  simpl in Hrun. rewrite Hn, Hst in Hrun.
  assert (Hhit : List.filter (fun o => ord_id o =? n) (orders s) = []
                 <-> ~ In n (map ord_id (orders s))).
  { generalize (orders s). induction l as [|x l IH]; simpl; [tauto|].
    destruct (Z.eqb_spec (ord_id x) n) as [Heq|Hne]; simpl.
    - split; [discriminate|]. intros Hnot. destruct Hnot. now left.
    - rewrite IH. tauto. }
  destruct (List.filter (fun o => ord_id o =? n) (orders s)) as [|o l] eqn:Hf.
  - simpl in Hrun. subst out. rewrite (serve_ok _ _ _ _ _ Hrun). simpl.
    destruct Hhit as [Hhit _]. specialize (Hhit eq_refl).
    split; [auto|]. split; intros Hin; now destruct Hhit.
  - assert (Ho : In o (orders s) /\ ord_id o = n).
    { assert (Hin : In o (List.filter (fun o => ord_id o =? n) (orders s)))
        by (rewrite Hf; now left).
      apply filter_In in Hin. destruct Hin as [Hin Hid].
      split; [exact Hin|now apply Z.eqb_eq]. }
    assert (Hin : In n (map ord_id (orders s))).
    { destruct Ho as [Ho <-]. now apply in_map. }
    destruct (status_admitted st) eqn:Hadm; simpl in Hrun;
      subst out; rewrite (serve_ok _ _ _ _ _ Hrun); simpl.
    + split; [tauto|]. split; [discriminate|]. intros _ _. exists o. tauto.
    + split; [tauto|]. split; [auto|discriminate].
Qed.

Lemma Sorted_map {A B : Type} (R : A -> A -> Prop) (R' : B -> B -> Prop)
    (f : A -> B) (l : list A) :
  (forall a b, R a b -> R' (f a) (f b)) ->
  Sorted R l -> Sorted R' (map f l).
Proof.
  intros HR. induction 1 as [|a l Hs IH Hhd]; simpl; constructor; auto.
  destruct Hhd; simpl; constructor; auto.
Qed.

Lemma orders_order_total (c : SortColumn) (d : Direction) (a b : OrderRow) :
  orders_order c d a b = true \/ orders_order c d b a = true.
Proof.
  assert (Hc : compare_by c b a = CompOpp (compare_by c a b)).
  { destruct c; simpl; [apply Z.compare_antisym|apply String.compare_antisym
                       |apply String.compare_antisym]. }
  unfold orders_order. destruct d; rewrite Hc;
    destruct (compare_by c a b); simpl; auto.
Qed.

(** X11.  GET /orders with one of the statuses NEW, IN_PROGRESS, DONE,
    CANCELED and no search, sort or direction answers 200 with exactly
    the orders of that status, the latest created first, after one
    SELECT on one connection, and changes no table. *)
Theorem orders_of_listed_status (req : Request) (s : State) (p : Principal)
    (st : string) :
  authMiddleware req = inr (with_user req p) ->
  query req !! "status" = Some (QStr st) ->
  In st allowed_statuses ->
  query req !! "q" = None ->
  query req !! "sort" = None ->
  query req !! "direction" = None ->
  exists rows,
    fst (serve GET_orders req s) = respond 200 (JOrders rows)
    /\ (forall row, In row rows <->
          exists o, In o (orders s) /\ ord_status o = st /\ row = view_of_order o)
    /\ Sorted (fun a b => ov_created_at b <= ov_created_at a) rows
    /\ snd (serve GET_orders req s)
       = after s [Connect;
                  Query (SelectOrders (Some st) None (Column ByCreatedAt) DESC);
                  Release] (users s) (orders s) (users_id_seq s).
Proof.
  intros Hauth Hstatus Hin Hq Hsort Hdir.
  assert (Hrun : app GET_orders req s = get_orders_handler (with_user req p) s).
  { unfold app. apply (auth_route _ req p s Hauth). }
  remember (app GET_orders req s) as out eqn:Hout.
  unfold get_orders_handler, try_catch in Hrun. simpl in Hrun.
  rewrite Hq, Hsort, Hdir, Hstatus in Hrun.
  change (sortField None) with (Column ByCreatedAt) in Hrun.
  assert (Hfilter : status_filter (Some (QStr st)) = Some st).
  { unfold status_filter, includes, q_truthy.
    assert (Hex : existsb (String.eqb st) allowed_statuses = true).
    { apply existsb_exists. exists st. split; [exact Hin|apply String.eqb_refl]. }
    rewrite Hex.
    assert (Hne : String.eqb st "" = false).
    { apply String.eqb_neq. intros ->. simpl in Hin.
      repeat (destruct Hin as [Hin|Hin]; [discriminate|]). exact Hin. }
    now rewrite Hne. }
  rewrite Hfilter in Hrun. simpl in Hrun.
  subst out. rewrite (serve_ok _ _ _ _ _ Hrun). simpl.
  eexists. split; [reflexivity|]. split; [|split].
  - intros row. rewrite in_map_iff. split.
    + intros (o & <- & Ho). apply order_by_In, filter_In in Ho.
      destruct Ho as [Ho Hw]. unfold orders_where in Hw.
      rewrite andb_true_r in Hw. apply String.eqb_eq in Hw. eauto.
    + intros (o & Ho & Hst & ->). exists o. split; [reflexivity|].
      apply order_by_In, filter_In. split; [exact Ho|].
      unfold orders_where. rewrite andb_true_r. now apply String.eqb_eq.
  - apply (Sorted_map (fun a b => orders_order ByCreatedAt DESC a b = true)).
    + intros a b. unfold orders_order, compare_by, not_after. simpl.
      destruct (Z.compare_spec (ord_created_at b) (ord_created_at a)); intros; lia.
    + apply order_by_sorted. apply orders_order_total.
  - unfold after, emit. simpl. now rewrite <- !app_assoc.
Qed.

Lemma count_status_partition (l : list OrderRow) :
  count_status "NEW" l + count_status "IN_PROGRESS" l
  + count_status "DONE" l + count_status "CANCELED" l
  + Z.of_nat (length (List.filter
       (fun o => negb (existsb (String.eqb (ord_status o))
                         ["NEW"; "IN_PROGRESS"; "DONE"; "CANCELED"])) l))
  = Z.of_nat (length l).
Proof.
  unfold count_status. induction l as [|o l IH]; [reflexivity|].
  cbn [List.filter existsb].
  destruct (String.eqb (ord_status o) "NEW") eqn:H1;
    [apply String.eqb_eq in H1; try rewrite H1; simpl; simpl in IH; lia|].
  destruct (String.eqb (ord_status o) "IN_PROGRESS") eqn:H2;
    [apply String.eqb_eq in H2; try rewrite H2; simpl; simpl in IH; lia|].
  destruct (String.eqb (ord_status o) "DONE") eqn:H3;
    [apply String.eqb_eq in H3; try rewrite H3; simpl; simpl in IH; lia|].
  destruct (String.eqb (ord_status o) "CANCELED") eqn:H4;
    [apply String.eqb_eq in H4; try rewrite H4; simpl; simpl in IH; lia|].
  simpl. simpl in IH. lia.
Qed.

Lemma sum_case_count (st : string) (l : list OrderRow) :
  Number (sum_case st l) = count_status st l.
Proof. now destruct l. Qed.

Lemma completion_seconds_nil (l : list OrderRow) :
  completion_seconds l = []
  <-> forall o, In o l -> ord_status o = "DONE" -> ord_updated_at o = None.
Proof.
  unfold completion_seconds. induction l as [|o l IH]; simpl.
  - split; [intros _ o []|reflexivity].
  - destruct (ord_updated_at o) as [t|] eqn:Ht.
    + destruct (String.eqb_spec (ord_status o) "DONE") as [Hd|Hd]; simpl.
      * split; [discriminate|]. intros Hall.
        specialize (Hall o (or_introl eq_refl) Hd). congruence.
      * rewrite IH. split.
        -- intros Hall o' [<-|Hin]; [contradiction|now apply Hall].
        -- intros Hall o' Hin. apply Hall. now right.
    + simpl. rewrite IH. split.
      * intros Hall o' [<-|Hin]; [auto|now apply Hall].
      * intros Hall o' Hin. apply Hall. now right.
Qed.

(** X13.  GET /stats, for every authenticated principal.  Each of the four
    status counts is the number of orders of that status (zero, not
    NULL, on an empty table), totalUsers is the number of users, the
    four counts and the number of orders of any other status add up to
    totalOrders, and avgCompletionHours is null exactly when no DONE
    order has an update time. *)
Theorem stats_report_counts (req : Request) (s : State) (p : Principal) :
  authMiddleware req = inr (with_user req p) ->
  exists r,
    fst (serve GET_stats req s) = respond 200 (JStats r)
    /\ statusCounts_NEW r = count_status "NEW" (orders s)
    /\ statusCounts_IN_PROGRESS r = count_status "IN_PROGRESS" (orders s)
    /\ statusCounts_DONE r = count_status "DONE" (orders s)
    /\ statusCounts_CANCELED r = count_status "CANCELED" (orders s)
    /\ totalUsers r = Z.of_nat (length (users s))
    /\ statusCounts_NEW r + statusCounts_IN_PROGRESS r
       + statusCounts_DONE r + statusCounts_CANCELED r
       + Z.of_nat (length (List.filter
            (fun o => negb (existsb (String.eqb (ord_status o))
                              ["NEW"; "IN_PROGRESS"; "DONE"; "CANCELED"]))
            (orders s)))
       = totalOrders r
    /\ (avgCompletionHours r = None
        <-> forall o, In o (orders s) -> ord_status o = "DONE" ->
                      ord_updated_at o = None).
Proof.
  intros Hauth.
  assert (Hrun : app GET_stats req s = stats_handler (with_user req p) s).
  { unfold app. apply (auth_route _ req p s Hauth). }
  remember (app GET_stats req s) as out eqn:Hout.
  unfold stats_handler, try_catch in Hrun. simpl in Hrun.
  subst out. rewrite (serve_ok _ _ _ _ _ Hrun). simpl.
  eexists. split; [reflexivity|]. simpl.
  rewrite !sum_case_count.
  repeat (split; [reflexivity|]).
  split; [apply count_status_partition|].
  rewrite <- completion_seconds_nil.
  destruct (completion_seconds (orders s)); simpl; split; congruence.
Qed.
End Outcomes.

End HandlerFacts.

(** ** Facts about sort orders *)

Module OrderingFacts.
Import Sql Ordering SqlFacts.

Lemma ascii_compare_trans (a b c : ascii) :
  Ascii.compare a b = Lt -> Ascii.compare b c = Lt -> Ascii.compare a c = Lt.
Proof.
  unfold Ascii.compare. rewrite !N.compare_lt_iff. intros; eapply N.lt_trans; eauto.
Qed.

Lemma ascii_compare_eq (a b : ascii) : Ascii.compare a b = Eq -> a = b.
Proof.
  unfold Ascii.compare. rewrite N.compare_eq_iff. intros Heq.
  rewrite <- (ascii_N_embedding a), <- (ascii_N_embedding b). now rewrite Heq.
Qed.

Lemma string_compare_trans (a b c : string) :
  String.compare a b = Lt -> String.compare b c = Lt -> String.compare a c = Lt.
Proof.
  revert b c. induction a as [|x a IH]; intros [|y b] [|z c]; simpl;
    try discriminate; auto.
  destruct (Ascii.compare x y) eqn:Hxy; try discriminate.
  - apply ascii_compare_eq in Hxy. subst y.
    destruct (Ascii.compare x z) eqn:Hxz; try discriminate; auto.
    intros Hab Hbc. eapply IH; eauto.
  - intros _. destruct (Ascii.compare y z) eqn:Hyz; try discriminate.
    + apply ascii_compare_eq in Hyz. subst z. now rewrite Hxy.
    + intros _. now rewrite (ascii_compare_trans x y z Hxy Hyz).
Qed.

Lemma lawful_Z {A : Type} (f : A -> Z) : lawful (fun a b => f a ?= f b).
Proof.
  split; [|split].
  - intros a b. apply Z.compare_antisym.
  - intros a b c Heq. apply Z.compare_eq in Heq. now rewrite Heq.
  - intros a b c. rewrite !Z.compare_lt_iff. lia.
Qed.

Lemma lawful_string {A : Type} (f : A -> string) :
  lawful (fun a b => String.compare (f a) (f b)).
Proof.
  split; [|split].
  - intros a b. apply String.compare_antisym.
  - intros a b c Heq. apply String.compare_eq_iff in Heq. now rewrite Heq.
  - intros a b c. apply string_compare_trans.
Qed.

Lemma lawful_flip {A : Type} (cmp : A -> A -> comparison) :
  lawful cmp -> lawful (fun a b => cmp b a).
Proof.
  intros (Hanti & Heq & Hlt). split; [|split].
  - intros a b. apply Hanti.
  - intros a b c Hab. rewrite (Hanti b c), (Hanti a c). f_equal.
    apply Heq. rewrite Hanti, Hab. reflexivity.
  - intros a b c Hab Hbc. eapply Hlt; eauto.
Qed.

Lemma lawful_eq_r {A : Type} (cmp : A -> A -> comparison) (a b c : A) :
  lawful cmp -> cmp b c = Eq -> cmp a c = cmp a b.
Proof.
  intros (Hanti & Heq & _) Hbc.
  rewrite (Hanti c a), (Hanti b a). f_equal. symmetry. now apply Heq.
Qed.

Lemma lawful_lex {A : Type} (c1 c2 : A -> A -> comparison) :
  lawful c1 -> lawful c2 -> lawful (fun a b => lex (c1 a b) (c2 a b)).
Proof.
  intros H1 H2.
  pose proof (lawful_eq_r c1) as Hr1.
  destruct H1 as (Hanti1 & Heq1 & Hlt1). destruct H2 as (Hanti2 & Heq2 & Hlt2).
  split; [|split].
  - intros a b. rewrite Hanti1, Hanti2. unfold lex.
    now destruct (c1 a b).
  - intros a b c. unfold lex.
    destruct (c1 a b) eqn:Hab; try discriminate. intros Hab2.
    now rewrite (Heq1 a b c Hab), (Heq2 a b c Hab2).
  - intros a b c. unfold lex.
    destruct (c1 a b) eqn:Hab; try discriminate.
    + rewrite (Heq1 a b c Hab). destruct (c1 b c); try discriminate; auto.
      apply Hlt2.
    + intros _. destruct (c1 b c) eqn:Hbc; try discriminate.
      * intros _. rewrite (Hr1 a b c) by (repeat split; auto). now rewrite Hab.
      * intros _. now rewrite (Hlt1 a b c Hab Hbc).
Qed.

Lemma not_after_total {A : Type} (cmp : A -> A -> comparison) (a b : A) :
  lawful cmp -> not_after (cmp a b) = true \/ not_after (cmp b a) = true.
Proof.
  intros (Hanti & _). rewrite (Hanti a b). destruct (cmp a b); simpl; auto.
Qed.

Lemma not_after_trans {A : Type} (cmp : A -> A -> comparison) (a b c : A) :
  lawful cmp ->
  not_after (cmp a b) = true -> not_after (cmp b c) = true ->
  not_after (cmp a c) = true.
Proof.
  intros Hl. pose proof (lawful_eq_r cmp a b c Hl) as Hr.
  destruct Hl as (Hanti & Heq & Hlt).
  destruct (cmp a b) eqn:Hab; try discriminate; intros _.
  - now rewrite (Heq a b c Hab).
  - destruct (cmp b c) eqn:Hbc; try discriminate; intros _.
    + now rewrite Hr.
    + now rewrite (Hlt a b c Hab Hbc).
Qed.

Section OrderBy.
Context {A : Type} (leb : A -> A -> bool).
Hypothesis leb_total : forall a b, leb a b = true \/ leb b a = true.
Hypothesis leb_trans :
  forall a b c, leb a b = true -> leb b c = true -> leb a c = true.

Lemma order_by_strongly_sorted (l : list A) :
  StronglySorted (fun a b => leb a b = true) (order_by leb l).
Proof.
  apply Sorted_StronglySorted.
  - intros a b c. apply leb_trans.
  - now apply order_by_sorted.
Qed.

(** In a sorted result no row stands before a row that must come
    before it. *)
Lemma precedes_order_by (l : list A) (x y : A) :
  precedes x y (order_by leb l) -> leb x y = true.
Proof.
  intros (l1 & l2 & l3 & Heq).
  pose proof (order_by_strongly_sorted l) as Hs. rewrite Heq in Hs.
  clear Heq. induction l1 as [|z l1 IH]; simpl in Hs.
  - apply StronglySorted_inv in Hs. destruct Hs as [_ Hall].
    rewrite List.Forall_forall in Hall. apply Hall.
    apply in_or_app. right. now left.
  - apply StronglySorted_inv in Hs. now apply IH.
Qed.
End OrderBy.

Lemma in_precedes {A : Type} (x y : A) (l : list A) :
  In x l -> In y l -> x <> y -> precedes x y l \/ precedes y x l.
Proof.
  intros Hx Hy Hne. apply in_split in Hx. destruct Hx as (l1 & l2 & ->).
  apply in_app_or in Hy. destruct Hy as [Hy|[Hy|Hy]]; [|contradiction|].
  - apply in_split in Hy. destruct Hy as (m1 & m2 & ->). right.
    exists m1, m2, l2. now rewrite <- app_assoc.
  - apply in_split in Hy. destruct Hy as (m1 & m2 & ->). left.
    now exists l1, m1, m2.
Qed.

End OrderingFacts.

(** ** Facts about the reports: rows and their order *)

Module QueryFacts.
Import Sql Schema Analytics Routing Ordering Reports.
Import SqlFacts AnalyticsFacts OrderingFacts.

Lemma Q5_compare_lawful : lawful Q5_compare.
Proof.
  unfold Q5_compare.
  apply (lawful_lex (fun a b => q5_order_id a ?= q5_order_id b)); [apply lawful_Z|].
  apply (lawful_lex (fun a b => String.compare (q5_product a) (q5_product b)));
    [apply lawful_string|].
  apply (lawful_lex (fun a b => Q5_rank a ?= Q5_rank b)); apply lawful_Z.
Qed.

Lemma string_compare_refl (s : string) : String.compare s s = Eq.
Proof.
  pose proof (String.compare_antisym s s) as Hanti.
  destruct (String.compare s s); simpl in Hanti; congruence.
Qed.


(** X20.  The rows of Q5 stand by ascending order id; among the rows of
    one order and one product name no PLANNED step stands before an
    IN_PROGRESS step, and steps of equal status stand by ascending
    step_no. *)
Theorem Q5_active_steps_first (db : Db) (x y : Q5Row) :
  precedes x y (Q5 db) ->
  q5_order_id x <= q5_order_id y
  /\ (q5_order_id x = q5_order_id y -> q5_product x = q5_product y ->
        (q5_status y = "IN_PROGRESS" -> q5_status x = "IN_PROGRESS")
        /\ (q5_status x = q5_status y -> q5_step_no x <= q5_step_no y)).
Proof.
  intros Hprec.
  assert (Hle : not_after (Q5_compare x y) = true).
  { apply (precedes_order_by (fun a b => not_after (Q5_compare a b))) in Hprec.
    - exact Hprec.
    - intros a b. apply not_after_total, Q5_compare_lawful.
    - intros a b c. apply not_after_trans, Q5_compare_lawful. }
  unfold Q5_compare, lex in Hle.
  destruct (Z.compare_spec (q5_order_id x) (q5_order_id y)) as [Hid|Hid|Hid];
    try discriminate; (split; [lia|]); [|intros; lia].
  intros _ Hprod. rewrite Hprod, string_compare_refl in Hle.
  unfold Q5_rank in Hle. split.
  - intros Hy. rewrite Hy in Hle. simpl in Hle.
    destruct (String.eqb_spec (q5_status x) "IN_PROGRESS"); [assumption|].
    discriminate.
  - intros Hst. rewrite Hst, Z.compare_refl in Hle.
    destruct (Z.compare_spec (q5_step_no x) (q5_step_no y)); try discriminate; lia.
Qed.

(** *** Q8 *)

Lemma in_left_join {A B : Type} (on : A -> B -> bool) (l : list A) (r : list B)
    (a : A) (b : option B) :
  In (a, b) (left_join on l r) <->
  In a l /\ match b with
            | Some b' => In b' r /\ on a b' = true
            | None => List.filter (on a) r = []
            end.
Proof.
  unfold left_join. rewrite in_flat_map. split.
  - intros (a' & Ha & Hab).
    destruct (List.filter (on a') r) as [|m ms] eqn:Hf.
    + destruct Hab as [[= -> <-]|[]]. auto.
    + apply in_map_iff in Hab. destruct Hab as (b' & [= -> <-] & Hb).
      rewrite <- Hf in Hb. apply filter_In in Hb. auto.
  - intros [Ha Hb]. exists a. split; [exact Ha|].
    destruct b as [b'|].
    + destruct Hb as [Hb Hon].
      assert (Hin : In b' (List.filter (on a) r)) by (apply filter_In; auto).
      destruct (List.filter (on a) r) as [|m ms]; [contradiction|].
      apply in_map_iff. eauto.
    + rewrite Hb. now left.
Qed.

Lemma find_eq_some {A : Type} (id : A -> Z) (k : Z) (l : list A) (x : A) :
  List.NoDup (map id l) -> In x l -> id x = k ->
  List.find (fun y => id y =? k) l = Some x.
Proof. intros Hnd Hx <-. now apply find_unique. Qed.

Lemma find_none_filter {A : Type} (p : A -> bool) (l : list A) :
  List.filter p l = [] -> List.find p l = None.
Proof.
  induction l as [|x l IH]; simpl; [reflexivity|].
  destruct (p x); [discriminate|exact IH].
Qed.

Lemma Q8_from_key (db : Db) (e : Equipment) (w : option Workshop)
    (ol : option OperationLog) :
  List.NoDup (map w_id (workshops db)) ->
  In (e, w, ol) (Q8_from db) ->
  In e (equipment db) /\ Q8_key (e, w, ol) = equipment_key db e.
Proof.
  intros Hkw Hin. unfold Q8_from in Hin.
  apply in_left_join_l in Hin. apply in_left_join in Hin.
  destruct Hin as [He Hw]. split; [exact He|].
  unfold Q8_key, equipment_key, workshop_of_equipment. f_equal.
  destruct w as [w|].
  - destruct Hw as [Hw Hon]. unfold eq_nullable in Hon.
    destruct (e_workshop_id e) as [wid|]; [|discriminate].
    apply Z.eqb_eq in Hon.
    now rewrite (find_eq_some w_id wid _ w Hkw Hw Hon).
  - destruct (e_workshop_id e) as [wid|]; [|reflexivity].
    unfold eq_nullable in Hw.
    now rewrite (find_none_filter _ _ Hw).
Qed.

Lemma NoDup_map_key {A K : Type} (f : A -> K) (l : list A) :
  List.NoDup (map f l) -> List.NoDup l.
Proof.
  induction l as [|x l IH]; simpl; intros Hnd; constructor;
    inversion Hnd as [|? ? Hnotin Hnd']; subst.
  - intros Hin. apply Hnotin. now apply in_map.
  - now apply IH.
Qed.

(** X21.  With unique equipment and workshop ids, Q8 has exactly one row
    for every equipment unit: its id, name and the name of its workshop,
    the number of its IN_PROGRESS logs as active_ops, and as total_logs
    the number of its logs, or 1 when it has none.  No row stands before
    a row with more active_ops. *)
Theorem Q8_one_row_per_unit (db : Db) :
  unique_ids (map e_id (equipment db)) = true ->
  unique_ids (map w_id (workshops db)) = true ->
  Permutation (Q8 db)
    (map (fun e =>
            {| q8_id := e_id e;
               q8_equipment := e_name e;
               q8_workshop := option_map w_name (workshop_of_equipment db e);
               q8_active_ops := Z.of_nat (length (active_logs_of db (e_id e)));
               q8_total_logs := Z.max 1 (Z.of_nat (length (logs_of db (e_id e)))) |})
         (equipment db))
  /\ forall x y, precedes x y (Q8 db) -> q8_active_ops y <= q8_active_ops x.
Proof.
  intros Hke Hkw. apply unique_ids_NoDup in Hke, Hkw. split.
  - apply Permutation.NoDup_Permutation.
    + apply (Permutation_NoDup (order_by_perm _ _)).
      apply (NoDup_map_key (fun row => (q8_id row, q8_equipment row, q8_workshop row))).
      rewrite map_map.
      rewrite (map_ext _ fst) by (now intros [[[i n] w] g]).
      apply group_by_keys. exact Q8_key_eqb_eq.
    + apply (NoDup_map_key q8_id). rewrite map_map. exact Hke.
    + intros row. rewrite in_map_iff. split.
      * intros Hrow. pose proof Hrow as Hrow'. apply Q8_rows in Hrow'.
        destruct Hrow' as (k & Hne & Hsel).
        destruct (Q8_group db k) as [|[[e w] ol] g] eqn:Hg; [contradiction|].
        assert (Hj : In (e, w, ol) (Q8_group db k)) by (rewrite Hg; now left).
        rewrite <- Hg in Hsel. clear Hg Hne.
        unfold Q8_group in Hj. apply filter_In in Hj. destruct Hj as [Hj Hk].
        apply Q8_key_eqb_eq in Hk.
        destruct (Q8_from_key db e w ol Hkw Hj) as [He Hkey].
        rewrite Hk in Hkey.
        destruct (Q8_row_of_equipment db e Hke Hkw He)
          as (row' & Hrow' & Hkey' & Hactive & Htotal).
        assert (Heq : row' = row).
        { apply Q8_rows in Hrow'. destruct Hrow' as (k' & _ & Hsel').
          rewrite Hsel' in Hkey'. destruct k' as [[i n] wn]. simpl in Hkey'.
          rewrite Hkey', <- Hkey in Hsel'. congruence. }
        subst row'. exists e. split; [|exact He].
        unfold equipment_key in Hkey'. injection Hkey' as Hi Hn Hw.
        destruct row. simpl in *. congruence.
      * intros (e & <- & He).
        destruct (Q8_row_of_equipment db e Hke Hkw He)
          as (row & Hrow & Hkey & Hactive & Htotal).
        unfold equipment_key in Hkey. injection Hkey as Hi Hn Hw.
        destruct row. simpl in *. subst. exact Hrow.
  - intros x y Hprec.
    apply (precedes_order_by (fun a b => not_after (Q8_compare a b))) in Hprec.
    + unfold Q8_compare, lex in Hprec.
      destruct (Z.compare_spec (q8_active_ops y) (q8_active_ops x));
        try discriminate; lia.
    + exact Q8_compare_total.
    + assert (Hl : lawful Q8_compare).
      { unfold Q8_compare.
        apply (lawful_lex (fun a b => q8_active_ops b ?= q8_active_ops a)
                          (fun a b => String.compare (q8_equipment a) (q8_equipment b))).
        - apply (lawful_flip (fun a b => q8_active_ops a ?= q8_active_ops b)).
          apply lawful_Z.
        - apply lawful_string. }
      intros a b c. now apply not_after_trans.
Qed.

(** *** The descending sorts of Q13, Q15 and Q16 *)

Lemma desc_nulls_first_total (a b : option Q) :
  desc_nulls_first a b = true \/ desc_nulls_first b a = true.
Proof.
  destruct a as [x|], b as [y|]; simpl; auto.
  rewrite !Qle_bool_iff. destruct (Qlt_le_dec x y) as [Hlt|Hle]; auto.
  right. now apply Qlt_le_weak.
Qed.

Lemma desc_nulls_first_trans (a b c : option Q) :
  desc_nulls_first a b = true -> desc_nulls_first b c = true ->
  desc_nulls_first a c = true.
Proof.
  destruct a as [x|], b as [y|], c as [z|]; simpl; auto; try discriminate.
  rewrite !Qle_bool_iff. intros Hyx Hzy. eapply Qle_trans; eauto.
Qed.

Lemma precedes_desc {A : Type} (key : A -> option Q) (l : list A) (x y : A) :
  precedes x y (order_by (fun a b => desc_nulls_first (key a) (key b)) l) ->
  desc_nulls_first (key x) (key y) = true.
Proof.
  apply (precedes_order_by (fun a b => desc_nulls_first (key a) (key b))).
  - intros a b. apply desc_nulls_first_total.
  - intros a b c. apply desc_nulls_first_trans.
Qed.

(** X22.  Q15 has at most one row per order id, every row belongs to an
    order whose status is PLANNED or IN_PROGRESS, and the rows stand by
    descending cost with the rows of NULL cost (orders whose steps are
    all DONE) first. *)
Theorem Q15_one_row_per_order (db : Db) :
  List.NoDup (map q15_order_id (Q15 db))
  /\ (forall row, In row (Q15 db) ->
        exists o, In o (orders db) /\ o_id o = q15_order_id row
                  /\ (o_status o = "PLANNED" \/ o_status o = "IN_PROGRESS"))
  /\ (forall x y, precedes x y (Q15 db) ->
        (q15_nzp_cost_rub y = None -> q15_nzp_cost_rub x = None)
        /\ (forall cx cy, q15_nzp_cost_rub x = Some cx ->
                          q15_nzp_cost_rub y = Some cy -> (cy <= cx)%Q)).
Proof.
  split; [|split].
  - apply (Permutation_NoDup (Permutation_map _ (order_by_perm _ _))).
    unfold Q15_remaining. rewrite !map_map.
    rewrite (map_ext _ fst) by (now intros [k g]).
    apply group_by_keys. intros a b. apply Z.eqb_eq.
  - apply Q15_reports_in_flight_orders_only.
  - intros x y Hprec. unfold Q15 in Hprec. apply precedes_desc in Hprec.
    destruct (q15_nzp_cost_rub x) as [cx|], (q15_nzp_cost_rub y) as [cy|];
      simpl in Hprec; try discriminate; split; try congruence.
    intros ? ? [= <-] [= <-]. now apply Qle_bool_iff.
Qed.


(** *** Q10 *)

Lemma Q10_group_sum (db : Db) (k : option string) (F : RouteStep -> Z) :
  List.NoDup (map w_id (workshops db)) ->
  sumZ (fun j : Q10Joined => F (fst j)) (Q10_group db k)
  = sumZ (fun rs => if eqb_option_string (workshop_of db rs) k then F rs else 0)
         (route_steps db).
Proof.
  intros Hkw. unfold Q10_group. rewrite sumZ_filter. unfold Q10_from, Q10Joined.
  rewrite sumZ_left_join. apply sumZ_ext. intros rs _.
  unfold workshop_of, eq_nullable, Q10_key.
  destruct (rs_workshop_id rs) as [wid|]; simpl.
  - rewrite (filter_unique w_id wid) by exact Hkw.
    destruct (List.find _ _); simpl; [|reflexivity]. now rewrite Z.add_0_r.
  - now rewrite filter_false.
Qed.

Lemma Q10_rows (db : Db) (row : Q10Row) :
  In row (Q10 db) <->
  exists k, Q10_group db k <> [] /\ row = Q10_select (k, Q10_group db k).
Proof.
  unfold Q10. rewrite order_by_In, in_map_iff. split.
  - intros ([k g] & <- & Hg).
    apply (group_by_In eqb_option_string Q10_key eqb_option_string_eq) in Hg.
    destruct Hg as [Hne ->]. now exists k.
  - intros (k & Hne & ->). exists (k, Q10_group db k). split; [reflexivity|].
    now apply (group_by_In eqb_option_string Q10_key eqb_option_string_eq).
Qed.

Lemma Q10_group_nonempty (db : Db) (k : option string) :
  List.NoDup (map w_id (workshops db)) ->
  Q10_group db k <> [] <->
  exists rs, In rs (route_steps db) /\ workshop_of db rs = k.
Proof.
  intros Hkw.
  assert (Hnil : Q10_group db k = []
                 <-> List.filter (fun rs => eqb_option_string (workshop_of db rs) k)
                                 (route_steps db) = []).
  { rewrite filter_nil_sumZ, <- (Q10_group_sum db k (fun _ => 1) Hkw).
    rewrite <- length_sumZ. destruct (Q10_group db k); simpl; split;
      intros; try reflexivity; try lia; discriminate. }
  rewrite Hnil. split.
  - intros Hne.
    destruct (List.filter _ (route_steps db)) as [|rs l] eqn:Hf; [contradiction|].
    assert (Hin : In rs (List.filter
                     (fun rs => eqb_option_string (workshop_of db rs) k)
                     (route_steps db))) by (rewrite Hf; now left).
    apply filter_In in Hin. destruct Hin as [Hin Hk].
    apply eqb_option_string_eq in Hk. eauto.
  - intros (rs & Hin & Hk) Hf.
    assert (Hin' : In rs (List.filter
                      (fun rs => eqb_option_string (workshop_of db rs) k)
                      (route_steps db))).
    { apply filter_In. split; [exact Hin|]. now apply eqb_option_string_eq. }
    now rewrite Hf in Hin'.
Qed.

Lemma Q10_group_count (db : Db) (k : option string) (st : string) :
  List.NoDup (map w_id (workshops db)) ->
  count_filter (Q10_status st) (Q10_group db k)
  = Z.of_nat (length (List.filter
       (fun rs => eqb_option_string (workshop_of db rs) k
                  && String.eqb (rs_status rs) st)
       (route_steps db))).
Proof.
  intros Hkw. unfold count_filter, Q10_status. rewrite !length_filter_sumZ.
  rewrite (Q10_group_sum db k
             (fun rs => if String.eqb (rs_status rs) st then 1 else 0) Hkw).
  apply sumZ_ext. intros rs _. now destruct (eqb_option_string _ _).
Qed.

Lemma asc_nulls_last_lawful {A : Type} (f : A -> option string) :
  lawful (fun a b => asc_nulls_last (f a) (f b)).
Proof.
  destruct (lawful_string (fun s : string => s)) as (Hanti & Heq & Hlt).
  split; [|split].
  - intros a b. destruct (f a), (f b); simpl; auto.
  - intros a b c. destruct (f a), (f b), (f c); simpl; try discriminate; eauto.
  - intros a b c. destruct (f a), (f b), (f c); simpl; try discriminate; eauto.
Qed.

Lemma precedes_NoDup {A K : Type} (key : A -> K) (l : list A) (x y : A) :
  List.NoDup (map key l) -> precedes x y l -> key x <> key y.
Proof.
  intros Hnd (l1 & l2 & l3 & ->). rewrite map_app in Hnd.
  apply NoDup_app_remove_l in Hnd. simpl in Hnd.
  inversion Hnd as [|? ? Hnotin _]; subst. intros Heq. apply Hnotin.
  rewrite Heq, map_app. apply in_or_app. right. now left.
Qed.

(** X24.  With unique workshop ids, Q10 has a row for a workshop name
    exactly when some route step lies in that workshop (the NULL name
    standing for the steps without one), at most one row per name; its
    three counts are the numbers of PLANNED, IN_PROGRESS and DONE steps
    of that name; the rows stand by ascending name, the row of the NULL
    name last. *)
Theorem Q10_counts_steps_per_workshop (db : Db) :
  unique_ids (map w_id (workshops db)) = true ->
  (forall k, (exists row, In row (Q10 db) /\ q10_workshop row = k)
             <-> exists rs, In rs (route_steps db) /\ workshop_of db rs = k)
  /\ (forall row, In row (Q10 db) ->
        let steps st :=
          Z.of_nat (length (List.filter
            (fun rs => eqb_option_string (workshop_of db rs) (q10_workshop row)
                       && String.eqb (rs_status rs) st)
            (route_steps db))) in
        q10_planned_steps row = steps "PLANNED"
        /\ q10_in_progress_steps row = steps "IN_PROGRESS"
        /\ q10_done_steps row = steps "DONE")
  /\ List.NoDup (map q10_workshop (Q10 db))
  /\ (forall x y, precedes x y (Q10 db) ->
        exists a, q10_workshop x = Some a
                  /\ forall b, q10_workshop y = Some b -> String.compare a b = Lt).
Proof.
  intros Hkw. apply unique_ids_NoDup in Hkw.
  assert (Hnd : List.NoDup (map q10_workshop (Q10 db))).
  { apply (Permutation_NoDup (Permutation_map _ (order_by_perm _ _))).
    rewrite map_map. rewrite (map_ext _ fst) by reflexivity.
    apply group_by_keys. exact eqb_option_string_eq. }
  split; [|split; [|split]].
  - intros k. rewrite <- (Q10_group_nonempty db k Hkw). split.
    + intros (row & Hrow & Hk). apply Q10_rows in Hrow.
      destruct Hrow as (k' & Hne & ->). simpl in Hk. now subst.
    + intros Hne. exists (Q10_select (k, Q10_group db k)). split; [|reflexivity].
      apply Q10_rows. eauto.
  - intros row Hrow. apply Q10_rows in Hrow. destruct Hrow as (k & _ & ->).
    simpl. repeat split; now apply Q10_group_count.
  - exact Hnd.
  - intros x y Hprec.
    pose proof (precedes_NoDup q10_workshop _ x y Hnd Hprec) as Hne.
    apply (precedes_order_by (fun a b => not_after (Q10_compare a b))) in Hprec.
    + unfold Q10_compare, asc_nulls_last in Hprec.
      destruct (q10_workshop x) as [a|], (q10_workshop y) as [b|];
        try discriminate; try congruence.
      * exists a. split; [reflexivity|]. intros ? [= <-].
        destruct (String.compare a b) eqn:Hab; try discriminate; [|reflexivity].
        apply String.compare_eq_iff in Hab. congruence.
      * exists a. split; [reflexivity|]. discriminate.
    + intros a b. apply not_after_total. apply (asc_nulls_last_lawful q10_workshop).
    + intros a b c. apply not_after_trans. apply (asc_nulls_last_lawful q10_workshop).
Qed.

(** *** Q7 and Q14 *)

Lemma desc_nulls_first_Z_lawful {A : Type} (f : A -> option Z) :
  lawful (fun a b => desc_nulls_first_Z (f a) (f b)).
Proof.
  split; [|split].
  - intros a b. destruct (f a), (f b); simpl; auto. apply Z.compare_antisym.
  - intros a b c. destruct (f a), (f b), (f c); simpl; try discriminate; auto.
    intros Hab. apply Z.compare_eq in Hab. now subst.
  - intros a b c. destruct (f a), (f b), (f c); simpl; try discriminate; auto.
    rewrite !Z.compare_lt_iff. lia.
Qed.

Lemma asc_nulls_last_Z_lawful {A : Type} (f : A -> option Z) :
  lawful (fun a b => asc_nulls_last_Z (f a) (f b)).
Proof.
  split; [|split].
  - intros a b. destruct (f a), (f b); simpl; auto. apply Z.compare_antisym.
  - intros a b c. destruct (f a), (f b), (f c); simpl; try discriminate; auto.
    intros Hab. apply Z.compare_eq in Hab. now subst.
  - intros a b c. destruct (f a), (f b), (f c); simpl; try discriminate; auto.
    rewrite !Z.compare_lt_iff. lia.
Qed.

Lemma due_where_spec (today : Z) (j : DueJoined) :
  due_where today j = true <->
  (exists d, do_due_date (fst j) = Some d /\ d < today)
  /\ do_status (fst j) <> "DONE" /\ do_status (fst j) <> "CANCELED".
Proof.
  unfold due_where. destruct (do_due_date (fst j)) as [d|].
  - rewrite andb_true_iff, negb_true_iff, orb_false_iff, Z.ltb_lt,
      !String.eqb_neq.
    split.
    + intros [Hlt Hst]. split; [eauto|exact Hst].
    + intros [(d' & [= <-] & Hlt) Hst]. auto.
  - split; [discriminate|]. intros [(d & Hd & _) _]. discriminate.
Qed.

Lemma due_rows (db : Ledger) (today : Z) (j : DueJoined) :
  In j (List.filter (due_where today) (due_from db)) <->
  In (fst j) (due_orders db) /\ In (snd j) (customers db)
  /\ do_customer_id (fst j) = Some (c_id (snd j))
  /\ (exists d, do_due_date (fst j) = Some d /\ d < today)
  /\ do_status (fst j) <> "DONE" /\ do_status (fst j) <> "CANCELED".
Proof.
  destruct j as [o c]. rewrite filter_In, due_where_spec.
  unfold due_from, DueJoined in *.
  rewrite in_inner_join. simpl.
  assert (Hon : eq_nullable (c_id c) (do_customer_id o) = true
                <-> do_customer_id o = Some (c_id c)).
  { unfold eq_nullable. destruct (do_customer_id o) as [y|].
    - rewrite Z.eqb_eq. split; [now intros ->|now intros [= ->]].
    - split; discriminate. }
  rewrite Hon. tauto.
Qed.

(** X25.  Q14 reports exactly the orders that have a customer, a due date
    before today and a status other than DONE and CANCELED; every
    days_overdue is present and at least 1.  Q7 reports the same rows
    without the priority.  The rows of both stand by descending
    days_overdue, and in Q14 rows of equal days_overdue stand by
    ascending priority, NULL priorities last. *)
Theorem overdue_orders_report (db : Ledger) (today : Z) :
  (forall row, In row (Q14 db today) <->
     exists o c,
       In o (due_orders db) /\ In c (customers db)
       /\ do_customer_id o = Some (c_id c)
       /\ (exists d, do_due_date o = Some d /\ d < today)
       /\ do_status o <> "DONE" /\ do_status o <> "CANCELED"
       /\ row = Q14_select today (o, c))
  /\ (forall row, In row (Q14 db today) ->
        exists n, q14_days_overdue row = Some n /\ 1 <= n)
  /\ Permutation (map Q14_as_Q7 (Q14 db today)) (Q7 db today)
  /\ (forall x y, precedes x y (Q7 db today) ->
        forall nx ny, q7_days_overdue x = Some nx -> q7_days_overdue y = Some ny ->
                      ny <= nx)
  /\ (forall x y, precedes x y (Q14 db today) ->
        forall nx ny, q14_days_overdue x = Some nx -> q14_days_overdue y = Some ny ->
          ny <= nx
          /\ (nx = ny ->
                (q14_priority x = None -> q14_priority y = None)
                /\ forall px py, q14_priority x = Some px ->
                                 q14_priority y = Some py -> px <= py)).
Proof.
  assert (Hrows : forall row, In row (Q14 db today) <->
     exists o c,
       In o (due_orders db) /\ In c (customers db)
       /\ do_customer_id o = Some (c_id c)
       /\ (exists d, do_due_date o = Some d /\ d < today)
       /\ do_status o <> "DONE" /\ do_status o <> "CANCELED"
       /\ row = Q14_select today (o, c)).
  { intros row. unfold Q14. rewrite order_by_In, in_map_iff. split.
    - intros ([o c] & <- & Hj). apply due_rows in Hj. simpl in Hj.
      exists o, c. tauto.
    - intros (o & c & Ho & Hc & Hcust & Hdue & Hd & Hcan & ->).
      exists (o, c). split; [reflexivity|]. apply due_rows. simpl. tauto. }
  split; [exact Hrows|]. split; [|split; [|split]].
  - intros row Hrow. apply Hrows in Hrow.
    destruct Hrow as (o & c & _ & _ & _ & (d & Hd & Hlt) & _ & _ & ->).
    simpl. rewrite Hd. simpl. exists (today - d). split; [reflexivity|lia].
  - unfold Q14, Q7.
    etransitivity;
      [apply Permutation_map; symmetry; apply order_by_perm|].
    rewrite map_map.
    rewrite (map_ext _ (Q7_select today)) by reflexivity.
    apply order_by_perm.
  - intros x y Hprec nx ny Hx Hy.
    apply (precedes_order_by (fun a b => not_after (Q7_compare a b))) in Hprec.
    + unfold Q7_compare in Hprec. rewrite Hx, Hy in Hprec. simpl in Hprec.
      destruct (Z.compare_spec ny nx); try discriminate; lia.
    + intros a b. apply not_after_total.
      apply (desc_nulls_first_Z_lawful q7_days_overdue).
    + intros a b c. apply not_after_trans.
      apply (desc_nulls_first_Z_lawful q7_days_overdue).
  - intros x y Hprec nx ny Hx Hy.
    assert (Hl : lawful Q14_compare).
    { unfold Q14_compare.
      apply (lawful_lex
               (fun a b => desc_nulls_first_Z (q14_days_overdue a) (q14_days_overdue b))
               (fun a b => asc_nulls_last_Z (q14_priority a) (q14_priority b))).
      - apply (desc_nulls_first_Z_lawful q14_days_overdue).
      - apply (asc_nulls_last_Z_lawful q14_priority). }
    apply (precedes_order_by (fun a b => not_after (Q14_compare a b))) in Hprec.
    + unfold Q14_compare, lex in Hprec. rewrite Hx, Hy in Hprec. simpl in Hprec.
      destruct (Z.compare_spec ny nx) as [Heq|Hlt|Hgt]; try discriminate;
        (split; [lia|]); [|intros; lia].
      intros _.
      destruct (q14_priority x) as [px|], (q14_priority y) as [py|];
        simpl in Hprec; try discriminate; split; try congruence.
      intros ? ? [= <-] [= <-].
      destruct (Z.compare_spec px py); try discriminate; lia.
    + intros a b. now apply not_after_total.
    + intros a b c. now apply not_after_trans.
Qed.

(** *** Q11 *)

Lemma Q11_group_lines (items : list ItemLine) (products : list Product)
    (name : string) :
  List.NoDup (map p_id products) ->
  map fst (List.filter (fun j => String.eqb (Q11_key j) name)
                       (Q11_from items products))
  = lines_of items products name.
Proof.
  intros Hkp. unfold Q11_from, inner_join.
  induction items as [|oi items IH]; [reflexivity|].
  cbn [flat_map]. rewrite List.filter_app, map_app.
  unfold lines_of. cbn [List.filter].
  rewrite (filter_unique p_id (il_product_id oi)) by exact Hkp.
  destruct (List.find _ products) as [p|]; [|exact IH].
  cbn [map List.filter]. unfold Q11_key at 1. cbn [snd fst].
  destruct (String.eqb (p_name p) name); [|exact IH].
  cbn [map fst app]. f_equal. exact IH.
Qed.

Lemma distinct_length {K : Type} (eqb : K -> K -> bool) (l : list K) :
  (length (distinct eqb l) <= length l)%nat.
Proof.
  induction l as [|k l IH]; simpl; [lia|].
  pose proof (List.filter_length_le (fun k' => negb (eqb k' k)) (distinct eqb l)).
  lia.
Qed.

Lemma sumZ_fst {A B : Type} (f : A -> Z) (l : list (A * B)) :
  sumZ (fun j => f (fst j)) l = sumZ f (map fst l).
Proof. now rewrite sumZ_map. Qed.

(** X26.  With unique product ids, Q11 has a row for a product name
    exactly when some order line orders a product of that name, at most
    one row per name, products of the same name being merged.  Its
    total_qty is the sum of the quantities of these lines, orders_cnt is
    the number of different orders among them, at least 1 and at most
    the number of lines, and no row stands before a row with a larger
    total_qty. *)
Theorem Q11_totals_per_product_name (items : list ItemLine)
    (products : list Product) :
  unique_ids (map p_id products) = true ->
  (forall name, (exists row, In row (Q11 items products) /\ q11_product row = name)
                <-> lines_of items products name <> [])
  /\ (forall row, In row (Q11 items products) ->
        let lines := lines_of items products (q11_product row) in
        q11_total_qty row = sumZ il_quantity lines
        /\ (exists oids,
              List.NoDup oids
              /\ (forall oid, In oid oids <->
                              exists oi, In oi lines /\ il_order_id oi = oid)
              /\ q11_orders_cnt row = Z.of_nat (length oids))
        /\ 1 <= q11_orders_cnt row <= Z.of_nat (length lines))
  /\ List.NoDup (map q11_product (Q11 items products))
  /\ (forall x y, precedes x y (Q11 items products) ->
        q11_total_qty y <= q11_total_qty x).
Proof.
  intros Hkp. apply unique_ids_NoDup in Hkp.
  assert (Hrows : forall row, In row (Q11 items products) <->
            exists name,
              lines_of items products name <> []
              /\ row = Q11_select
                         (name, List.filter (fun j => String.eqb (Q11_key j) name)
                                            (Q11_from items products))).
  { intros row. unfold Q11. rewrite order_by_In, in_map_iff. split.
    - intros ([k g] & <- & Hg).
      apply (group_by_In String.eqb Q11_key String.eqb_eq) in Hg.
      destruct Hg as [Hne ->]. exists k. split; [|reflexivity].
      rewrite <- (Q11_group_lines items products k Hkp).
      intros Hnil. apply map_eq_nil in Hnil. contradiction.
    - intros (k & Hne & ->). eexists (k, _). split; [reflexivity|].
      apply (group_by_In String.eqb Q11_key String.eqb_eq). split; [|reflexivity].
      intros Hnil. apply Hne.
      rewrite <- (Q11_group_lines items products k Hkp). now rewrite Hnil. }
  split; [|split; [|split]].
  - intros name. split.
    + intros (row & Hrow & Hname). apply Hrows in Hrow.
      destruct Hrow as (k & Hne & ->). simpl in Hname. now subst.
    + intros Hne. eexists. split; [apply Hrows; eauto|reflexivity].
  - intros row Hrow. apply Hrows in Hrow. destruct Hrow as (k & Hne & ->).
    cbn [q11_product q11_total_qty q11_orders_cnt Q11_select fst snd].
    pose proof (Q11_group_lines items products k Hkp) as Hlines.
    split; [|split].
    + now rewrite sumZ_fst, Hlines.
    + unfold count_distinct.
      rewrite <- (map_map fst il_order_id), Hlines.
      exists (distinct Z.eqb (map il_order_id (lines_of items products k))).
      split; [apply distinct_NoDup; apply Z.eqb_eq|]. split; [|reflexivity].
      intros oid. rewrite (distinct_In Z.eqb Z.eqb_eq), in_map_iff.
      split; intros (oi & H1 & H2); eauto.
    + unfold count_distinct.
      rewrite <- (map_map fst il_order_id), Hlines.
      pose proof (distinct_length Z.eqb (map il_order_id (lines_of items products k)))
        as Hle.
      rewrite length_map in Hle.
      destruct (lines_of items products k) as [|oi l]; [contradiction|].
      simpl in *. lia.
  - apply (Permutation_NoDup (Permutation_map _ (order_by_perm _ _))).
    rewrite map_map. rewrite (map_ext _ fst) by reflexivity.
    apply group_by_keys. exact String.eqb_eq.
  - intros x y Hprec.
    apply (precedes_order_by (fun a b => q11_total_qty b <=? q11_total_qty a))
      in Hprec.
    + now apply Z.leb_le.
    + intros a b. rewrite !Z.leb_le. lia.
    + intros a b c. rewrite !Z.leb_le. lia.
Qed.

End QueryFacts.

(** ** Facts about sessions, the list of users and the deletion of orders *)

Module AccountsFacts.
Import Sql Js Web Effects Ordering Accounts.
Import SqlFacts WebFacts EffectsFacts JsFacts HandlerFacts OrderingFacts.

Section Answers.
Context `{Platform} `{Credentials}.


Lemma truthy_prepared (v : option JVal) (x : JVal) :
  if_truthy v = Some x -> exists text, prepareValue x = Some text.
Proof.
  unfold if_truthy. destruct (truthy v) eqn:Ht; [|discriminate].
  intros ->. destruct x as [|[|]| | |]; simpl in *; eauto; discriminate.
Qed.

Lemma login_answers (req : Request) (s : State) :
  fst (answer POST_login req s) = WrongLoginOrPassword
  \/ (exists c m, fst (answer POST_login req s) = Plain (respond c (JError m))
                  /\ (c = 400 \/ c = 500))
  \/ exists u name pw,
       In u (users s)
       /\ option_bind _ _ prepareValue (body req !! "username") = Some name
       /\ u_username u = name
       /\ body req !! "password" = Some (JStr pw)
       /\ bcrypt_compare pw (u_password_hash u) = true
       /\ fst (answer POST_login req s)
          = Session (generateToken u) (u_username u) (u_role u).
Proof.
  unfold answer, endpoint, login_handler, try_catch. simpl.
  destruct (if_truthy (body req !! "username")) as [username|] eqn:Hu;
    [|simpl; right; left; eauto].
  destruct (if_truthy (body req !! "password")) as [password|] eqn:Hp;
    [|simpl; right; left; eauto].
  destruct (truthy_prepared _ _ Hu) as [name Hname].
  unfold with_client, bind, finally, log, select_user_by_name, ret. simpl.
  rewrite Hname.
  destruct (List.filter (fun u => String.eqb (u_username u) name) (users s))
    as [|u l] eqn:Hf; simpl; [now left|].
  assert (Hin : In u (List.filter (fun u => String.eqb (u_username u) name) (users s)))
    by (rewrite Hf; now left).
  apply filter_In in Hin. destruct Hin as [Hin Hn]. apply String.eqb_eq in Hn.
  unfold if_truthy in Hu, Hp.
  destruct (truthy (body req !! "username")); [|discriminate].
  destruct (truthy (body req !! "password")); [|discriminate].
  unfold compare_password.
  destruct password as [| | |pw|];
    try (simpl; right; left; eauto; fail).
  unfold ret. simpl.
  destruct (bcrypt_compare pw (u_password_hash u)) eqn:Hc; simpl; [|now left].
  right. right. exists u, name, pw.
  rewrite Hu, Hp. simpl. repeat split; assumption || reflexivity.
Qed.

(** X14.  POST /login changes no table.  Its answer is the one 401 answer
    for a wrong login or password, an error 400 or 500, or a session;
    a session is granted only for a stored user whose username is the
    one of the request and whose stored hash matches the password, and
    it carries the token signed for that user's id, username and role. *)
Theorem login_grants_session_on_match (req : Request) (s : State) :
  let out := answer POST_login req s in
  (users (snd out) = users s /\ orders (snd out) = orders s
   /\ users_id_seq (snd out) = users_id_seq s
   /\ order_stats_mv (snd out) = order_stats_mv s)
  /\ (fst out = WrongLoginOrPassword
      \/ (exists c m, fst out = Plain (respond c (JError m)) /\ (c = 400 \/ c = 500))
      \/ exists u name pw,
           In u (users s)
           /\ option_bind _ _ prepareValue (body req !! "username") = Some name
           /\ u_username u = name
           /\ body req !! "password" = Some (JStr pw)
           /\ bcrypt_compare pw (u_password_hash u) = true
           /\ fst out = Session (generateToken u) (u_username u) (u_role u)).
Proof.
  split; [|apply login_answers].
  unfold answer, endpoint, login_handler, try_catch. simpl.
  destruct (if_truthy (body req !! "username")) as [username|];
    [|simpl; repeat split].
  destruct (if_truthy (body req !! "password")) as [password|];
    [|simpl; repeat split].
  unfold with_client, bind, finally, log, select_user_by_name, ret. simpl.
  destruct (match prepareValue username with
            | Some name => List.filter (fun u => String.eqb (u_username u) name) (users s)
            | None => []
            end) as [|u l]; simpl; [repeat split|].
  unfold compare_password.
  destruct password as [| | |pw|]; try (simpl; repeat split; fail).
  unfold ret. simpl.
  destruct (bcrypt_compare pw (u_password_hash u)); simpl; repeat split.
Qed.



(** X16.  The token of a session, sent as a Bearer token, passes
    [authMiddleware] with the id, username and role of the user who
    logged in, when [jwt.verify] returns what [jwt.sign] has signed for
    the stored users and the token has no space: with it an ADMIN reads
    GET /stats/mv and any other role gets 403 there. *)
Theorem session_token_authenticates (req req' : Request) (s : State)
    (token username role : string) :
  (forall u, In u (users s) ->
     jwt_verify (generateToken u)
     = Some {| pr_id := u_id u; pr_username := u_username u; pr_role := u_role u |}) ->
  fst (answer POST_login req s) = Session token username role ->
  has_space token = false -> token <> "" ->
  exists u,
    In u (users s) /\ u_username u = username /\ u_role u = role
    /\ authMiddleware (with_token req' token)
       = inr (with_user (with_token req' token)
                {| pr_id := u_id u; pr_username := username; pr_role := role |})
    /\ (role = "ADMIN" ->
        forall s', fst (serve GET_stats_mv (with_token req' token) s')
                   = respond 200 (JMv (order_stats_mv s')))
    /\ (role <> "ADMIN" ->
        forall s', serve GET_stats_mv (with_token req' token) s'
                   = (respond 403 (JError AdminOnly), s')).
Proof.
  intros Hverify Hsession Hspace Htoken.
  destruct (login_answers req s) as [Hw|[Herr|Hok]].
  - rewrite Hw in Hsession. discriminate.
  - destruct Herr as (c & m & Herr & _). rewrite Herr in Hsession. discriminate.
  - destruct Hok as (u & name & pw & Hin & _ & Hname & _ & _ & Hs).
    rewrite Hs in Hsession. injection Hsession as Ht Hn Hr.
    exists u. split; [exact Hin|]. split; [exact Hn|]. split; [exact Hr|].
    assert (Hauth : authMiddleware (with_token req' token)
                    = inr (with_user (with_token req' token)
                             {| pr_id := u_id u; pr_username := username;
                                pr_role := role |})).
    { apply (bearer_accepted (with_token req' token) token []).
      - reflexivity.
      - repeat constructor. exact Hspace.
      - exact Htoken.
      - rewrite <- Ht, <- Hn, <- Hr. now apply Hverify. }
    split; [exact Hauth|].
    split.
    + intros Hrole s'.
      assert (Hrun : app GET_stats_mv (with_token req' token) s'
                     = stats_mv_handler
                         (with_user (with_token req' token)
                            {| pr_id := u_id u; pr_username := username;
                               pr_role := role |}) s').
      { unfold app. apply admin_route; [exact Hauth|exact Hrole]. }
      unfold serve. rewrite Hrun. reflexivity.
    + intros Hrole s'. unfold serve, app. simpl chain. rewrite Hauth.
      rewrite (adminOnly_other _
                 {| pr_id := u_id u; pr_username := username; pr_role := role |}
                 Hrole).
      reflexivity.
Qed.

Lemma user_created (req : Request) (s : State) (p : Principal)
    (name pw : string) :
  authMiddleware req = inr (with_user req p) ->
  pr_role p = "ADMIN" ->
  body req !! "username" = Some (JStr name) -> name <> "" ->
  body req !! "password" = Some (JStr pw) -> pw <> "" ->
  existsb (fun u => String.eqb (u_username u) name) (users s) = false ->
  let role := if strict_eq_string (body req !! "role") "ADMIN"
              then "ADMIN" else "MANAGER" in
  let row := {| u_id := users_id_seq s; u_username := name;
                u_password_hash := bcrypt_hash pw;
                u_full_name := or_null (body req !! "full_name");
                u_role := role; u_created_at := now s |} in
  serve POST_users req s
  = (respond 201 (JUser (view_of_user row)),
     after s [Connect;
              Query (InsertUser (Some name) (bcrypt_hash pw)
                       (or_null (body req !! "full_name")) role);
              Release]
       (users s ++ [row])%list (orders s) (users_id_seq s + 1)).
Proof.
  intros Hauth Hrole Hu Hname Hp Hpw Hfree role row.
  assert (Hrun : app POST_users req s = post_users_handler (with_user req p) s).
  { unfold app. apply (admin_route _ req p s Hauth Hrole). }
  remember (app POST_users req s) as out eqn:Hout.
  unfold post_users_handler, try_catch, if_truthy in Hrun. simpl in Hrun.
  rewrite Hu, Hp in Hrun. simpl in Hrun.
  apply String.eqb_neq in Hname, Hpw. rewrite Hname, Hpw in Hrun. simpl in Hrun.
  unfold insert_user, with_client, bind, finally, log, ret in Hrun.
  simpl in Hrun. rewrite Hfree in Hrun. simpl in Hrun.
  subst out. rewrite (serve_ok _ _ _ _ _ Hrun). f_equal.
  unfold after, emit. simpl. now rewrite <- !app_assoc.
Qed.

(** X17.  A user whom an administrator creates with POST /users under a
    free username can log in with the same username and password, when
    [bcrypt.compare] accepts a password against its own hash: the
    session carries the token signed for the new id, the username and
    the role ADMIN or MANAGER that the creation stored. *)
Theorem login_after_creation (req login : Request) (s : State) (p : Principal)
    (name pw : string) :
  authMiddleware req = inr (with_user req p) ->
  pr_role p = "ADMIN" ->
  body req !! "username" = Some (JStr name) -> name <> "" ->
  body req !! "password" = Some (JStr pw) -> pw <> "" ->
  ~ In name (map u_username (users s)) ->
  bcrypt_compare pw (bcrypt_hash pw) = true ->
  body login !! "username" = Some (JStr name) ->
  body login !! "password" = Some (JStr pw) ->
  let role := if strict_eq_string (body req !! "role") "ADMIN"
              then "ADMIN" else "MANAGER" in
  code (fst (serve POST_users req s)) = 201
  /\ fst (answer POST_login login (snd (serve POST_users req s)))
     = Session (jwt_sign {| pr_id := users_id_seq s; pr_username := name;
                            pr_role := role |}) name role.
Proof.
  intros Hauth Hrole Hu Hname Hp Hpw Hfree Hhash Hlu Hlp role.
  assert (Hex : existsb (fun u => String.eqb (u_username u) name) (users s) = false).
  { destruct (existsb _ (users s)) eqn:Hb; [|reflexivity].
    apply existsb_exists in Hb. destruct Hb as (x & Hx & Heq).
    apply String.eqb_eq in Heq. destruct Hfree. rewrite <- Heq. now apply in_map. }
  rewrite (user_created req s p name pw Hauth Hrole Hu Hname Hp Hpw Hex).
  split; [reflexivity|]. cbn [fst snd].
  unfold answer, endpoint, login_handler, try_catch, if_truthy.
  rewrite Hlu, Hlp. simpl.
  pose proof Hname as Hname'. pose proof Hpw as Hpw'.
  apply String.eqb_neq in Hname', Hpw'. rewrite Hname', Hpw'. simpl.
  unfold with_client, bind, finally, log, select_user_by_name, ret. simpl.
  rewrite List.filter_app.
  assert (Hnone : List.filter (fun u => String.eqb (u_username u) name) (users s) = []).
  { clear -Hex. induction (users s) as [|x l IH]; simpl in *; [reflexivity|].
    apply orb_false_iff in Hex. destruct Hex as [Hx Hl]. rewrite Hx. now apply IH. }
  rewrite Hnone. simpl. rewrite String.eqb_refl. simpl. rewrite Hhash. reflexivity.
Qed.


(** X19.  DELETE /orders/:id, for every authenticated principal whatever
    the role.  When the store reads the id as n, the orders of id n, and
    only they, are removed; the answer is 200 when there was one, and
    404 with the orders unchanged when there was none.  When the store
    does not read the id the answer is 500 and the orders are unchanged.
    The users are never changed. *)
Theorem order_deletion_outcome (req : Request) (s : State) (p : Principal) :
  authMiddleware req = inr (with_user req p) ->
  let out := answer DELETE_orders_id req s in
  users (snd out) = users s
  /\ (forall n, int_in (params_id req) = Some n ->
        orders (snd out) = List.filter (fun o => negb (ord_id o =? n)) (orders s)
        /\ (In n (map ord_id (orders s)) -> fst out = Plain (respond 200 JSuccess))
        /\ (~ In n (map ord_id (orders s)) ->
            fst out = Plain (respond 404 (JError OrderNotFound))
            /\ orders (snd out) = orders s))
  /\ (int_in (params_id req) = None ->
      fst out = Plain (respond 500 (JError InternalServerError))
      /\ orders (snd out) = orders s).
Proof.
  intros Hauth. unfold answer, endpoint. simpl. rewrite Hauth.
  unfold delete_orders_handler, try_catch, with_client, bind, finally, log,
    delete_order, ret. simpl.
  destruct (int_in (params_id req)) as [n|] eqn:Hn; simpl.
  - assert (Hhit : forall l : list OrderRow,
               map ord_id (List.filter (fun o => ord_id o =? n) l) = []
               <-> ~ In n (map ord_id l)).
    { induction l as [|x l IH]; simpl; [tauto|].
      destruct (Z.eqb_spec (ord_id x) n) as [Heq|Hne]; simpl.
      - split; [discriminate|]. intros Hnot. destruct Hnot. now left.
      - rewrite IH. tauto. }
    assert (Hkeep : forall l : list OrderRow,
               ~ In n (map ord_id l) ->
               List.filter (fun o => negb (ord_id o =? n)) l = l).
    { induction l as [|x l IH]; simpl; [reflexivity|]. intros Hnot.
      destruct (Z.eqb_spec (ord_id x) n) as [Heq|Hne]; simpl; [tauto|].
      f_equal. apply IH. tauto. }
    destruct (map ord_id (List.filter (fun o => ord_id o =? n) (orders s)))
      as [|i l] eqn:Hrows; simpl.
    + apply Hhit in Hrows. split; [reflexivity|]. split; [|discriminate].
      intros m [= <-]. split; [reflexivity|]. split; [tauto|]. auto.
    + assert (Hin : In n (map ord_id (orders s))).
      { destruct (in_dec Z.eq_dec n (map ord_id (orders s))) as [Hin|Hnot];
          [exact Hin|]. apply Hhit in Hnot. congruence. }
      split; [reflexivity|]. split; [|discriminate].
      intros m [= <-]. split; [reflexivity|]. split; [auto|tauto].
  - split; [reflexivity|]. split; [discriminate|]. auto.
Qed.

(** X9.  DELETE /users/:id never removes the account of the principal who
    asks, whatever their role and whatever the id, when the store reads
    the decimal numeral that it is sent as the number it denotes. *)
Theorem requester_keeps_account (req : Request) (s : State) (p : Principal) :
  authMiddleware req = inr (with_user req p) ->
  (forall n, int_in (number_to_string (parseInt (params_id req))) = Some n ->
             parseInt (params_id req) = Some n) ->
  forall u, In u (users s) -> u_id u = pr_id p ->
            In u (users (snd (serve DELETE_users_id req s))).
Proof.
  intros Hauth Hint u Hin Hid.
  unfold serve, app. simpl chain. rewrite Hauth.
  unfold adminOnlyMiddleware. simpl.
  destruct (String.eqb (pr_role p) "ADMIN"); simpl; [|exact Hin].
  unfold delete_users_handler, try_catch. simpl.
  destruct (same_id (parseInt (params_id req)) (pr_id p)) eqn:Hself; simpl;
    [exact Hin|].
  unfold delete_user, with_client, bind, finally, log, ret. simpl.
  destruct (int_in (number_to_string (parseInt (params_id req)))) as [n|] eqn:Hn;
    simpl; [|exact Hin].
  assert (Hkept : In u (List.filter (fun u => negb (u_id u =? n)) (users s))).
  { apply filter_In. split; [exact Hin|].
    rewrite (Hint n eq_refl) in Hself. simpl in Hself.
    rewrite Hid. rewrite Z.eqb_sym. now rewrite Hself. }
  now destruct (map u_id (List.filter (fun u => u_id u =? n) (users s))).
Qed.

End Answers.


End AccountsFacts.

(** ** The statements above on the sample data *)

Module SampleFacts.
Import Sql Schema Analytics Routing Js Web Effects Ordering Reports Accounts.
Import Demo Samples.
Import EffectsFacts HandlerFacts QueryFacts AccountsFacts.

Lemma store_usernames_unique : usernames_unique store.
Proof.
  unfold usernames_unique. simpl.
  repeat constructor; simpl; intuition discriminate.
Qed.

Lemma store_ids_issued : ids_issued store.
Proof.
  split.
  - simpl. repeat constructor; simpl; intuition discriminate.
  - intros u [<-|[<-|[]]]; simpl; lia.
Qed.

Lemma users_table_stays_well_formed_witness :
  usernames_unique store /\ ids_issued store
  /\ usernames_unique
       (serve_all [(POST_users, create_user_request);
                   (DELETE_users_id, delete_manager_request)] store).
Proof.
  split; [exact store_usernames_unique|]. split; [exact store_ids_issued|].
  apply (users_table_stays_well_formed
           [(POST_users, create_user_request);
            (DELETE_users_id, delete_manager_request)] store
           store_usernames_unique store_ids_issued).
Defined.

Lemma unauthenticated_request_rejected_witness :
  authMiddleware anonymous_request = inl (respond 401 (JError AuthorizationRequired))
  /\ serve GET_orders anonymous_request store
     = (respond 401 (JError AuthorizationRequired), store).
Proof.
  assert (Hauth : authMiddleware anonymous_request
                  = inl (respond 401 (JError AuthorizationRequired))) by reflexivity.
  split; [exact Hauth|].
  apply (unauthenticated_request_rejected GET_orders anonymous_request store _ Hauth).
Defined.

Lemma user_creation_refused_early_witness :
  authMiddleware nameless_user_request = inr (with_user nameless_user_request admin)
  /\ if_truthy (body nameless_user_request !! "username") = None
  /\ serve POST_users nameless_user_request store
     = (respond 400 (JError LoginAndPasswordRequired), store).
Proof.
  assert (Hauth : authMiddleware nameless_user_request
                  = inr (with_user nameless_user_request admin)) by reflexivity.
  assert (Hname : if_truthy (body nameless_user_request !! "username") = None)
    by reflexivity.
  split; [exact Hauth|]. split; [exact Hname|].
  destruct (user_creation_refused_early nameless_user_request store admin
              Hauth eq_refl) as [Hrefused _].
  apply Hrefused. now left.
Defined.

Lemma user_creation_outcome_witness :
  authMiddleware create_user_request = inr (with_user create_user_request admin)
  /\ ~ In "anna" (map u_username (users store))
  /\ map u_username (users (snd (serve POST_users create_user_request store)))
     = ["root"; "olga"; "anna"].
Proof.
  assert (Hauth : authMiddleware create_user_request
                  = inr (with_user create_user_request admin)) by reflexivity.
  assert (Hfree : ~ In "anna" (map u_username (users store)))
    by (simpl; intuition discriminate).
  split; [exact Hauth|]. split; [exact Hfree|].
  destruct (user_creation_outcome create_user_request store admin
              (JStr "anna") "anna" "secret" Hauth eq_refl eq_refl eq_refl eq_refl)
    as [_ Hcreated].
  destruct (Hcreated Hfree) as (_ & Husers & _).
  rewrite Husers. reflexivity.
Defined.


Lemma status_update_outcome_witness :
  authMiddleware finish_order_request = inr (with_user finish_order_request manager)
  /\ In 1 (map ord_id (orders store))
  /\ map ord_status (orders (snd (serve PATCH_orders_id_status finish_order_request store)))
     = ["DONE"; "PLANNED"].
Proof.
  assert (Hauth : authMiddleware finish_order_request
                  = inr (with_user finish_order_request manager)) by reflexivity.
  assert (Hin : In 1 (map ord_id (orders store))) by (simpl; auto).
  split; [exact Hauth|]. split; [exact Hin|].
  destruct (status_update_outcome finish_order_request store manager
              (JStr "DONE") "DONE" 1 Hauth eq_refl eq_refl eq_refl)
    as (_ & _ & Hset).
  destruct (Hset Hin eq_refl) as (o & _ & _ & _ & Horders).
  rewrite Horders. reflexivity.
Defined.

Lemma orders_of_listed_status_witness :
  authMiddleware new_orders_request = inr (with_user new_orders_request manager)
  /\ In "NEW" allowed_statuses
  /\ exists rows,
       fst (serve GET_orders new_orders_request store) = respond 200 (JOrders rows)
       /\ forall row, In row rows -> ov_status row = "NEW".
Proof.
  assert (Hauth : authMiddleware new_orders_request
                  = inr (with_user new_orders_request manager)) by reflexivity.
  assert (Hin : In "NEW" allowed_statuses) by (simpl; auto).
  split; [exact Hauth|]. split; [exact Hin|].
  destruct (orders_of_listed_status new_orders_request store manager "NEW"
              Hauth eq_refl Hin eq_refl eq_refl eq_refl)
    as (rows & Hres & Hrows & _).
  exists rows. split; [exact Hres|].
  intros row Hrow. apply Hrows in Hrow.
  destruct Hrow as (o & _ & Hst & ->). exact Hst.
Defined.


Lemma stats_report_counts_witness :
  authMiddleware manager_stats_request = inr (with_user manager_stats_request manager)
  /\ exists r,
       fst (serve GET_stats manager_stats_request store) = respond 200 (JStats r)
       /\ statusCounts_NEW r = 1
       /\ totalOrders r = 2.
Proof.
  assert (Hauth : authMiddleware manager_stats_request
                  = inr (with_user manager_stats_request manager)) by reflexivity.
  split; [exact Hauth|].
  destruct (stats_report_counts manager_stats_request store manager Hauth)
    as (r & Hres & Hnew & Hip & Hdone & Hcan & _ & Htotal & _).
  exists r. split; [exact Hres|]. split; [rewrite Hnew; reflexivity|].
  rewrite <- Htotal, Hnew, Hip, Hdone, Hcan. reflexivity.
Defined.

Lemma Q5_active_steps_first_witness :
  exists x y,
    precedes x y (Q5 underway_db)
    /\ q5_status x = "IN_PROGRESS" /\ q5_status y = "PLANNED"
    /\ q5_order_id x <= q5_order_id y.
Proof.
  exists {| q5_order_id := 1; q5_product := "bracket"; q5_route_step_id := 2;
            q5_step_no := 2; q5_operation := "milling"; q5_workshop := Some "A";
            q5_status := "IN_PROGRESS" |},
         {| q5_order_id := 1; q5_product := "bracket"; q5_route_step_id := 3;
            q5_step_no := 3; q5_operation := "milling"; q5_workshop := None;
            q5_status := "PLANNED" |}.
  assert (Hprec : precedes
            {| q5_order_id := 1; q5_product := "bracket"; q5_route_step_id := 2;
               q5_step_no := 2; q5_operation := "milling"; q5_workshop := Some "A";
               q5_status := "IN_PROGRESS" |}
            {| q5_order_id := 1; q5_product := "bracket"; q5_route_step_id := 3;
               q5_step_no := 3; q5_operation := "milling"; q5_workshop := None;
               q5_status := "PLANNED" |}
            (Q5 underway_db)).
  { exists [], [], []. reflexivity. }
  split; [exact Hprec|]. split; [reflexivity|]. split; [reflexivity|].
  apply (Q5_active_steps_first underway_db _ _ Hprec).
Defined.

Lemma Q8_one_row_per_unit_witness :
  unique_ids (map e_id (equipment workload_db)) = true
  /\ unique_ids (map w_id (workshops workload_db)) = true
  /\ length (Q8 workload_db) = 2%nat.
Proof.
  assert (Hke : unique_ids (map e_id (equipment workload_db)) = true) by reflexivity.
  assert (Hkw : unique_ids (map w_id (workshops workload_db)) = true) by reflexivity.
  split; [exact Hke|]. split; [exact Hkw|].
  destruct (Q8_one_row_per_unit workload_db Hke Hkw) as [Hperm _].
  rewrite (Permutation_length Hperm). reflexivity.
Defined.

Lemma Q10_counts_steps_per_workshop_witness :
  unique_ids (map w_id (workshops underway_db)) = true
  /\ List.NoDup (map q10_workshop (Q10 underway_db)).
Proof.
  assert (Hkw : unique_ids (map w_id (workshops underway_db)) = true) by reflexivity.
  split; [exact Hkw|].
  apply (Q10_counts_steps_per_workshop underway_db Hkw).
Defined.

Lemma Q11_totals_per_product_name_witness :
  unique_ids (map p_id goods) = true
  /\ forall row, In row (Q11 lines goods) -> q11_product row = "bracket" ->
       q11_total_qty row = 6.
Proof.
  assert (Hkp : unique_ids (map p_id goods) = true) by reflexivity.
  split; [exact Hkp|]. intros row Hrow Hname.
  destruct (Q11_totals_per_product_name lines goods Hkp) as (_ & Hrows & _).
  destruct (Hrows row Hrow) as [Htotal _].
  rewrite Htotal, Hname. reflexivity.
Defined.


Lemma store_tokens (u : UserRow) :
  In u (users store) ->
  jwt_verify (generateToken u)
  = Some {| pr_id := u_id u; pr_username := u_username u; pr_role := u_role u |}.
Proof. intros [<-|[<-|[]]]; reflexivity. Qed.

Lemma session_token_authenticates_witness :
  fst (answer POST_login (login_request "root" "r") store)
  = Session "admin-token" "root" "ADMIN"
  /\ has_space "admin-token" = false
  /\ forall s', fst (serve GET_stats_mv (with_token anonymous_request "admin-token") s')
                = respond 200 (JMv (order_stats_mv s')).
Proof.
  assert (Hsession : fst (answer POST_login (login_request "root" "r") store)
                     = Session "admin-token" "root" "ADMIN") by reflexivity.
  assert (Hspace : has_space "admin-token" = false) by reflexivity.
  assert (Htoken : "admin-token" <> "") by discriminate.
  split; [exact Hsession|]. split; [exact Hspace|].
  destruct (session_token_authenticates (login_request "root" "r") anonymous_request
              store "admin-token" "root" "ADMIN" store_tokens Hsession Hspace Htoken)
    as (u & _ & _ & _ & _ & Hadmin & _).
  now apply Hadmin.
Defined.

Lemma login_after_creation_witness :
  authMiddleware create_user_request = inr (with_user create_user_request admin)
  /\ ~ In "anna" (map u_username (users store))
  /\ bcrypt_compare "secret" (bcrypt_hash "secret") = true
  /\ fst (answer POST_login (login_request "anna" "secret")
            (snd (serve POST_users create_user_request store)))
     = Session "manager-token" "anna" "MANAGER".
Proof.
  assert (Hauth : authMiddleware create_user_request
                  = inr (with_user create_user_request admin)) by reflexivity.
  assert (Hfree : ~ In "anna" (map u_username (users store)))
    by (simpl; intuition discriminate).
  assert (Hhash : bcrypt_compare "secret" (bcrypt_hash "secret") = true)
    by reflexivity.
  split; [exact Hauth|]. split; [exact Hfree|]. split; [exact Hhash|].
  assert (Hname : "anna" <> "") by discriminate.
  assert (Hpw : "secret" <> "") by discriminate.
  destruct (login_after_creation create_user_request
              (login_request "anna" "secret") store admin "anna" "secret"
              Hauth eq_refl eq_refl Hname eq_refl Hpw Hfree Hhash eq_refl eq_refl)
    as [_ Hsession].
  exact Hsession.
Defined.


Lemma order_deletion_outcome_witness :
  authMiddleware delete_order_request = inr (with_user delete_order_request manager)
  /\ map ord_id (orders (snd (answer DELETE_orders_id delete_order_request store)))
     = [1].
Proof.
  assert (Hauth : authMiddleware delete_order_request
                  = inr (with_user delete_order_request manager)) by reflexivity.
  split; [exact Hauth|].
  destruct (order_deletion_outcome delete_order_request store manager Hauth)
    as (_ & Hdeleted & _).
  destruct (Hdeleted 2 eq_refl) as [Horders _].
  rewrite Horders. reflexivity.
Defined.

Lemma requester_keeps_account_witness :
  authMiddleware delete_manager_request = inr (with_user delete_manager_request admin)
  /\ In "root" (map u_username
                  (users (snd (serve DELETE_users_id delete_manager_request store)))).
Proof.
  assert (Hauth : authMiddleware delete_manager_request
                  = inr (with_user delete_manager_request admin)) by reflexivity.
  split; [exact Hauth|].
  assert (Hint : forall n,
             int_in (number_to_string (parseInt (params_id delete_manager_request)))
             = Some n ->
             parseInt (params_id delete_manager_request) = Some n)
    by (intros n Hn; exact Hn).
  apply (in_map u_username _
           {| u_id := 1; u_username := "root"; u_password_hash := "$2b$10$r";
              u_full_name := None; u_role := "ADMIN"; u_created_at := 100 |}).
  apply (requester_keeps_account delete_manager_request store admin Hauth Hint).
  - simpl. auto.
  - reflexivity.
Defined.

End SampleFacts.
